(** * GK Group site: contact-submission pipeline, content store, admin toggles

    A shallow embedding of [gk_group_app] (models.py, views.py, admin.py)
    and the properties of its specification.

    Conventions.
    - A Python [str] is a list of Unicode code points ([N]); dictionary
      keys that are program identifiers (field names, META keys, header
      names) are Rocq [string]s.
    - The database tables are explicit state: [gk_group_app_contactmessage]
      is a finite map from primary key to row, [gk_group_app_sitecontent]
      a list of rows.
    - Views run in a state-and-exception monad over a [World]; state
      written before an exception is raised stays written, as in Python.
    - The collaborators the views call but do not define (clock, template
      engine, mail transport, storage availability, settings) are the
      fields of an [Env] record.
    - [save()] stores the address of a message as the address field
      prepares it; the framework's IPv6 cleaning, one function for the
      whole installation, is the [Framework] class. *)

From Stdlib Require Import ZArith NArith String Ascii Lia.
From stdpp Require Import base option list gmap strings pretty fin_maps.

Local Open Scope string_scope.
Local Open Scope list_scope.
Local Open Scope Z_scope.

(** ** Python strings *)

Module Py.

Definition char : Type := N.
Definition str : Type := list N.

(** An ASCII literal as a Python string. *)
Definition lit (s : string) : str :=
  N_of_ascii <$> list_ascii_of_string s.

Definition LF : char := 10%N.
Definition COMMA : char := 44%N.
Definition COLON : char := 58%N.
Definition PERIOD : char := 46%N.

Definition ascii_lower (c : char) : bool := ((97 <=? c) && (c <=? 122))%N.
Definition ascii_upper (c : char) : bool := ((65 <=? c) && (c <=? 90))%N.
Definition ascii_letter (c : char) : bool := ascii_lower c || ascii_upper c.
Definition ascii_digit (c : char) : bool := ((48 <=? c) && (c <=? 57))%N.

(** [str.isspace] on one code point, which is what [\s] matches in a
    [str] pattern: the ASCII controls 09-0D and 1C-1F, the space, and
    the Unicode separators. *)
Definition isspace (c : char) : bool :=
  (((9 <=? c) && (c <=? 13)) || ((28 <=? c) && (c <=? 31)) || (c =? 32)
   || (c =? 133) || (c =? 160) || (c =? 5760)
   || ((8192 <=? c) && (c <=? 8202))
   || (c =? 8232) || (c =? 8233) || (c =? 8239) || (c =? 8287)
   || (c =? 12288))%N.

(** [s.split(sep)] for a one-character separator: never the empty list. *)
Fixpoint split (sep : char) (s : str) : list str :=
  match s with
  | [] => [[]]
  | c :: s' =>
      if (c =? sep)%N then [] :: split sep s'
      else match split sep s' with
           | [] => [[c]]
           | w :: ws => (c :: w) :: ws
           end
  end.

(** Truthiness of an optional string: [None] and [''] are falsy. *)
Definition truthy (o : option str) : bool :=
  match o with
  | Some (_ :: _) => true
  | _ => false
  end.

(** The longest prefix of [s] whose characters satisfy [cls]. *)
Fixpoint span (cls : char -> bool) (s : str) : str :=
  match s with
  | c :: s' => if cls c then c :: span cls s' else []
  | [] => []
  end.

(** [re.search(r'^[cls]+$', s)] succeeds: the class repetition takes
    some non-empty part [k] of the leading run of class characters,
    and [$] then stands at the end of the string or just before a
    final newline. *)
Definition search_class_plus (cls : char -> bool) (s : str) : bool :=
  existsb
    (fun k => bool_decide (drop k s = [] \/ drop k s = [LF]))
    (seq 1 (length (span cls s))).

End Py.

Import Py.

(** ** Exceptions and results *)

Inductive exn :=
| IndexError
| DoesNotExist
| MultipleObjectsReturned
| BadHeaderError (msg : str)
| DatabaseError (msg : str)
| MailError (msg : str)
| TemplateError (msg : str).

(** [str(e)] *)
Definition exn_str (e : exn) : str :=
  match e with
  | IndexError => lit "list index out of range"
  | DoesNotExist => lit "matching query does not exist."
  | MultipleObjectsReturned => lit "get() returned more than one object"
  | BadHeaderError msg | DatabaseError msg | MailError msg
  | TemplateError msg => msg
  end.

Inductive result (A : Type) :=
| Ok (a : A)
| Raise (e : exn).
Arguments Ok {A} a.
Arguments Raise {A} e.

(** ** models.py *)

(** The validators of [django.core.validators] that the field
    declarations attach, as functions from a value to the error
    messages they add. *)
Module Validators.

(** [RegexValidator(regex=r'^[cls]+$', message=msg)] *)
Definition regex (cls : char -> bool) (msg : str) (v : str) : list str :=
  if search_class_plus cls v then [] else [msg].

(** [MaxLengthValidator(limit)] *)
Definition max_length (limit : nat) (v : str) : list str :=
  if bool_decide (length v <= limit)%nat then []
  else [lit ("Ensure this value has at most " +:+ pretty limit
             +:+ " characters (it has " +:+ pretty (length v) +:+ ").")].

(** [MinLengthValidator(limit)] *)
Definition min_length (limit : nat) (v : str) : list str :=
  if bool_decide (limit <= length v)%nat then []
  else [lit ("Ensure this value has at least " +:+ pretty limit
             +:+ " characters (it has " +:+ pretty (length v) +:+ ").")].

End Validators.

Module ContactMessage.

(** An instance of the model. [pk] and [updated_at] are [None] until the
    first [save()]. *)
Record t := mk {
  pk : option nat;
  name : str;
  email : str;
  phone : option str;
  message : str;
  subject : str;
  interest_area : str;
  ip_address : option str;
  user_agent : str;
  is_read : bool;
  is_archived : bool;
  created_at : Z;
  updated_at : option Z
}.

(** *** Field declarations *)

(** [name]: [max_length=100], regex [^[a-zA-Z\s\.]+$]. *)
Definition name_max_length : nat := 100.
Definition name_class (c : char) : bool :=
  ascii_letter c || isspace c || (c =? PERIOD)%N.
Definition name_message : str :=
  lit "Name should only contain letters, spaces, and periods.".
Definition name_validators (v : str) : list str :=
  Validators.regex name_class name_message v
  ++ Validators.max_length name_max_length v.

(** [email]: [max_length=254]. *)
Definition email_max_length : nat := 254.

(** [phone]: [max_length=20], optional, regex [^[\d\+\-\s\(\)]+$];
    [decimal] is the Unicode decimal-digit class that [\d] stands for. *)
Definition phone_max_length : nat := 20.
Definition phone_class (decimal : char -> bool) (c : char) : bool :=
  decimal c || (c =? 43)%N || (c =? 45)%N || isspace c
  || (c =? 40)%N || (c =? 41)%N.
Definition phone_message : str :=
  lit "Phone number should only contain digits, +, -, spaces, and parentheses.".
Definition phone_validators (decimal : char -> bool) (v : str) : list str :=
  Validators.regex (phone_class decimal) phone_message v
  ++ Validators.max_length phone_max_length v.

(** [message]: [min_length=10], [max_length=2000]. *)
Definition message_min_length : nat := 10.
Definition message_max_length : nat := 2000.

(** [subject]: [max_length=200], [default="General Inquiry"]. *)
Definition subject_max_length : nat := 200.
Definition subject_default : str := lit "General Inquiry".

(** [interest_area]: [max_length=50], [choices], [default='general']. *)
Definition interest_area_max_length : nat := 50.
Definition interest_area_choices : list (str * str) :=
  [ (lit "general", lit "General Inquiry");
    (lit "gk_textiles", lit "GK Textiles");
    (lit "gk_steels", lit "GK Steels");
    (lit "partnership", lit "Partnership");
    (lit "feedback", lit "Feedback") ].
Definition interest_area_default : str := lit "general".

(** [ContactMessage()] at clock reading [now]: every field at its
    declared default ([created_at] has [default=timezone.now]). *)
Definition new (now : Z) : t :=
  {| pk := None; name := []; email := []; phone := None; message := [];
     subject := subject_default; interest_area := interest_area_default;
     ip_address := None; user_agent := [];
     is_read := false; is_archived := false;
     created_at := now; updated_at := None |}.

(** *** Attribute assignment *)

Definition set_pk (v : option nat) (m : t) : t :=
  mk v (name m) (email m) (phone m) (message m) (subject m)
     (interest_area m) (ip_address m) (user_agent m) (is_read m)
     (is_archived m) (created_at m) (updated_at m).
Definition set_ip_address (v : option str) (m : t) : t :=
  mk (pk m) (name m) (email m) (phone m) (message m) (subject m)
     (interest_area m) v (user_agent m) (is_read m)
     (is_archived m) (created_at m) (updated_at m).
Definition set_user_agent (v : str) (m : t) : t :=
  mk (pk m) (name m) (email m) (phone m) (message m) (subject m)
     (interest_area m) (ip_address m) v (is_read m)
     (is_archived m) (created_at m) (updated_at m).
Definition set_is_read (v : bool) (m : t) : t :=
  mk (pk m) (name m) (email m) (phone m) (message m) (subject m)
     (interest_area m) (ip_address m) (user_agent m) v
     (is_archived m) (created_at m) (updated_at m).
Definition set_is_archived (v : bool) (m : t) : t :=
  mk (pk m) (name m) (email m) (phone m) (message m) (subject m)
     (interest_area m) (ip_address m) (user_agent m) (is_read m)
     v (created_at m) (updated_at m).
Definition set_updated_at (v : option Z) (m : t) : t :=
  mk (pk m) (name m) (email m) (phone m) (message m) (subject m)
     (interest_area m) (ip_address m) (user_agent m) (is_read m)
     (is_archived m) (created_at m) v.

End ContactMessage.

Module SiteContent.

Record t := mk {
  content_type : str;
  content : str;
  is_active : bool;
  created_at : Z;
  updated_at : Z
}.

Definition CONTENT_TYPES : list (str * str) :=
  [ (lit "hero_title", lit "Hero Section Title");
    (lit "hero_subtitle", lit "Hero Section Subtitle");
    (lit "about_text", lit "About Section Text");
    (lit "contact_info", lit "Contact Information");
    (lit "meta_description", lit "Meta Description");
    (lit "footer_text", lit "Footer Text");
    (lit "announcement", lit "Site Announcement") ].

(** [cls.objects.get(content_type=key, is_active=True)] over the rows of
    the table: the one matching row, or one of the two lookup errors. *)
Definition objects_get (rows : list t) (key : str) : result t :=
  match filter (fun r => content_type r = key /\ is_active r = true) rows with
  | [] => Raise DoesNotExist
  | [r] => Ok r
  | _ :: _ :: _ => Raise MultipleObjectsReturned
  end.

(** [SiteContent.get_content(content_type, default=None)]: only
    [DoesNotExist] is caught. *)
Definition get_content (rows : list t) (key : str) (default : option str)
  : result (option str) :=
  match objects_get rows key with
  | Ok content_obj => Ok (Some (content content_obj))
  | Raise DoesNotExist => Ok default
  | Raise e => Raise e
  end.

(** The [unique=True] constraint on [content_type]. *)
Definition unique_content_type (rows : list t) : Prop :=
  NoDup (content_type <$> rows).

End SiteContent.

(** ** The world the views act on *)

Inductive Level := INFO | SUCCESS | ERROR.

(** The arguments of one [send_mail] call. *)
Record EmailMessage := {
  mail_subject : str;
  mail_message : str;
  mail_from_email : str;
  mail_recipient_list : list str;
  mail_html_message : str
}.

Record World := {
  contact_messages : gmap nat ContactMessage.t;
  site_contents : list SiteContent.t;
  log : list (Level * str);
  flash : list (Level * str);
  outbox : list EmailMessage
}.

Definition set_contact_messages
  (f : gmap nat ContactMessage.t -> gmap nat ContactMessage.t) (w : World)
  : World :=
  {| contact_messages := f (contact_messages w);
     site_contents := site_contents w; log := log w; flash := flash w;
     outbox := outbox w |}.
Definition add_log (r : Level * str) (w : World) : World :=
  {| contact_messages := contact_messages w;
     site_contents := site_contents w; log := log w ++ [r]; flash := flash w;
     outbox := outbox w |}.
Definition add_flash (r : Level * str) (w : World) : World :=
  {| contact_messages := contact_messages w;
     site_contents := site_contents w; log := log w; flash := flash w ++ [r];
     outbox := outbox w |}.
Definition add_outbox (m : EmailMessage) (w : World) : World :=
  {| contact_messages := contact_messages w;
     site_contents := site_contents w; log := log w; flash := flash w;
     outbox := outbox w ++ [m] |}.

(** Values a template context or a JSON payload holds. *)
Inductive Value :=
| VBool (b : bool)
| VStr (s : str)
| VNone
| VErrors (errors : gmap string (list str))
| VForm (data : option (gmap string str)) (errors : gmap string (list str))
| VMessage (m : ContactMessage.t).

Record Settings := {
  DEFAULT_FROM_EMAIL : option str;
  CONTACT_EMAIL : option str
}.

(** What one request observes of its collaborators. *)
Record Env := {
  settings : Settings;
  (** [timezone.now()] when the model instance is built *)
  clock_new : Z;
  (** [timezone.now()] when [save()] refreshes [updated_at] *)
  clock_save : Z;
  (** the error the storage raises on a write, if it does *)
  storage_error : option exn;
  (** URL resolution, [reverse(name, args)] *)
  reverse : string -> list nat -> result str;
  render_to_string : string -> gmap string Value -> result str;
  strip_tags : str -> str;
  (** the error the mail transport raises for a message, if it does *)
  transport : EmailMessage -> option exn
}.

(** State and exceptions: what was written before a [Raise] stays. *)
Definition M (A : Type) : Type := World -> result A * World.

Global Instance M_ret : MRet M := fun A a w => (Ok a, w).
Global Instance M_bind : MBind M := fun A B k c w =>
  match c w with
  | (Ok a, w') => k a w'
  | (Raise e, w') => (Raise e, w')
  end.

Definition raise {A} (e : exn) : M A := fun w => (Raise e, w).

Definition lift {A} (r : result A) : M A := fun w => (r, w).

(** [try: body  except Exception as e: handler(e)] *)
Definition try_except {A} (body : M A) (handler : exn -> M A) : M A :=
  fun w =>
    match body w with
    | (Ok a, w') => (Ok a, w')
    | (Raise e, w') => handler e w'
    end.

Definition logger_info (msg : str) : M unit :=
  fun w => (Ok tt, add_log (INFO, msg) w).
Definition logger_error (msg : str) : M unit :=
  fun w => (Ok tt, add_log (ERROR, msg) w).
Definition messages_success (msg : str) : M unit :=
  fun w => (Ok tt, add_flash (SUCCESS, msg) w).
Definition messages_error (msg : str) : M unit :=
  fun w => (Ok tt, add_flash (ERROR, msg) w).

(** *** What the store does to an address

    [ip_address] is a [GenericIPAddressField]: on every [save()] its
    value passes through the field's [get_prep_value] and the backend's
    [adapt_ipaddressfield_value] before it reaches the row; the
    attribute of the instance stays as it was assigned. [get_prep_value]
    calls [django.utils.ipv6.clean_ipv6_address], which this class stands
    for: the normal form of a valid IPv6 address, [None] where the
    function raises [ValidationError]. A normal form is itself valid and
    is its own normal form. *)
Class Framework := {
  clean_ipv6_address : str -> option str;
  clean_ipv6_address_normal :
    forall value normal,
      clean_ipv6_address value = Some normal ->
      clean_ipv6_address normal = Some normal
}.

(** [GenericIPAddressField.get_prep_value(value)]: a non-empty value
    with a colon in it is cleaned as an IPv6 address, and kept as it is
    when the cleaning raises. *)
Definition get_prep_value `{Framework} (value : option str) : option str :=
  match value with
  | None => None
  | Some value =>
      if truthy (Some value) && bool_decide (COLON ∈ value) then
        match clean_ipv6_address value with
        | Some normal => Some normal
        | None => Some value
        end
      else Some value
  end.

(** [connection.ops.adapt_ipaddressfield_value(value)]: [value or None] *)
Definition adapt_ipaddressfield_value (value : option str) : option str :=
  if truthy value then value else None.

(** [GenericIPAddressField.get_db_prep_value(value, connection)] *)
Definition get_db_prep_value `{Framework} (value : option str) : option str :=
  adapt_ipaddressfield_value (get_prep_value value).

(** The row the store holds for an instance: the attributes of the
    instance, the address as prepared for the store. *)
Definition stored_form `{Framework} (m : ContactMessage.t) : ContactMessage.t :=
  ContactMessage.set_ip_address
    (get_db_prep_value (ContactMessage.ip_address m)) m.

(** The key an INSERT gives a row that comes without one: one past the
    largest key of the table, 1 in an empty table. *)
Definition next_pk (rows : gmap nat ContactMessage.t) : nat :=
  S (max_list (elements (dom rows))).

(** [instance.save()]: insert under a new key when the instance has none,
    else write the row of its key; [auto_now] refreshes [updated_at].
    The instance keeps its attributes and gets the key; the row is the
    instance in its stored form. *)
Definition save `{Framework} (env : Env) (m : ContactMessage.t)
  : M ContactMessage.t :=
  fun w =>
    match storage_error env with
    | Some e => (Raise e, w)
    | None =>
        let k := match ContactMessage.pk m with
                 | Some k => k
                 | None => next_pk (contact_messages w)
                 end in
        let m' := ContactMessage.set_pk (Some k)
                    (ContactMessage.set_updated_at (Some (clock_save env)) m) in
        (Ok m', set_contact_messages (insert k (stored_form m')) w)
    end.

(** [send_mail(..., fail_silently=False)] *)
Definition send_mail (env : Env) (mail : EmailMessage) : M nat :=
  fun w =>
    match transport env mail with
    | Some e => (Raise e, w)
    | None => (Ok 1%nat, add_outbox mail w)
    end.

(** [SiteContent.get_content(key, default)] against the stored rows. *)
Definition get_content (key : str) (default : option str) : M (option str) :=
  fun w => (SiteContent.get_content (site_contents w) key default, w).

(** ** Requests and responses *)

Record HttpRequest := {
  method : string;
  POST : gmap string str;
  META : gmap string str;
  headers : gmap string str
}.

Inductive HttpResponse :=
| HttpResponseRedirect (url : str)
| TemplateResponse (template : string) (context : gmap string Value)
| JsonResponse (data : gmap string Value)
| HttpResponseBadRequest (content : str)
| HttpResponseNotAllowed (permitted : list string).

Definition status_code (r : HttpResponse) : Z :=
  match r with
  | HttpResponseRedirect _ => 302
  | TemplateResponse _ _ => 200
  | JsonResponse _ => 200
  | HttpResponseBadRequest _ => 400
  | HttpResponseNotAllowed _ => 405
  end.

(** ** forms.py, as the views use it

    [ContactForm] is imported from [.forms]. The views build it from
    [request.POST] alone, ask [is_valid()], read [errors] and call
    [save(commit=False)]; this class is that interface. The form is bound
    to no existing instance, so the object it builds has no key yet. *)
Class ModelForm := {
  form_errors : gmap string str -> gmap string (list str);
  form_save_commit_false : Z -> gmap string str -> ContactMessage.t;
  form_save_is_new :
    forall now data, ContactMessage.pk (form_save_commit_false now data) = None
}.

(** [form.is_valid()] of a bound form: no errors. *)
Definition is_valid `{ModelForm} (data : gmap string str) : bool :=
  bool_decide (form_errors data = ∅).

(** ** views.py *)

Section Views.
Context `{Framework} `{ModelForm}.

(** [get_client_ip(request)] *)
Definition get_client_ip (request : HttpRequest) : result (option str) :=
  let x_forwarded_for := META request !! "HTTP_X_FORWARDED_FOR" in
  if truthy x_forwarded_for then
    match split COMMA (default [] x_forwarded_for) !! 0%nat with
    | Some ip => Ok (Some ip)
    | None => Raise IndexError
    end
  else Ok (META request !! "REMOTE_ADDR").

(** [get_base_context()] *)
Definition get_base_context : gmap string Value :=
  {[ "company_name" := VStr (lit "GK Group");
     "founder_name" := VStr (lit "Mr. Gireesh Kumar");
     "location" := VStr (lit "Palakkad, Kerala, India");
     "tagline" := VStr (lit "Quality You Trust. Service with Commitment.");
     "contact_email" := VStr (lit "gkgroup@mail.com");
     "contact_phone" := VStr (lit "+91 0023 4553 759");
     "whatsapp_number" := VStr (lit "+9100234553759") ]}.

(** [d.update(other)] *)
Definition update (other d : gmap string Value) : gmap string Value :=
  other ∪ d.

(** [send_contact_email_notification(contact_message)]: both handlers
    log and re-raise. *)
Definition send_contact_email_notification
  (env : Env) (contact_message : ContactMessage.t) : M unit :=
  try_except
    (let subject :=
       lit "New Contact Form Submission: "
       ++ ContactMessage.subject contact_message in
     html_message ←
       lift (render_to_string env "emails/contact_notification.html"
               {[ "contact_message" := VMessage contact_message;
                  "site_name" := VStr (lit "GK Group") ]});
     let plain_message := strip_tags env html_message in
     _ ← send_mail env
           {| mail_subject := subject;
              mail_message := plain_message;
              mail_from_email :=
                default (lit "noreply@gkgroup.com")
                        (DEFAULT_FROM_EMAIL (settings env));
              mail_recipient_list :=
                [default (lit "gkgroup@mail.com")
                         (CONTACT_EMAIL (settings env))];
              mail_html_message := html_message |};
     logger_info (lit "Contact email sent successfully for "
                  ++ ContactMessage.email contact_message))
    (fun e =>
       match e with
       | BadHeaderError _ =>
           _ ← logger_error (lit "Invalid header found in contact email");
           raise e
       | _ =>
           _ ← logger_error (lit "Error sending contact email: " ++ exn_str e);
           raise e
       end).

(** The statements both entry points run on a valid form: build the
    instance, stamp it with the requester's address and agent, save it,
    send the notification. *)
Definition save_and_notify (env : Env) (request : HttpRequest) : M unit :=
  let contact_message :=
    form_save_commit_false (clock_new env) (POST request) in
  ip ← lift (get_client_ip request);
  let contact_message := ContactMessage.set_ip_address ip contact_message in
  let contact_message :=
    ContactMessage.set_user_agent
      (default [] (META request !! "HTTP_USER_AGENT")) contact_message in
  contact_message ← save env contact_message;
  send_contact_email_notification env contact_message.

(** [redirect(name)] *)
Definition redirect (env : Env) (name : string) : M HttpResponse :=
  url ← lift (reverse env name []);
  mret (HttpResponseRedirect url).

(** [contact(request)]. The first component of the POST branch is the
    response of the early [return], if it was reached; the second is
    [form] as the page context gets it. *)
Definition contact (env : Env) (request : HttpRequest) : M HttpResponse :=
  let context := get_base_context in
  '(returned, form) ←
    (if bool_decide (method request = "POST") then
       let form := VForm (Some (POST request)) (form_errors (POST request)) in
       if is_valid (POST request) then
         try_except
           (_ ← save_and_notify env request;
            _ ← messages_success
                  (lit "Thank you for contacting us! We will get back to you within 24 hours.");
            response ← redirect env "contact";
            mret (Some response, form))
           (fun e =>
              _ ← logger_error
                    (lit "Error processing contact form: " ++ exn_str e);
              _ ← messages_error
                    (lit "Sorry, there was an error sending your message. Please try again or call us directly.");
              mret (None, form))
       else
         _ ← messages_error (lit "Please correct the errors below.");
         mret (None, form)
     else mret (None, VForm None ∅));
  match returned with
  | Some response => mret response
  | None =>
      contact_info ←
        get_content (lit "contact_info")
          (Some (lit "Visit us during business hours or call us for any inquiries."));
      let context :=
        update
          {[ "page_title" :=
               VStr (lit "Contact GK Group | Visit Our Store in Palakkad");
             "meta_description" :=
               VStr (lit "Contact GK Group for premium textiles and steel products. Visit our store in Palakkad, Kerala or call us. Quick response guaranteed.");
             "form" := form;
             "contact_info" := from_option VStr VNone contact_info;
             "map_latitude" := VStr (lit "10.7867");
             "map_longitude" := VStr (lit "76.6548") ]}
          context in
      mret (TemplateResponse "contact.html" context)
  end.

(** [@require_http_methods(request_method_list)] *)
Definition require_http_methods (request_method_list : list string)
  (view : HttpRequest -> M HttpResponse) (request : HttpRequest)
  : M HttpResponse :=
  if bool_decide (method request ∈ request_method_list) then view request
  else mret (HttpResponseNotAllowed request_method_list).

(** [contact_form_ajax(request)], under its decorator. *)
Definition contact_form_ajax (env : Env) : HttpRequest -> M HttpResponse :=
  require_http_methods ["POST"] (fun request =>
    if negb (bool_decide (headers request !! "X-Requested-With"
                          = Some (lit "XMLHttpRequest")))
    then mret (HttpResponseBadRequest (lit "Invalid request"))
    else if is_valid (POST request) then
      try_except
        (_ ← save_and_notify env request;
         mret (JsonResponse
                 {[ "success" := VBool true;
                    "message" :=
                      VStr (lit "Thank you for contacting us! We will get back to you within 24 hours.") ]}))
        (fun e =>
           _ ← logger_error (lit "Error in AJAX contact form: " ++ exn_str e);
           mret (JsonResponse
                   {[ "success" := VBool false;
                      "message" :=
                        VStr (lit "Sorry, there was an error sending your message. Please try again.") ]}))
    else
      mret (JsonResponse
              {[ "success" := VBool false;
                 "errors" := VErrors (form_errors (POST request));
                 "message" := VStr (lit "Please correct the errors below.") ]})).

End Views.

(** ** admin.py *)

Module Admin.
Section Actions.
Context `{Framework}.

(** [ModelAdmin.message_user(request, message)] *)
Definition message_user (msg : str) : M unit :=
  fun w => (Ok tt, add_flash (INFO, msg) w).

(** The instance the ORM builds from the row stored under key [k]. *)
Definition load (k : nat) (row : ContactMessage.t) : ContactMessage.t :=
  ContactMessage.set_pk (Some k) row.

(** [self.get_object(request, object_id)]: [None] when there is no row. *)
Definition get_object (object_id : nat) : M (option ContactMessage.t) :=
  fun w => (Ok (load object_id <$> contact_messages w !! object_id), w).

(** [queryset.update(...)] on the rows whose keys the queryset selects:
    one UPDATE statement that sets the named column and nothing else
    ([save()] is not called), returning the number of rows matched. *)
Definition queryset_update (env : Env)
  (assign : ContactMessage.t -> ContactMessage.t) (queryset : gset nat)
  : M nat :=
  fun w =>
    match storage_error env with
    | Some e => (Raise e, w)
    | None =>
        (Ok (size (dom (contact_messages w) ∩ queryset)),
         set_contact_messages
           (map_imap (fun k row =>
                        Some (if bool_decide (k ∈ queryset) then assign row
                              else row)))
           w)
    end.

(** What the status column of the change list shows for a row. *)
Inductive StatusCell :=
| MarkAsReadButton (url : str)
| ReadBadge.

(** [ContactMessageAdmin.mark_as_read_action(obj)] *)
Definition mark_as_read_action (env : Env) (obj : ContactMessage.t)
  : M StatusCell :=
  if negb (ContactMessage.is_read obj) then
    let obj := ContactMessage.set_is_read true obj in
    obj ← save env obj;
    url ← lift (reverse env "admin:gk_group_app_contactmessage_change"
                  (option_list (ContactMessage.pk obj)));
    mret (MarkAsReadButton url)
  else mret ReadBadge.

(** [ContactMessageAdmin.mark_as_read(request, queryset)] *)
Definition mark_as_read (env : Env) (queryset : gset nat) : M unit :=
  updated ← queryset_update env (ContactMessage.set_is_read true) queryset;
  message_user (lit (pretty updated +:+ " messages marked as read.")).

(** [ContactMessageAdmin.mark_as_unread(request, queryset)] *)
Definition mark_as_unread (env : Env) (queryset : gset nat) : M unit :=
  updated ← queryset_update env (ContactMessage.set_is_read false) queryset;
  message_user (lit (pretty updated +:+ " messages marked as unread.")).

(** [ContactMessageAdmin.archive_messages(request, queryset)] *)
Definition archive_messages (env : Env) (queryset : gset nat) : M unit :=
  updated ← queryset_update env (ContactMessage.set_is_archived true) queryset;
  message_user (lit (pretty updated +:+ " messages archived.")).

(** [ContactMessageAdmin.unarchive_messages(request, queryset)] *)
Definition unarchive_messages (env : Env) (queryset : gset nat) : M unit :=
  updated ← queryset_update env (ContactMessage.set_is_archived false) queryset;
  message_user (lit (pretty updated +:+ " messages unarchived.")).

(** [GKGroupModelAdmin.mark_read_view(request, object_id)] *)
Definition mark_read_view (env : Env) (request : HttpRequest)
  (object_id : nat) : M HttpResponse :=
  _ ← try_except
        (obj ← get_object object_id;
         match obj with
         | Some obj =>
             let obj := ContactMessage.set_is_read true obj in
             _ ← save env obj;
             message_user (lit "Message marked as read.")
         | None => mret tt
         end)
        (fun e => message_user (lit "Error: " ++ exn_str e));
  changelist ←
    lift (reverse env "admin:gk_group_app_contactmessage_changelist" []);
  mret (HttpResponseRedirect
          (default changelist (META request !! "HTTP_REFERER"))).

End Actions.
End Admin.

(** ** Histories

    Every statement of the sources that writes a contact message, as an
    event; a history is a list of events run in order. An event that
    ends in an unhandled exception leaves the world as it was when the
    exception was raised. *)

Inductive Event :=
| Contact (env : Env) (request : HttpRequest)
| ContactFormAjax (env : Env) (request : HttpRequest)
| StatusColumn (env : Env) (k : nat)
| MarkAsRead (env : Env) (queryset : gset nat)
| MarkAsUnread (env : Env) (queryset : gset nat)
| ArchiveMessages (env : Env) (queryset : gset nat)
| UnarchiveMessages (env : Env) (queryset : gset nat)
| MarkReadView (env : Env) (request : HttpRequest) (object_id : nat).

Section Histories.
Context `{Framework} `{ModelForm}.

Definition step (e : Event) (w : World) : World :=
  match e with
  | Contact env request => (contact env request w).2
  | ContactFormAjax env request => (contact_form_ajax env request w).2
  | StatusColumn env k =>
      match contact_messages w !! k with
      | Some row => (Admin.mark_as_read_action env (Admin.load k row) w).2
      | None => w
      end
  | MarkAsRead env queryset => (Admin.mark_as_read env queryset w).2
  | MarkAsUnread env queryset => (Admin.mark_as_unread env queryset w).2
  | ArchiveMessages env queryset => (Admin.archive_messages env queryset w).2
  | UnarchiveMessages env queryset =>
      (Admin.unarchive_messages env queryset w).2
  | MarkReadView env request object_id =>
      (Admin.mark_read_view env request object_id w).2
  end.

Definition run (history : list Event) (w : World) : World :=
  foldl (fun w e => step e w) w history.

End Histories.

(** The clock reading an event stamps on the rows it saves, if it saves;
    the bulk actions read no clock. *)
Definition event_clock (e : Event) : option Z :=
  match e with
  | Contact env _ | ContactFormAjax env _ | StatusColumn env _
  | MarkReadView env _ _ => Some (clock_save env)
  | _ => None
  end.

(** The clock does not run backwards: from reading [t0] on, the readings
    of a history are non-decreasing. *)
Fixpoint clock_monotone (t0 : Z) (history : list Event) : Prop :=
  match history with
  | [] => True
  | e :: history' =>
      match event_clock e with
      | Some t => t0 <= t /\ clock_monotone t history'
      | None => clock_monotone t0 history'
      end
  end.

(** ** The contact form *)

Module Forms.
Section ContactForm.

(** The framework's email syntax check. *)
Variable validate_email : str -> bool.
(** The Unicode decimal-digit class of [\d]. *)
Variable decimal : char -> bool.

(** Modelled from the spec: forms.py is not among the sources. The
    message for a required field that was left out. *)
Definition required_message : str := lit "This field is required.".

(** Modelled from the spec: forms.py is not among the sources. A
    submitted value that is absent or empty counts as omitted. *)
Definition submitted (raw : option str) : option str :=
  match raw with
  | Some (c :: v) => Some (c :: v)
  | _ => None
  end.

(** Modelled from the spec: forms.py, which defines [ContactForm], is
    not among the sources. Section 4.1: name is non-empty and matches
    the pattern of letters, whitespace and periods. The pattern and the
    length limit are those models.py declares on the field. *)
Definition clean_name (raw : option str) : list str :=
  match submitted raw with
  | None => [required_message]
  | Some v => ContactMessage.name_validators v
  end.

(** Modelled from the spec: forms.py is not among the sources. Section
    4.1: email is non-empty and a syntactically valid address. *)
Definition clean_email (raw : option str) : list str :=
  match submitted raw with
  | None => [required_message]
  | Some v =>
      (if validate_email v then [] else [lit "Enter a valid email address."])
      ++ Validators.max_length ContactMessage.email_max_length v
  end.

(** Modelled from the spec: forms.py is not among the sources. Section
    4.1: phone is optional; if present, only digits, [+], [-], spaces and
    parentheses. *)
Definition clean_phone (raw : option str) : list str :=
  match submitted raw with
  | None => []
  | Some v => ContactMessage.phone_validators decimal v
  end.

(** Modelled from the spec: forms.py is not among the sources. Section
    4.1: message has between 10 and 2000 characters inclusive; the bounds
    are the [min_length] and [max_length] models.py declares. *)
Definition clean_message (raw : option str) : list str :=
  match submitted raw with
  | None => [required_message]
  | Some v =>
      Validators.min_length ContactMessage.message_min_length v
      ++ Validators.max_length ContactMessage.message_max_length v
  end.

(** Modelled from the spec: forms.py is not among the sources. Section
    4.1: subject is free text and may be omitted. *)
Definition clean_subject (raw : option str) : list str :=
  match submitted raw with
  | None => []
  | Some v => Validators.max_length ContactMessage.subject_max_length v
  end.

(** Modelled from the spec: forms.py is not among the sources. Section
    4.1: interest-area is one of the fixed enumeration values and may be
    omitted. *)
Definition clean_interest_area (raw : option str) : list str :=
  match submitted raw with
  | None => []
  | Some v =>
      if bool_decide (v ∈ (ContactMessage.interest_area_choices).*1) then []
      else [lit "Select a valid choice."]
  end.

(** Modelled from the spec: forms.py is not among the sources. Section
    4.1: the validator returns a mapping from field name to error
    messages; a field without errors has no entry. *)
Definition errors (data : gmap string str) : gmap string (list str) :=
  filter (fun entry => entry.2 <> [])
    ({[ "name" := clean_name (data !! "name");
        "email" := clean_email (data !! "email");
        "phone" := clean_phone (data !! "phone");
        "message" := clean_message (data !! "message");
        "subject" := clean_subject (data !! "subject");
        "interest_area" := clean_interest_area (data !! "interest_area") ]}
     : gmap string (list str)).

(** Modelled from the spec: forms.py is not among the sources. Section
    4.1 and 4.2: the record built from the submitted fields; an omitted
    subject or interest-area keeps the default models.py declares, and
    the fields the pipeline and the store own start at their defaults. *)
Definition save_commit_false (now : Z) (data : gmap string str)
  : ContactMessage.t :=
  let object := ContactMessage.new now in
  {| ContactMessage.pk := ContactMessage.pk object;
     ContactMessage.name := default [] (data !! "name");
     ContactMessage.email := default [] (data !! "email");
     ContactMessage.phone := submitted (data !! "phone");
     ContactMessage.message := default [] (data !! "message");
     ContactMessage.subject :=
       default (ContactMessage.subject object) (submitted (data !! "subject"));
     ContactMessage.interest_area :=
       default (ContactMessage.interest_area object)
               (submitted (data !! "interest_area"));
     ContactMessage.ip_address := ContactMessage.ip_address object;
     ContactMessage.user_agent := ContactMessage.user_agent object;
     ContactMessage.is_read := ContactMessage.is_read object;
     ContactMessage.is_archived := ContactMessage.is_archived object;
     ContactMessage.created_at := ContactMessage.created_at object;
     ContactMessage.updated_at := ContactMessage.updated_at object |}.

(** Modelled from the spec: forms.py is not among the sources. The form
    class the views import, assembled from the definitions above. *)
Definition ContactForm : ModelForm :=
  {| form_errors := errors;
     form_save_commit_false := save_commit_false;
     form_save_is_new := fun _ _ => eq_refl |}.

End ContactForm.
End Forms.

(** ** Vocabulary of the properties *)

(** The first comma-separated entry of a header value: its characters up
    to the first comma. *)
Fixpoint first_entry (s : str) : str :=
  match s with
  | [] => []
  | c :: s' => if (c =? COMMA)%N then [] else c :: first_entry s'
  end.

(** The address the specification asks the pipeline to record. *)
Definition client_ip (request : HttpRequest) : option str :=
  match META request !! "HTTP_X_FORWARDED_FOR" with
  | Some (c :: x) => Some (first_entry (c :: x))
  | _ => META request !! "REMOTE_ADDR"
  end.

(** The mail [send_contact_email_notification] hands to the transport,
    given the rendered template. *)
Definition notification_mail (env : Env) (m : ContactMessage.t) (html : str)
  : EmailMessage :=
  {| mail_subject :=
       lit "New Contact Form Submission: " ++ ContactMessage.subject m;
     mail_message := strip_tags env html;
     mail_from_email :=
       default (lit "noreply@gkgroup.com") (DEFAULT_FROM_EMAIL (settings env));
     mail_recipient_list :=
       [default (lit "gkgroup@mail.com") (CONTACT_EMAIL (settings env))];
     mail_html_message := html |}.

Definition notification_template (env : Env) (m : ContactMessage.t)
  : result str :=
  render_to_string env "emails/contact_notification.html"
    {[ "contact_message" := VMessage m; "site_name" := VStr (lit "GK Group") ]}.

(** The transport raises [e] when handed the notification for [m]. *)
Definition transport_throws (env : Env) (m : ContactMessage.t) (e : exn)
  : Prop :=
  exists html,
    notification_template env m = Ok html
    /\ transport env (notification_mail env m html) = Some e.

(** The error, if any, that ends the notification for [m]. *)
Definition notification_error (env : Env) (m : ContactMessage.t)
  : option exn :=
  match notification_template env m with
  | Raise e => Some e
  | Ok html => transport env (notification_mail env m html)
  end.

(** The record the notifier writes to the log when it fails with [e]. *)
Definition failure_record (e : exn) : Level * str :=
  match e with
  | BadHeaderError _ => (ERROR, lit "Invalid header found in contact email")
  | _ => (ERROR, lit "Error sending contact email: " ++ exn_str e)
  end.

(** The page flow answers "submission received": a redirect, the last
    flash message a success. *)
Definition page_reports_success (out : result HttpResponse * World) : bool :=
  match out.1, last (flash out.2) with
  | Ok (HttpResponseRedirect _), Some (SUCCESS, _) => true
  | _, _ => false
  end.

(** The programmatic flow answers "submission received": a payload whose
    [success] is true. *)
Definition ajax_reports_success (out : result HttpResponse * World) : bool :=
  match out.1 with
  | Ok (JsonResponse data) =>
      match data !! "success" with
      | Some (VBool true) => true
      | _ => false
      end
  | _ => false
  end.

(** Two states of a record that differ at most in the read and archived
    flags and in [updated_at]. *)
Definition frozen (m m' : ContactMessage.t) : Prop :=
  ContactMessage.name m' = ContactMessage.name m
  /\ ContactMessage.email m' = ContactMessage.email m
  /\ ContactMessage.phone m' = ContactMessage.phone m
  /\ ContactMessage.message m' = ContactMessage.message m
  /\ ContactMessage.subject m' = ContactMessage.subject m
  /\ ContactMessage.interest_area m' = ContactMessage.interest_area m
  /\ ContactMessage.ip_address m' = ContactMessage.ip_address m
  /\ ContactMessage.user_agent m' = ContactMessage.user_agent m
  /\ ContactMessage.created_at m' = ContactMessage.created_at m.

(** One state of a record and a later one, across event [e]: the
    submitted fields and [created_at] are the same, and [updated_at] is
    the same or the clock reading of [e]. *)
Definition evolves (e : Event) (m m' : ContactMessage.t) : Prop :=
  frozen m m'
  /\ (ContactMessage.updated_at m' = ContactMessage.updated_at m
      \/ exists t, event_clock e = Some t
                  /\ ContactMessage.updated_at m' = Some t).


(** [e] is a submission through one of the two entry points, not an
    action of the admin. *)
Definition is_submission (e : Event) : bool :=
  match e with
  | Contact _ _ | ContactFormAjax _ _ => true
  | _ => false
  end.

(** [e] is an admin event aimed at the row under key [k]: the status
    column rendered for it, a bulk action whose selection holds it, or
    the mark-read view called with its id. *)
Definition touches (k : nat) (e : Event) : Prop :=
  match e with
  | Contact _ _ | ContactFormAjax _ _ => False
  | StatusColumn _ k' | MarkReadView _ _ k' => k' = k
  | MarkAsRead _ queryset | MarkAsUnread _ queryset
  | ArchiveMessages _ queryset | UnarchiveMessages _ queryset => k ∈ queryset
  end.

(** The last clock reading of a history that started at reading [t0]. *)
Definition last_clock (t0 : Z) (history : list Event) : Z :=
  foldl (fun t e => default t (event_clock e)) t0 history.

(** The address of a row is in the form [save()] gives it, as it is for
    every row that [save()] wrote. *)
Definition as_stored `{Framework} (m : ContactMessage.t) : Prop :=
  get_db_prep_value (ContactMessage.ip_address m) = ContactMessage.ip_address m.

Section Vocabulary.
Context `{Framework} `{ModelForm}.

(** The key the store gives the next new row. *)
Definition new_key (w : World) : nat := next_pk (contact_messages w).

(** The instance as the views stamp it before saving. *)
Definition stamped (env : Env) (request : HttpRequest) : ContactMessage.t :=
  ContactMessage.set_user_agent
    (default [] (META request !! "HTTP_USER_AGENT"))
    (ContactMessage.set_ip_address (client_ip request)
       (form_save_commit_false (clock_new env) (POST request))).

(** The instance after [save()]: what the notifier is handed. *)
Definition saved_instance (env : Env) (request : HttpRequest) (w : World)
  : ContactMessage.t :=
  ContactMessage.set_pk (Some (new_key w))
    (ContactMessage.set_updated_at (Some (clock_save env))
       (stamped env request)).

(** The row [save()] writes for it. *)
Definition persisted (env : Env) (request : HttpRequest) (w : World)
  : ContactMessage.t :=
  stored_form (saved_instance env request w).

(** The world after a valid POST whose save succeeded and whose
    notification failed with [e], before the view's own handler runs. *)
Definition after_failed_notification (env : Env) (request : HttpRequest)
  (e : exn) (w : World) : World :=
  add_log (failure_record e)
    (set_contact_messages
       (insert (new_key w) (persisted env request w)) w).

End Vocabulary.

(** ** Scenarios: concrete requests and collaborators *)

Module Scenario.

(** A stand-in for the framework's email check. *)
Definition validate_email (s : str) : bool := bool_decide (64%N ∈ s).

Definition form : ModelForm := Forms.ContactForm validate_email ascii_digit.

(** A stand-in for the framework's IPv6 cleaning that knows one address,
    in a long spelling and in its normal form. *)
Definition ipv6_long : str := lit "2001:0DB8:0:0:0:0:0:1".
Definition ipv6_normal : str := lit "2001:db8::1".

Definition clean_known_address (value : str) : option str :=
  if bool_decide (value = ipv6_long \/ value = ipv6_normal)
  then Some ipv6_normal else None.

Definition framework : Framework.
Proof.
  refine {| clean_ipv6_address := clean_known_address |}.
  intros value normal. unfold clean_known_address.
  case_bool_decide as Hvalue; [|intros Hnone; discriminate Hnone].
  intros Hsome. injection Hsome as <-.
  apply (f_equal (fun b : bool => if b then Some ipv6_normal else None)
           (bool_decide_eq_true_2 _ (or_intror eq_refl))).
Defined.

Definition empty_world : World :=
  {| contact_messages := ∅; site_contents := []; log := []; flash := [];
     outbox := [] |}.

Definition john_smith : gmap string str :=
  {[ "name" := lit "John Smith";
     "email" := lit "john@x.com";
     "message" := lit "Hello, I need a quote." ]}.

Definition john123 : gmap string str :=
  {[ "name" := lit "John123";
     "email" := lit "john@x.com";
     "message" := lit "short" ]}.

Definition post (data : gmap string str) : HttpRequest :=
  {| method := "POST"; POST := data;
     META := {[ "REMOTE_ADDR" := lit "10.0.0.1";
                "HTTP_X_FORWARDED_FOR" := lit "203.0.113.7, 10.0.0.1";
                "HTTP_USER_AGENT" := lit "Mozilla/5.0" ]};
     headers := {[ "X-Requested-With" := lit "XMLHttpRequest" ]} |}.

(** The same request as it arrives through a proxy that wrote
    [x_forwarded_for]. *)
Definition post_forwarded (x_forwarded_for : str) (data : gmap string str)
  : HttpRequest :=
  {| method := "POST"; POST := data;
     META := {[ "REMOTE_ADDR" := lit "10.0.0.1";
                "HTTP_X_FORWARDED_FOR" := x_forwarded_for;
                "HTTP_USER_AGENT" := lit "Mozilla/5.0" ]};
     headers := {[ "X-Requested-With" := lit "XMLHttpRequest" ]} |}.

Definition post_without_marker (data : gmap string str) : HttpRequest :=
  {| method := "POST"; POST := data;
     META := {[ "REMOTE_ADDR" := lit "10.0.0.1" ]};
     headers := ∅ |}.

(** Collaborators that all work, at clock readings [t] and [t + 1]. *)
Definition env_at (t : Z) : Env :=
  {| settings := {| DEFAULT_FROM_EMAIL := None; CONTACT_EMAIL := None |};
     clock_new := t; clock_save := t + 1;
     storage_error := None;
     reverse := fun name _ => Ok (lit ("/" +:+ name +:+ "/"));
     render_to_string := fun _ _ => Ok (lit "<p>New message</p>");
     strip_tags := fun s => s;
     transport := fun _ => None |}.

(** The same, with a mail transport that refuses every message. *)
Definition env_mail_down (t : Z) : Env :=
  {| settings := settings (env_at t);
     clock_new := t; clock_save := t + 1;
     storage_error := None;
     reverse := reverse (env_at t);
     render_to_string := render_to_string (env_at t);
     strip_tags := strip_tags (env_at t);
     transport := fun _ => Some (MailError (lit "Connection refused")) |}.

Definition row (t : Z) (read : bool) : ContactMessage.t :=
  {| ContactMessage.pk := Some 1%nat;
     ContactMessage.name := lit "John Smith";
     ContactMessage.email := lit "john@x.com";
     ContactMessage.phone := None;
     ContactMessage.message := lit "Hello, I need a quote.";
     ContactMessage.subject := ContactMessage.subject_default;
     ContactMessage.interest_area := ContactMessage.interest_area_default;
     ContactMessage.ip_address := Some (lit "203.0.113.7");
     ContactMessage.user_agent := lit "Mozilla/5.0";
     ContactMessage.is_read := read;
     ContactMessage.is_archived := false;
     ContactMessage.created_at := t;
     ContactMessage.updated_at := Some t |}.

Definition world_with_row (t : Z) : World :=
  {| contact_messages := {[ 1%nat := row t false ]}; site_contents := [];
     log := []; flash := []; outbox := [] |}.

Definition hero (active : bool) : SiteContent.t :=
  {| SiteContent.content_type := lit "hero_title";
     SiteContent.content := lit "Welcome";
     SiteContent.is_active := active;
     SiteContent.created_at := 0; SiteContent.updated_at := 0 |}.

End Scenario.

(** * Further code of the application *)

(** ** More of Python's strings *)

Module PyStr.

Definition AT : char := 64%N.

(** [s.lstrip()] *)
Fixpoint lstrip (s : str) : str :=
  match s with
  | c :: s' => if isspace c then lstrip s' else s
  | [] => []
  end.

(** [s.rstrip()] *)
Definition rstrip (s : str) : str := rev (lstrip (rev s)).

(** [s.strip()] *)
Definition strip (s : str) : str := rstrip (lstrip s).

(** [str(pk)] of a primary key that may still be [None]. *)
Definition str_of_pk (pk : option nat) : str :=
  match pk with
  | Some k => lit (pretty k)
  | None => lit "None"
  end.

End PyStr.

(** ** models.py: methods of [ContactMessage] *)

Module ContactMessageMethods.

(** Timestamps count microseconds; [timedelta(days=d)]. *)
Definition timedelta_days (d : Z) : Z := d * 86400000000.

(** [ContactMessage.get_absolute_url(self)] *)
Definition get_absolute_url (self : ContactMessage.t) : str :=
  lit "/admin/gk_group_app/contactmessage/"
  ++ PyStr.str_of_pk (ContactMessage.pk self) ++ lit "/change/".

(** [ContactMessage.is_recent], read when [timezone.now()] is [now]. *)
Definition is_recent (now : Z) (self : ContactMessage.t) : bool :=
  bool_decide (now - ContactMessage.created_at self <= timedelta_days 1).

End ContactMessageMethods.

(** ** admin.py: list columns *)

Module AdminColumns.

(** [ContactMessageAdmin.subject_preview(obj)] *)
Definition subject_preview (obj : ContactMessage.t) : str :=
  if bool_decide (50 < length (ContactMessage.subject obj))%nat
  then take 50 (ContactMessage.subject obj) ++ lit "..."
  else ContactMessage.subject obj.

(** [SiteContentAdmin.content_preview(obj)] *)
Definition content_preview (obj : SiteContent.t) : str :=
  if bool_decide (100 < length (SiteContent.content obj))%nat
  then take 100 (SiteContent.content obj) ++ lit "..."
  else SiteContent.content obj.

(** What the "Recent" column shows. *)
Inductive RecentCell :=
| RecentBadge
| NoBadge.

(** [ContactMessageAdmin.is_recent(obj)] *)
Definition is_recent (now : Z) (obj : ContactMessage.t) : RecentCell :=
  if ContactMessageMethods.is_recent now obj then RecentBadge else NoBadge.

End AdminColumns.

(** ** views.py: the home page *)

(** Values of a page context that also holds numbers. *)
Inductive PageValue :=
| Plain (v : Value)
| PInt (n : nat).

Inductive PageResponse :=
| Page (template : string) (context : gmap string PageValue).

(** [ContactMessage.objects.filter(is_read=False).count()] *)
Definition unread_count : M nat :=
  fun w =>
    (Ok (size (filter (fun entry => ContactMessage.is_read entry.2 = false)
                 (contact_messages w))),
     w).

(** [index(request)]. The subscription [context['tagline']] reads a key
    of the literal that [get_base_context] returns. *)
Definition index (request : HttpRequest) : M PageResponse :=
  let context := get_base_context in
  hero_title ← get_content (lit "hero_title") (Some (lit "Welcome to GK Group"));
  hero_subtitle ←
    get_content (lit "hero_subtitle")
      (match context !! "tagline" with
       | Some (VStr tagline) => Some tagline
       | _ => None
       end);
  recent_messages_count ← unread_count;
  mret (Page "index.html"
          ({[ "page_title" :=
                Plain (VStr (lit "GK Group | Premium Textiles & Steel in Palakkad, Kerala"));
              "meta_description" :=
                Plain (VStr (lit "GK Group offers premium textiles and steel products in Palakkad, Kerala. Quality clothing, fabrics, construction materials, and hardware with trusted service."));
              "hero_title" := Plain (from_option VStr VNone hero_title);
              "hero_subtitle" := Plain (from_option VStr VNone hero_subtitle);
              "recent_messages_count" := PInt recent_messages_count ]}
           ∪ (Plain <$> context))).

(** ** views.py: the newsletter endpoint *)

Module Newsletter.

(** A parsed JSON document; an object keeps its members in document
    order. *)
#[warnings="-register-all"] Inductive Json :=
| JNull
| JBool (b : bool)
| JInt (n : Z)
| JFloat (literal : str)
| JString (s : str)
| JArray (items : list Json)
| JObject (members : list (str * Json)).

(** Exceptions the view does not catch. *)
Inductive Uncaught :=
| UnicodeDecodeError
| AttributeError (type_name : string) (attribute : string).

(** What [json.loads(request.body)] does with a body. *)
Inductive Loaded :=
| Document (data : Json)
| JSONDecodeError
| NotUnicode.

Inductive Outcome :=
| Responded (response : HttpResponse)
| Escaped (e : Uncaught).

(** [type(v).__name__] *)
Definition type_name (v : Json) : string :=
  match v with
  | JNull => "NoneType"
  | JBool _ => "bool"
  | JInt _ => "int"
  | JFloat _ => "float"
  | JString _ => "str"
  | JArray _ => "list"
  | JObject _ => "dict"
  end.

(** [d.get(key, default)] on the dict that [json.loads] builds from the
    members: a later member with the same key replaces an earlier one. *)
Fixpoint dict_get (members : list (str * Json)) (key : str) (default : Json)
  : Json :=
  match members with
  | [] => default
  | (k, v) :: members' =>
      dict_get members' key (if bool_decide (k = key) then v else default)
  end.

Section View.

(** [json.loads] on the bytes of a request body. *)
Variable json_loads : list N -> Loaded.
(** [str.lower] *)
Variable lower : str -> str.

(** [data.get('email', '').strip().lower()] *)
Definition email_of (data : Json) : Uncaught + str :=
  match data with
  | JObject members =>
      match dict_get members (lit "email") (JString []) with
      | JString s => inr (lower (PyStr.strip s))
      | v => inl (AttributeError (type_name v) "strip")
      end
  | v => inl (AttributeError (type_name v) "get")
  end.

(** [newsletter_subscribe(request)], under [@csrf_exempt] and
    [@require_http_methods(["POST"])]. *)
Definition newsletter_subscribe (request : HttpRequest) (body : list N)
  (w : World) : Outcome * World :=
  if negb (bool_decide (method request ∈ ["POST"])) then
    (Responded (HttpResponseNotAllowed ["POST"]), w)
  else if negb (bool_decide (headers request !! "X-Requested-With"
                             = Some (lit "XMLHttpRequest")))
  then (Responded (HttpResponseBadRequest (lit "Invalid request")), w)
  else
    match json_loads body with
    | JSONDecodeError =>
        (Responded
           (JsonResponse
              {[ "success" := VBool false;
                 "message" := VStr (lit "Invalid request format.") ]}),
         w)
    | NotUnicode => (Escaped UnicodeDecodeError, w)
    | Document data =>
        match email_of data with
        | inl e => (Escaped e, w)
        | inr email =>
            if bool_decide (email = []) || negb (bool_decide (PyStr.AT ∈ email))
            then
              (Responded
                 (JsonResponse
                    {[ "success" := VBool false;
                       "message" :=
                         VStr (lit "Please enter a valid email address.") ]}),
               w)
            else
              (Responded
                 (JsonResponse
                    {[ "success" := VBool true;
                       "message" :=
                         VStr (lit "Thank you for subscribing to our newsletter!") ]}),
               add_log (INFO, lit "Newsletter subscription request: " ++ email)
                 w)
        end
    end.

End View.
End Newsletter.

(** ** urls.py *)

Module Urls.

(** The view functions of views.py. *)
Inductive View :=
| index_view
| about_view
| gk_textiles_view
| gk_steels_view
| contact_view
| contact_form_ajax_view
| newsletter_subscribe_view
| custom_404_view
| custom_500_view
| robots_txt_view
| sitemap_xml_view.

Global Instance View_eq_dec : EqDecision View.
Proof. solve_decision. Defined.

(** [path(route, view, name=name)] *)
Record URLPattern := path {
  route : str;
  view : View;
  name : string
}.

Definition app_name : string := "gk_group_app".

Definition urlpatterns : list URLPattern :=
  [ path (lit EmptyString) index_view "home";
    path (lit "about/") about_view "about";
    path (lit "gk-textiles/") gk_textiles_view "gk_textiles";
    path (lit "gk-steels/") gk_steels_view "gk_steels";
    path (lit "contact/") contact_view "contact";
    path (lit "textile/") gk_textiles_view "textile_legacy";
    path (lit "construction/") gk_steels_view "construction_legacy" ].

(** Resolution of a path (without its leading slash) against the
    patterns, none of which has a converter: the first pattern whose
    route is the path. *)
Definition resolve (p : str) : option URLPattern :=
  list_find (fun pattern => route pattern = p) urlpatterns
  ≫= fun found => Some found.2.

End Urls.

(** ** views.py: the sitemap *)

Module StaticViewSitemap.

(** [items(self)] *)
Definition items : list str :=
  [lit "index"; lit "about"; lit "gk_textiles"; lit "gk_steels";
   lit "contact"].

(** [location(self, item)] *)
Definition location (item : str) : str :=
  if bool_decide (item <> lit "index") then lit "/" ++ item ++ lit "/"
  else lit "/".

(** [changefreq(self, item)] *)
Definition changefreq (item : str) : str :=
  let frequencies : gmap str str :=
    {[ lit "index" := lit "weekly";
       lit "about" := lit "monthly";
       lit "gk_textiles" := lit "weekly";
       lit "gk_steels" := lit "weekly";
       lit "contact" := lit "monthly" ]} in
  default (lit "monthly") (frequencies !! item).

End StaticViewSitemap.

(** ** admin.py: what the module registers *)

Module AdminSite.

(** The models of the site: the three of this application and those of
    other applications. *)
Inductive Model :=
| ContactMessageModel
| SiteContentModel
| TeamMemberModel
| OtherModel (label : string).

Global Instance Model_eq_dec : EqDecision Model.
Proof. solve_decision. Defined.

(** The admin classes: the framework's [ModelAdmin], the classes
    admin.py declares, and the classes its closing loop creates with
    [type(f'{model.__name__}Admin', (GKGroupModelAdmin, admin.ModelAdmin), {})]. *)
Inductive AdminClass :=
| ModelAdmin
| ContactMessageAdmin
| SiteContentAdmin
| TeamMemberAdmin
| GKGroupModelAdmin
| Generated (model : Model)
| OtherAdmin (label : string).

Global Instance AdminClass_eq_dec : EqDecision AdminClass.
Proof. solve_decision. Defined.

Inductive RegistryError :=
| AlreadyRegistered (model : Model)
| NotRegistered (model : Model).

Definition Registry : Type := Model -> option AdminClass.

(** [admin.site.register(model, admin_class)] *)
Definition register (model : Model) (admin_class : AdminClass)
  (registry : Registry) : RegistryError + Registry :=
  match registry model with
  | Some _ => inl (AlreadyRegistered model)
  | None =>
      inr (fun m => if decide (m = model) then Some admin_class
                    else registry m)
  end.

(** [admin.site.unregister(model)] *)
Definition unregister (model : Model) (registry : Registry)
  : RegistryError + Registry :=
  match registry model with
  | None => inl (NotRegistered model)
  | Some _ =>
      inr (fun m => if decide (m = model) then None else registry m)
  end.

Definition and_then (r : RegistryError + Registry)
  (k : Registry -> RegistryError + Registry) : RegistryError + Registry :=
  match r with
  | inl e => inl e
  | inr registry => k registry
  end.

(** The body of the closing loop, for one model. *)
Definition reregister (model : Model) (registry : Registry)
  : RegistryError + Registry :=
  and_then (unregister model registry) (register model (Generated model)).

(** Loading admin.py: the three [@admin.register] decorators, then the
    loop over [[ContactMessage, SiteContent, TeamMember]]. *)
Definition load (registry : Registry) : RegistryError + Registry :=
  foldl and_then (inr registry)
    ([ register ContactMessageModel ContactMessageAdmin;
       register SiteContentModel SiteContentAdmin;
       register TeamMemberModel TeamMemberAdmin ]
     ++ (reregister
         <$> [ContactMessageModel; SiteContentModel; TeamMemberModel])).

End AdminSite.

(** * Properties *)

(** ** Python strings *)

Lemma split_head (sep : char) (s : str) :
  exists w ws, split sep s = w :: ws.
Proof.
  induction s as [|c s IH]; simpl; [by eauto|].
  destruct (c =? sep)%N; [by eauto|].
  destruct IH as (w & ws & ->). by eauto.
Qed.

Lemma split_first_entry (s : str) :
  split COMMA s !! 0%nat = Some (first_entry s).
Proof.
  induction s as [|c s IH]; simpl; [done|].
  destruct (c =? COMMA)%N; [done|].
  destruct (split COMMA s) as [|w ws]; simpl in *; [done|].
  by simplify_eq.
Qed.

Lemma span_Forall (cls : char -> bool) (s : str) :
  Forall (fun c => cls c = true) (span cls s).
Proof.
  induction s as [|c s IH]; simpl; [constructor|].
  destruct (cls c) eqn:Hc; by constructor.
Qed.

Lemma span_prefix (cls : char -> bool) (s : str) :
  span cls s `prefix_of` s.
Proof.
  induction s as [|c s IH]; simpl; [done|].
  destruct (cls c); [by apply prefix_cons | apply prefix_nil].
Qed.

Lemma span_all (cls : char -> bool) (s : str) :
  Forall (fun c => cls c = true) s -> span cls s = s.
Proof.
  induction 1 as [|c s Hc _ IH]; simpl; [done|]. by rewrite Hc, IH.
Qed.

(** What the anchored class pattern accepts, when the class contains the
    newline: the non-empty strings of class characters. *)
Lemma search_class_plus_spec (cls : char -> bool) (s : str) :
  cls LF = true ->
  search_class_plus cls s = true
  <-> s <> [] /\ Forall (fun c => cls c = true) s.
Proof.
  intros HLF. unfold search_class_plus. rewrite existsb_exists. split.
  - intros (k & Hk & Hdrop). apply in_seq in Hk.
    apply bool_decide_eq_true in Hdrop.
    destruct (span_prefix cls s) as [r Hr].
    pose proof (span_Forall cls s) as Hall.
    assert (Hlen : length s = (length (span cls s) + length r)%nat).
    { rewrite Hr at 1. by rewrite length_app. }
    destruct Hdrop as [Hnil|Hone].
    + assert (length (drop k s) = 0%nat) as Hd by (by rewrite Hnil).
      rewrite length_drop in Hd.
      assert (length r = 0%nat) as Hr0 by lia.
      apply nil_length_inv in Hr0. subst r. rewrite app_nil_r in Hr.
      rewrite <- Hr in Hall. split; [|done].
      intros ->. simpl in *. lia.
    + split.
      * intros ->. by rewrite drop_nil in Hone.
      * rewrite <- (take_drop k s), Hone. apply Forall_app. split.
        -- rewrite Hr, take_app_le by lia. by apply Forall_take.
        -- by repeat constructor.
  - intros [Hne Hall]. exists (length s). split.
    + apply in_seq. rewrite (span_all _ _ Hall).
      destruct s; [done|simpl; lia].
    + apply bool_decide_eq_true. left. apply drop_all.
Qed.

Lemma name_class_newline : ContactMessage.name_class LF = true.
Proof. reflexivity. Qed.

(** A digit is none of a letter, a whitespace character or a period. *)
Lemma ascii_digit_not_name_class (c : char) :
  ascii_digit c = true -> ContactMessage.name_class c = false.
Proof.
  unfold ascii_digit, ContactMessage.name_class, ascii_letter, ascii_lower,
    ascii_upper, isspace, PERIOD.
  intros Hd. apply andb_true_iff in Hd as [H1 H2].
  apply N.leb_le in H1, H2.
  repeat (apply orb_false_iff; split);
    try (apply andb_false_iff);
    rewrite ?N.eqb_neq, ?N.leb_gt; lia.
Qed.

Lemma name_regex_rejects (v : str) (c : char) :
  c ∈ v -> ContactMessage.name_class c = false ->
  Validators.regex ContactMessage.name_class ContactMessage.name_message v
  = [ContactMessage.name_message].
Proof.
  intros Hin Hc. unfold Validators.regex.
  destruct (search_class_plus _ v) eqn:Hs; [|done].
  apply search_class_plus_spec in Hs as [_ Hall]; [|apply name_class_newline].
  rewrite Forall_forall in Hall. specialize (Hall c Hin). congruence.
Qed.

(** ** The contact form *)

Section FormFacts.
Variable validate_email : str -> bool.
Variable decimal : char -> bool.

Lemma errors_name (data : gmap string str) (errs : list str) :
  Forms.errors validate_email decimal data !! "name" = Some errs
  <-> errs = Forms.clean_name (data !! "name") /\ errs <> [].
Proof.
  unfold Forms.errors. rewrite map_lookup_filter_Some, lookup_insert_eq.
  cbn [snd]. split.
  - intros [[= <-] Hne]. by split.
  - intros [-> Hne]. by split.
Qed.

Lemma errors_message (data : gmap string str) (errs : list str) :
  Forms.errors validate_email decimal data !! "message" = Some errs
  <-> errs = Forms.clean_message (data !! "message") /\ errs <> [].
Proof.
  unfold Forms.errors. rewrite map_lookup_filter_Some.
  do 3 (rewrite lookup_insert_ne by done). rewrite lookup_insert_eq.
  cbn [snd]. split.
  - intros [[= <-] Hne]. by split.
  - intros [-> Hne]. by split.
Qed.

Lemma errors_empty (data : gmap string str) :
  Forms.clean_name (data !! "name") = [] ->
  Forms.clean_email validate_email (data !! "email") = [] ->
  Forms.clean_phone decimal (data !! "phone") = [] ->
  Forms.clean_message (data !! "message") = [] ->
  Forms.clean_subject (data !! "subject") = [] ->
  Forms.clean_interest_area (data !! "interest_area") = [] ->
  Forms.errors validate_email decimal data = ∅.
Proof.
  intros Hn He Hp Hm Hs Hi. apply map_empty. intros field.
  unfold Forms.errors. apply map_lookup_filter_None. right.
  intros errs Hlook. simpl.
  repeat (apply lookup_insert_Some in Hlook as [[<- <-]|[_ Hlook]];
          [congruence|]).
  apply lookup_singleton_Some in Hlook as [<- <-]. congruence.
Qed.

Lemma is_valid_false_of_entry (data : gmap string str) (field : string)
  (errs : list str) :
  Forms.errors validate_email decimal data !! field = Some errs ->
  @is_valid (Forms.ContactForm validate_email decimal) data = false.
Proof.
  intros Hlook. unfold is_valid. apply bool_decide_eq_false.
  change (Forms.errors validate_email decimal data <> ∅).
  intros Hempty. rewrite Hempty, lookup_empty in Hlook. discriminate Hlook.
Qed.

End FormFacts.

(** C5. A submitted name that contains a digit, or any character that is
    not a letter, not whitespace and not a period, fails validation: the
    form is not valid, and its error mapping has an entry for the name
    field, which carries the message of the name pattern. *)
Theorem name_with_digit_or_symbol_rejected
  (validate_email : str -> bool) (decimal : char -> bool)
  (data : gmap string str) (v : str) (c : char) :
  data !! "name" = Some v ->
  c ∈ v ->
  ascii_digit c = true
  \/ (ascii_letter c = false /\ isspace c = false /\ c <> PERIOD) ->
  @is_valid (Forms.ContactForm validate_email decimal) data = false
  /\ exists errs,
       @form_errors (Forms.ContactForm validate_email decimal) data !! "name"
       = Some errs
       /\ ContactMessage.name_message ∈ errs.
Proof.
  intros Hname Hin Hbad.
  assert (Hcls : ContactMessage.name_class c = false).
  { destruct Hbad as [Hd|(Hl & Hs & Hp)].
    - by apply ascii_digit_not_name_class.
    - unfold ContactMessage.name_class. rewrite Hl, Hs. simpl.
      by apply N.eqb_neq. }
  assert (Hentry :
    Forms.errors validate_email decimal data !! "name"
    = Some (ContactMessage.name_validators v)
    /\ ContactMessage.name_message ∈ ContactMessage.name_validators v).
  { assert (Hv : ContactMessage.name_message
                   ∈ ContactMessage.name_validators v).
    { unfold ContactMessage.name_validators.
      rewrite (name_regex_rejects v c Hin Hcls).
      apply elem_of_app. left. apply list_elem_of_here. }
    split; [|done]. apply errors_name. rewrite Hname.
    destruct v as [|c' v']; [by apply elem_of_nil in Hin|]. simpl.
    split; [done|]. intros Hnil. rewrite Hnil in Hv.
    by apply elem_of_nil in Hv. }
  destruct Hentry as [Hlook Hmsg]. split.
  - by eapply is_valid_false_of_entry.
  - by eauto.
Qed.

Lemma name_with_digit_or_symbol_rejected_witness :
  @is_valid Scenario.form Scenario.john123 = false
  /\ exists errs,
       @form_errors Scenario.form Scenario.john123 !! "name" = Some errs
       /\ ContactMessage.name_message ∈ errs.
Proof.
  apply (name_with_digit_or_symbol_rejected
           Scenario.validate_email ascii_digit Scenario.john123
           (lit "John123") 49%N).
  - reflexivity.
  - vm_compute. do 4 apply list_elem_of_further. apply list_elem_of_here.
  - left. reflexivity.
Defined.

Lemma min_length_nil (limit : nat) (v : str) :
  Validators.min_length limit v = [] <-> (limit <= length v)%nat.
Proof.
  unfold Validators.min_length. case_bool_decide as Hle; split; intros Hx.
  - exact Hle.
  - reflexivity.
  - discriminate Hx.
  - contradiction.
Qed.

Lemma max_length_nil (limit : nat) (v : str) :
  Validators.max_length limit v = [] <-> (length v <= limit)%nat.
Proof.
  unfold Validators.max_length. case_bool_decide as Hle; split; intros Hx.
  - exact Hle.
  - reflexivity.
  - discriminate Hx.
  - contradiction.
Qed.

Lemma clean_message_nil (raw : option str) :
  Forms.clean_message raw = []
  <-> (10 <= length (default [] raw) <= 2000)%nat.
Proof.
  unfold Forms.clean_message, Forms.submitted.
  destruct raw as [[|c v]|]; unfold default; cbn [from_option id].
  - split; [intros Hx; discriminate Hx | cbn [length]; lia].
  - rewrite app_nil, min_length_nil, max_length_nil.
    unfold ContactMessage.message_min_length,
      ContactMessage.message_max_length. lia.
  - split; [intros Hx; discriminate Hx | cbn [length]; lia].
Qed.

(** C6. A submitted message shorter than 10 or longer than 2000
    characters fails validation with an entry for the message field in
    the error mapping (an absent message counts as length 0); a message
    of 10 to 2000 characters leaves the message field without an entry. *)
Theorem message_length_enforced
  (validate_email : str -> bool) (decimal : char -> bool)
  (data : gmap string str) :
  let len := length (default [] (data !! "message")) in
  ((len < 10 \/ 2000 < len)%nat ->
   @is_valid (Forms.ContactForm validate_email decimal) data = false
   /\ is_Some (@form_errors (Forms.ContactForm validate_email decimal) data
               !! "message"))
  /\ ((10 <= len <= 2000)%nat ->
      @form_errors (Forms.ContactForm validate_email decimal) data
      !! "message" = None).
Proof.
  intros len. subst len.
  change (@form_errors (Forms.ContactForm validate_email decimal) data)
    with (Forms.errors validate_email decimal data).
  pose proof (clean_message_nil (data !! "message")) as Hnil.
  split.
  - intros Hout.
    assert (Hlook :
      Forms.errors validate_email decimal data !! "message"
      = Some (Forms.clean_message (data !! "message"))).
    { apply errors_message. split; [reflexivity|].
      intros Hx. apply Hnil in Hx. clear Hnil.
      set (n := length _) in *. clearbody n. lia. }
    split.
    + eapply is_valid_false_of_entry. exact Hlook.
    + rewrite Hlook. by eexists.
  - intros Hin. apply Hnil in Hin.
    destruct (Forms.errors validate_email decimal data !! "message")
      as [errs|] eqn:Hlook; [|reflexivity].
    apply errors_message in Hlook as [-> Hne]. contradiction.
Qed.

Lemma message_length_enforced_witness :
  (@is_valid Scenario.form Scenario.john123 = false
   /\ is_Some (@form_errors Scenario.form Scenario.john123 !! "message"))
  /\ @form_errors Scenario.form Scenario.john_smith !! "message" = None.
Proof.
  split.
  - apply (message_length_enforced Scenario.validate_email ascii_digit
             Scenario.john123).
    left. vm_compute. lia.
  - apply (message_length_enforced Scenario.validate_email ascii_digit
             Scenario.john_smith).
    vm_compute. lia.
Defined.
(** ** The pipeline *)

Lemma get_client_ip_ok (request : HttpRequest) :
  get_client_ip request = Ok (client_ip request).
Proof.
  unfold get_client_ip, client_ip.
  destruct (META request !! "HTTP_X_FORWARDED_FOR") as [[|c x]|];
    cbn [truthy]; try reflexivity.
  unfold default. cbn [from_option id]. by rewrite split_first_entry.
Qed.

Lemma notification_failure_run (env : Env) (m : ContactMessage.t) (e : exn)
  (w : World) :
  notification_error env m = Some e ->
  send_contact_email_notification env m w
  = (Raise e, add_log (failure_record e) w).
Proof.
  unfold notification_error, notification_template,
    send_contact_email_notification, try_except, send_mail, notification_mail.
  unfold mbind, M_bind, lift, raise, logger_error, failure_record.
  destruct (render_to_string env _ _) as [html|e'].
  - intros Ht. rewrite Ht. by destruct e.
  - intros [= ->]. by destruct e.
Qed.

Lemma notification_success_run (env : Env) (m : ContactMessage.t)
  (html : str) (w : World) :
  notification_template env m = Ok html ->
  transport env (notification_mail env m html) = None ->
  send_contact_email_notification env m w
  = (Ok tt,
     add_log (INFO, lit "Contact email sent successfully for "
                    ++ ContactMessage.email m)
       (add_outbox (notification_mail env m html) w)).
Proof.
  unfold notification_template,
    send_contact_email_notification, try_except, send_mail, notification_mail.
  unfold mbind, M_bind, lift, logger_info.
  intros -> ->. reflexivity.
Qed.

Section Pipeline.
Context `{Framework} `{ModelForm}.

Lemma save_and_notify_run (env : Env) (request : HttpRequest) (w : World) :
  save_and_notify env request w
  = match storage_error env with
    | Some e => (Raise e, w)
    | None =>
        send_contact_email_notification env (saved_instance env request w)
          (set_contact_messages
             (insert (new_key w) (persisted env request w)) w)
    end.
Proof.
  unfold save_and_notify. rewrite get_client_ip_ok.
  unfold mbind, M_bind, lift, save.
  destruct (storage_error env) as [e|]; [reflexivity|].
  unfold persisted, stamped, new_key.
  cbn [ContactMessage.pk ContactMessage.set_user_agent
       ContactMessage.set_ip_address].
  rewrite form_save_is_new. reflexivity.
Qed.

Lemma save_and_notify_failure (env : Env) (request : HttpRequest) (e : exn)
  (w : World) :
  storage_error env = None ->
  notification_error env (saved_instance env request w) = Some e ->
  save_and_notify env request w
  = (Raise e, after_failed_notification env request e w).
Proof.
  intros Hs He. rewrite save_and_notify_run, Hs.
  by rewrite (notification_failure_run _ _ e).
Qed.

Lemma contact_failure_run (env : Env) (request : HttpRequest) (e : exn)
  (w : World) :
  method request = "POST" ->
  is_valid (POST request) = true ->
  storage_error env = None ->
  notification_error env (saved_instance env request w) = Some e ->
  exists r,
    contact env request w
    = (r,
       add_flash
         (ERROR, lit "Sorry, there was an error sending your message. Please try again or call us directly.")
         (add_log (ERROR, lit "Error processing contact form: " ++ exn_str e)
            (after_failed_notification env request e w)))
    /\ forall url, r <> Ok (HttpResponseRedirect url).
Proof.
  intros Hm Hv Hs He. unfold contact.
  rewrite Hm, Hv. rewrite bool_decide_eq_true_2 by reflexivity.
  unfold mbind at 1. unfold M_bind at 1. unfold try_except.
  unfold mbind at 1. unfold M_bind at 1.
  rewrite (save_and_notify_failure env request e w Hs He).
  unfold mbind, M_bind, logger_error, messages_error, mret, M_ret, get_content.
  cbn [site_contents add_flash add_log after_failed_notification set_contact_messages].
  destruct (SiteContent.get_content _ _ _) as [ci|e'];
    (eexists; split; [reflexivity|]); intros url Hx; discriminate Hx.
Qed.

Lemma contact_form_ajax_failure_run (env : Env) (request : HttpRequest)
  (e : exn) (w : World) :
  method request = "POST" ->
  headers request !! "X-Requested-With" = Some (lit "XMLHttpRequest") ->
  is_valid (POST request) = true ->
  storage_error env = None ->
  notification_error env (saved_instance env request w) = Some e ->
  contact_form_ajax env request w
  = (Ok (JsonResponse
           {[ "success" := VBool false;
              "message" :=
                VStr (lit "Sorry, there was an error sending your message. Please try again.") ]}),
     add_log (ERROR, lit "Error in AJAX contact form: " ++ exn_str e)
       (after_failed_notification env request e w)).
Proof.
  intros Hm Hh Hv Hs He. unfold contact_form_ajax, require_http_methods.
  rewrite Hm, Hh, Hv.
  rewrite bool_decide_eq_true_2 by apply list_elem_of_here.
  rewrite bool_decide_eq_true_2 by reflexivity. cbn [negb].
  unfold try_except. unfold mbind at 1. unfold M_bind at 1.
  rewrite (save_and_notify_failure env request e w Hs He).
  reflexivity.
Qed.

End Pipeline.

Lemma transport_throws_error (env : Env) (m : ContactMessage.t) (e : exn) :
  transport_throws env m e -> notification_error env m = Some e.
Proof.
  intros (html & Ht & He). unfold notification_error. by rewrite Ht.
Qed.

Lemma notification_rows (env : Env) (m : ContactMessage.t) (w : World) :
  contact_messages (send_contact_email_notification env m w).2
  = contact_messages w.
Proof.
  destruct (notification_error env m) as [e|] eqn:He.
  - by rewrite (notification_failure_run env m e w He).
  - unfold notification_error in He.
    destruct (notification_template env m) as [html|e] eqn:Ht;
      [|discriminate He].
    by rewrite (notification_success_run env m html w Ht He).
Qed.

Lemma next_pk_fresh (rows : gmap nat ContactMessage.t) :
  rows !! next_pk rows = None.
Proof.
  apply not_elem_of_dom. intros Hin. apply elem_of_elements in Hin.
  apply max_list_elem_of_le in Hin. unfold next_pk in Hin. lia.
Qed.

Lemma new_key_fresh (w : World) : contact_messages w !! new_key w = None.
Proof. apply next_pk_fresh. Qed.

Lemma new_key_positive (w : World) : (0 < new_key w)%nat.
Proof. unfold new_key, next_pk. lia. Qed.

Section Rows.
Context `{Framework} `{ModelForm}.

Lemma save_and_notify_rows (env : Env) (request : HttpRequest) (w : World) :
  contact_messages (save_and_notify env request w).2
  = match storage_error env with
    | Some _ => contact_messages w
    | None => <[new_key w := persisted env request w]> (contact_messages w)
    end.
Proof.
  rewrite save_and_notify_run.
  destruct (storage_error env); [reflexivity|]. by rewrite notification_rows.
Qed.

Lemma contact_rows (env : Env) (request : HttpRequest) (w : World) :
  contact_messages (contact env request w).2
  = if bool_decide (method request = "POST") && is_valid (POST request)
    then contact_messages (save_and_notify env request w).2
    else contact_messages w.
Proof.
  unfold contact.
  destruct (bool_decide (method request = "POST"));
    [destruct (is_valid (POST request))|]; cbn [andb].
  - unfold try_except, redirect, get_content, messages_success,
      messages_error, logger_error, mbind, M_bind, mret, M_ret, lift.
    destruct (save_and_notify env request w) as [[[]|e] w1]; cbn [snd].
    + destruct (reverse env "contact" []) as [url|e]; cbn [snd];
        [reflexivity|].
      by destruct (SiteContent.get_content _ _ _).
    + by destruct (SiteContent.get_content _ _ _).
  - unfold get_content, messages_error, mbind, M_bind, mret, M_ret.
    by destruct (SiteContent.get_content _ _ _).
  - unfold get_content, mbind, M_bind, mret, M_ret.
    by destruct (SiteContent.get_content _ _ _).
Qed.

Lemma contact_form_ajax_rows (env : Env) (request : HttpRequest) (w : World) :
  contact_messages (contact_form_ajax env request w).2
  = if bool_decide (method request = "POST")
       && bool_decide (headers request !! "X-Requested-With"
                       = Some (lit "XMLHttpRequest"))
       && is_valid (POST request)
    then contact_messages (save_and_notify env request w).2
    else contact_messages w.
Proof.
  unfold contact_form_ajax, require_http_methods.
  destruct (decide (method request = "POST")) as [Hm|Hm].
  - rewrite Hm.
    rewrite (bool_decide_eq_true_2 ("POST" ∈ ["POST"]))
      by apply list_elem_of_here.
    rewrite (bool_decide_eq_true_2 ("POST" = "POST")) by reflexivity.
    destruct (bool_decide (headers request !! "X-Requested-With" = _));
      cbn [negb andb]; [|reflexivity].
    destruct (is_valid (POST request)); [|reflexivity].
    unfold try_except, logger_error, mbind, M_bind, mret, M_ret.
    by destruct (save_and_notify env request w) as [[[]|e] w1].
  - rewrite (bool_decide_eq_false_2 (method request = "POST")) by done.
    rewrite bool_decide_eq_false_2; [reflexivity|].
    intros Hin. apply list_elem_of_singleton in Hin. contradiction.
Qed.

End Rows.

(** ** Notification failure *)

Lemma page_not_redirect_no_success (r : result HttpResponse) (w : World) :
  (forall url, r <> Ok (HttpResponseRedirect url)) ->
  page_reports_success (r, w) = false.
Proof.
  intros Hr. unfold page_reports_success. cbn [fst snd].
  destruct r as [[url| | | |]|]; try reflexivity.
  by destruct (Hr url).
Qed.

(** C1, as amended. When the transport throws for a valid submission
    that was saved, the notifier logs the failure and re-raises, and both
    entry points answer with an error while the row stays stored: the
    page flow adds an error flash message and does not redirect, and the
    programmatic flow returns a payload with [success] false, a generic
    message and no [errors] entry. *)
Theorem notification_failure_reported_as_error `{Framework} `{ModelForm}
  (env : Env) (request : HttpRequest) (e : exn) (w : World) :
  method request = "POST" ->
  is_valid (POST request) = true ->
  storage_error env = None ->
  transport_throws env (saved_instance env request w) e ->
  (exists r w',
     contact env request w = (r, w')
     /\ contact_messages w' !! new_key w = Some (persisted env request w)
     /\ failure_record e ∈ log w'
     /\ flash w'
        = flash w
          ++ [(ERROR, lit "Sorry, there was an error sending your message. Please try again or call us directly.")]
     /\ (forall url, r <> Ok (HttpResponseRedirect url))
     /\ page_reports_success (r, w') = false)
  /\ (headers request !! "X-Requested-With" = Some (lit "XMLHttpRequest") ->
      exists data w',
        contact_form_ajax env request w = (Ok (JsonResponse data), w')
        /\ contact_messages w' !! new_key w = Some (persisted env request w)
        /\ failure_record e ∈ log w'
        /\ data !! "success" = Some (VBool false)
        /\ data !! "message"
           = Some (VStr (lit "Sorry, there was an error sending your message. Please try again."))
        /\ data !! "errors" = None
        /\ ajax_reports_success (Ok (JsonResponse data), w') = false).
Proof.
  intros Hm Hv Hs Ht. apply transport_throws_error in Ht as He.
  split.
  - destruct (contact_failure_run env request e w Hm Hv Hs He)
      as (r & Hrun & Hr).
    eexists r, _. split; [exact Hrun|].
    cbn [contact_messages add_flash add_log after_failed_notification
         set_contact_messages log flash].
    split; [apply lookup_insert_eq|].
    split.
    { apply elem_of_app. left. apply elem_of_app. right.
      apply list_elem_of_here. }
    split; [reflexivity|].
    split; [exact Hr|]. by apply page_not_redirect_no_success.
  - intros Hh.
    eexists _, _. split.
    { exact (contact_form_ajax_failure_run env request e w Hm Hh Hv Hs He). }
    cbn [contact_messages add_flash add_log after_failed_notification
         set_contact_messages log flash].
    split; [apply lookup_insert_eq|].
    split.
    { apply elem_of_app. left. apply elem_of_app. right.
      apply list_elem_of_here. }
    split; [apply lookup_insert_eq|].
    split.
    { rewrite lookup_insert_ne by done. apply lookup_singleton_eq. }
    split.
    { rewrite lookup_insert_ne by done. by apply lookup_singleton_ne. }
    unfold ajax_reports_success. cbn [fst].
    by rewrite lookup_insert_eq.
Qed.

Lemma notification_failure_reported_as_error_witness :
  page_reports_success
    (@contact Scenario.framework Scenario.form (Scenario.env_mail_down 100)
       (Scenario.post Scenario.john_smith) Scenario.empty_world) = false
  /\ ajax_reports_success
       (@contact_form_ajax Scenario.framework Scenario.form
           (Scenario.env_mail_down 100)
          (Scenario.post Scenario.john_smith) Scenario.empty_world) = false.
Proof.
  destruct (@notification_failure_reported_as_error Scenario.framework Scenario.form
              (Scenario.env_mail_down 100)
              (Scenario.post Scenario.john_smith)
              (MailError (lit "Connection refused"))
              Scenario.empty_world)
    as [(r & w' & Hrun & _ & _ & _ & _ & Hpage) Hajax].
  - reflexivity.
  - vm_compute. reflexivity.
  - reflexivity.
  - eexists. split; reflexivity.
  - destruct Hajax as (data & w'' & Hrun' & _ & _ & _ & _ & _ & Hno).
    + reflexivity.
    + rewrite Hrun, Hrun'. split; assumption.
Defined.

(** C1, as stated, fails: John Smith's valid submission is saved, the
    transport refuses the notification, and neither entry point answers
    "submission received". The page flow re-renders with an error flash
    message; the programmatic flow returns [success] false. *)
Lemma notification_failure_counterexample :
  let env := Scenario.env_mail_down 100 in
  let request := Scenario.post Scenario.john_smith in
  let out := @contact Scenario.framework Scenario.form
      env request Scenario.empty_world in
  let out' :=
    @contact_form_ajax Scenario.framework Scenario.form
        env request Scenario.empty_world in
  @is_valid Scenario.form (POST request) = true
  /\ transport_throws env
       (@saved_instance Scenario.form env request Scenario.empty_world)
       (MailError (lit "Connection refused"))
  /\ is_Some (contact_messages out.2 !! 1%nat)
  /\ flash out.2
     = [(ERROR, lit "Sorry, there was an error sending your message. Please try again or call us directly.")]
  /\ page_reports_success out = false
  /\ out'.1
     = Ok (JsonResponse
             {[ "success" := VBool false;
                "message" :=
                  VStr (lit "Sorry, there was an error sending your message. Please try again.") ]})
  /\ ajax_reports_success out' = false.
Proof.
  cbv zeta. split; [vm_compute; reflexivity|].
  split; [eexists; split; reflexivity|].
  split; [vm_compute; by eexists|].
  split; [vm_compute; reflexivity|].
  split; [vm_compute; reflexivity|].
  split; vm_compute; reflexivity.
Qed.

(** C3. When the notification fails after the save, for whatever reason
    (the template or the transport), the row is not rolled back: after
    either entry point returns, the table is the old table plus the new
    row under a key that was free, and that row carries the fields the
    form built, the requester's address in the form the store gives an
    address, the requester's agent, and both timestamps. *)
Theorem failed_notification_keeps_submission `{Framework} `{ModelForm}
  (env : Env) (request : HttpRequest) (e : exn) (w : World) :
  method request = "POST" ->
  is_valid (POST request) = true ->
  storage_error env = None ->
  notification_error env (saved_instance env request w) = Some e ->
  let submitted := form_save_commit_false (clock_new env) (POST request) in
  let row := persisted env request w in
  contact_messages w !! new_key w = None
  /\ contact_messages (contact env request w).2
     = <[new_key w := row]> (contact_messages w)
  /\ (headers request !! "X-Requested-With" = Some (lit "XMLHttpRequest") ->
      contact_messages (contact_form_ajax env request w).2
      = <[new_key w := row]> (contact_messages w))
  /\ <[new_key w := row]> (contact_messages w) !! new_key w = Some row
  /\ ContactMessage.name row = ContactMessage.name submitted
  /\ ContactMessage.email row = ContactMessage.email submitted
  /\ ContactMessage.phone row = ContactMessage.phone submitted
  /\ ContactMessage.message row = ContactMessage.message submitted
  /\ ContactMessage.subject row = ContactMessage.subject submitted
  /\ ContactMessage.interest_area row = ContactMessage.interest_area submitted
  /\ ContactMessage.is_read row = ContactMessage.is_read submitted
  /\ ContactMessage.is_archived row = ContactMessage.is_archived submitted
  /\ ContactMessage.created_at row = ContactMessage.created_at submitted
  /\ ContactMessage.ip_address row = get_db_prep_value (client_ip request)
  /\ ContactMessage.user_agent row
     = default [] (META request !! "HTTP_USER_AGENT")
  /\ ContactMessage.updated_at row = Some (clock_save env).
Proof.
  intros Hm Hv Hs He submitted row.
  split; [apply new_key_fresh|].
  split.
  { rewrite contact_rows, Hm, Hv, save_and_notify_rows, Hs.
    by rewrite bool_decide_eq_true_2 by reflexivity. }
  split.
  { intros Hh.
    rewrite contact_form_ajax_rows, Hm, Hh, Hv, save_and_notify_rows, Hs.
    by rewrite !bool_decide_eq_true_2 by reflexivity. }
  split; [apply lookup_insert_eq|].
  repeat split.
Qed.

Lemma failed_notification_keeps_submission_witness :
  ContactMessage.name
    <$> contact_messages
          (@contact Scenario.framework Scenario.form
              (Scenario.env_mail_down 100)
             (Scenario.post Scenario.john_smith) Scenario.empty_world).2
        !! 1%nat
  = Some (lit "John Smith").
Proof.
  destruct (@failed_notification_keeps_submission Scenario.framework Scenario.form
              (Scenario.env_mail_down 100)
              (Scenario.post Scenario.john_smith)
              (MailError (lit "Connection refused"))
              Scenario.empty_world)
    as (_ & Hrows & _).
  - reflexivity.
  - vm_compute. reflexivity.
  - reflexivity.
  - reflexivity.
  - rewrite Hrows. vm_compute. reflexivity.
Defined.

(** ** The programmatic entry point *)

(** C9. A POST to the programmatic entry point without the marker header
    ([X-Requested-With: XMLHttpRequest]) is answered 400 and changes
    nothing. With the marker the answer is a payload holding a boolean
    [success] and a string [message]; it holds an [errors] mapping, the
    form's per-field errors, exactly when the form is not valid. *)
Theorem contact_form_ajax_contract `{Framework} `{ModelForm}
  (env : Env) (request : HttpRequest) (w : World) :
  method request = "POST" ->
  (headers request !! "X-Requested-With" <> Some (lit "XMLHttpRequest") ->
   exists r,
     contact_form_ajax env request w = (Ok r, w)
     /\ r = HttpResponseBadRequest (lit "Invalid request")
     /\ status_code r = 400)
  /\ (headers request !! "X-Requested-With" = Some (lit "XMLHttpRequest") ->
      exists data success message w',
        contact_form_ajax env request w = (Ok (JsonResponse data), w')
        /\ data !! "success" = Some (VBool success)
        /\ data !! "message" = Some (VStr message)
        /\ (is_valid (POST request) = false ->
            success = false
            /\ data !! "errors"
               = Some (VErrors (form_errors (POST request))))
        /\ (is_valid (POST request) = true -> data !! "errors" = None)).
Proof.
  intros Hm. unfold contact_form_ajax, require_http_methods.
  rewrite Hm.
  rewrite (bool_decide_eq_true_2 ("POST" ∈ ["POST"]))
    by apply list_elem_of_here.
  split.
  - intros Hh. rewrite bool_decide_eq_false_2 by exact Hh. cbn [negb].
    eexists. split; [reflexivity|]. split; reflexivity.
  - intros Hh. rewrite bool_decide_eq_true_2 by exact Hh. cbn [negb].
    destruct (is_valid (POST request)).
    + unfold try_except, logger_error, mbind, M_bind, mret, M_ret.
      destruct (save_and_notify env request w) as [[[]|e] w1];
        eexists _, _, _, _; (split; [reflexivity|]);
        (split; [apply lookup_insert_eq|]);
        (split; [rewrite lookup_insert_ne by done;
                 apply lookup_singleton_eq|]);
        (split; [intros Hx; discriminate Hx|]);
        intros _; rewrite lookup_insert_ne by done;
        by apply lookup_singleton_ne.
    + eexists _, _, _, _. split; [reflexivity|].
      split; [apply lookup_insert_eq|].
      split.
      { do 2 (rewrite lookup_insert_ne by done). apply lookup_singleton_eq. }
      split.
      * intros _. split; [reflexivity|].
        rewrite lookup_insert_ne by done. apply lookup_insert_eq.
      * intros Hx. discriminate Hx.
Qed.

Lemma contact_form_ajax_contract_witness :
  (@contact_form_ajax Scenario.framework Scenario.form (Scenario.env_at 100)
     (Scenario.post_without_marker Scenario.john_smith)
     Scenario.empty_world).1
  = Ok (HttpResponseBadRequest (lit "Invalid request"))
  /\ ajax_reports_success
       (@contact_form_ajax Scenario.framework Scenario.form
           (Scenario.env_at 100)
          (Scenario.post Scenario.john_smith) Scenario.empty_world) = true.
Proof.
  split.
  - destruct (@contact_form_ajax_contract Scenario.framework Scenario.form
      (Scenario.env_at 100)
                (Scenario.post_without_marker Scenario.john_smith)
                Scenario.empty_world eq_refl)
      as [Hbad _].
    destruct Hbad as (r & Hrun & -> & _).
    + intros Hx. discriminate Hx.
    + by rewrite Hrun.
  - destruct (@contact_form_ajax_contract Scenario.framework Scenario.form
      (Scenario.env_at 100)
                (Scenario.post Scenario.john_smith)
                Scenario.empty_world eq_refl)
      as [_ Hgood].
    destruct Hgood as (data & success & message & w' & Hrun & _); [reflexivity|].
    vm_compute. reflexivity.
Defined.

(** ** The recorded address *)

(** The first entry is the part of the value before its first comma. *)
Lemma first_entry_spec (s : str) :
  exists rest,
    s = first_entry s ++ rest
    /\ (COMMA ∉ first_entry s)
    /\ (rest = [] \/ head rest = Some COMMA).
Proof.
  induction s as [|c s (rest & Hs & Hnot & Hrest)]; simpl.
  - exists []. split; [done|]. split; [apply not_elem_of_nil|by left].
  - destruct (N.eqb_spec c COMMA) as [->|Hc].
    + exists (COMMA :: s). split; [done|].
      split; [apply not_elem_of_nil|by right].
    + exists rest. split; [simpl; congruence|].
      split; [|done]. apply not_elem_of_cons. split; [congruence|done].
Qed.

(** What [save()] makes of an address, case by case. *)
Lemma get_db_prep_value_unset `{Framework} (value : option str) :
  truthy value = false -> get_db_prep_value value = None.
Proof.
  destruct value as [[|c x]|]; cbn [truthy]; intros Hf;
    [reflexivity|discriminate Hf|reflexivity].
Qed.

Lemma get_db_prep_value_plain `{Framework} (value : str) :
  value <> [] -> COLON ∉ value -> get_db_prep_value (Some value) = Some value.
Proof.
  intros Hne Hcolon. destruct value as [|c x]; [done|].
  unfold get_db_prep_value, get_prep_value. cbn [truthy andb].
  by rewrite bool_decide_eq_false_2.
Qed.

Lemma get_db_prep_value_colon `{Framework} (value : str) :
  COLON ∈ value ->
  get_db_prep_value (Some value)
  = adapt_ipaddressfield_value
      (Some (default value (clean_ipv6_address value))).
Proof.
  intros Hcolon. destruct value as [|c x].
  { by apply elem_of_nil in Hcolon. }
  unfold get_db_prep_value, get_prep_value. cbn [truthy andb].
  rewrite bool_decide_eq_true_2 by done.
  by destruct (clean_ipv6_address (c :: x)).
Qed.

(** An address that went through [save()] goes through it unchanged. *)
Lemma get_db_prep_value_idemp `{Framework} (value : option str) :
  get_db_prep_value (get_db_prep_value value) = get_db_prep_value value.
Proof.
  destruct value as [value|]; [|reflexivity].
  destruct (decide (COLON ∈ value)) as [Hcolon|Hcolon].
  - rewrite get_db_prep_value_colon by done.
    destruct (clean_ipv6_address value) as [[|c normal]|] eqn:Hclean;
      cbn [default from_option id].
    + reflexivity.
    + change (adapt_ipaddressfield_value (Some (c :: normal)))
        with (Some (c :: normal)).
      destruct (decide (COLON ∈ c :: normal)) as [Hcolon'|Hcolon'].
      * rewrite get_db_prep_value_colon by done.
        by rewrite (clean_ipv6_address_normal _ _ Hclean).
      * by apply get_db_prep_value_plain.
    + destruct value as [|c x]; [by apply elem_of_nil in Hcolon|].
      change (adapt_ipaddressfield_value (Some (c :: x))) with (Some (c :: x)).
      rewrite get_db_prep_value_colon by done. by rewrite Hclean.
  - destruct value as [|c x]; [reflexivity|].
    rewrite get_db_prep_value_plain by done.
    by apply get_db_prep_value_plain.
Qed.

Lemma stored_form_as_stored `{Framework} (m : ContactMessage.t) :
  as_stored (stored_form m).
Proof. apply get_db_prep_value_idemp. Qed.

(** C10, as amended. [get_client_ip] returns the first comma-separated
    entry of [X-Forwarded-For] when that header is present and non-empty,
    and the transport-level remote address (possibly absent) otherwise;
    it reads the request metadata only, so two requests with the same
    metadata give the same address, whatever form class is in use and
    whatever the submitted fields are. A valid submission that is saved
    records that address in the form the store gives an address: unset
    when it is absent or empty, itself when it is non-empty without a
    colon, and, with a colon, the normal form the framework's IPv6
    cleaning gives it, or itself where the cleaning refuses it. *)
Theorem recorded_ip_from_request_metadata `{Framework} `{ModelForm}
  (env : Env) (request : HttpRequest) (w : World) :
  get_client_ip request = Ok (client_ip request)
  /\ (forall c x,
        META request !! "HTTP_X_FORWARDED_FOR" = Some (c :: x) ->
        client_ip request = Some (first_entry (c :: x)))
  /\ (truthy (META request !! "HTTP_X_FORWARDED_FOR") = false ->
      client_ip request = META request !! "REMOTE_ADDR")
  /\ (forall request', META request' = META request ->
        client_ip request' = client_ip request)
  /\ (method request = "POST" ->
      is_valid (POST request) = true ->
      storage_error env = None ->
      (exists row,
         contact_messages (contact env request w).2 !! new_key w = Some row
         /\ ContactMessage.ip_address row
            = get_db_prep_value (client_ip request))
      /\ (headers request !! "X-Requested-With"
          = Some (lit "XMLHttpRequest") ->
          exists row,
            contact_messages (contact_form_ajax env request w).2 !! new_key w
            = Some row
            /\ ContactMessage.ip_address row
               = get_db_prep_value (client_ip request)))
  /\ (truthy (client_ip request) = false ->
      get_db_prep_value (client_ip request) = None)
  /\ (forall ip,
        client_ip request = Some ip -> ip <> [] -> COLON ∉ ip ->
        get_db_prep_value (client_ip request) = Some ip)
  /\ (forall ip,
        client_ip request = Some ip -> COLON ∈ ip ->
        get_db_prep_value (client_ip request)
        = adapt_ipaddressfield_value
            (Some (default ip (clean_ipv6_address ip)))).
Proof.
  split; [apply get_client_ip_ok|].
  split; [intros c x Hx; unfold client_ip; by rewrite Hx|].
  split.
  { unfold client_ip.
    destruct (META request !! "HTTP_X_FORWARDED_FOR") as [[|c x]|];
      cbn [truthy]; intros Hf; try reflexivity.
    discriminate Hf. }
  split; [intros request' Hmeta; unfold client_ip; by rewrite Hmeta|].
  split.
  { intros Hm Hv Hs. split.
    - exists (persisted env request w). split; [|reflexivity].
      rewrite contact_rows, Hm, Hv, save_and_notify_rows, Hs.
      rewrite bool_decide_eq_true_2 by reflexivity. apply lookup_insert_eq.
    - intros Hh. exists (persisted env request w). split; [|reflexivity].
      rewrite contact_form_ajax_rows, Hm, Hh, Hv, save_and_notify_rows, Hs.
      rewrite !bool_decide_eq_true_2 by reflexivity. apply lookup_insert_eq. }
  split; [apply get_db_prep_value_unset|].
  split.
  - intros ip -> Hne Hcolon. by apply get_db_prep_value_plain.
  - intros ip -> Hcolon. by apply get_db_prep_value_colon.
Qed.

Lemma recorded_ip_from_request_metadata_witness :
  exists row,
    contact_messages
      (@contact Scenario.framework Scenario.form (Scenario.env_at 100)
         (Scenario.post Scenario.john_smith) Scenario.empty_world).2
    !! 1%nat = Some row
    /\ ContactMessage.ip_address row = Some (lit "203.0.113.7").
Proof.
  destruct (@recorded_ip_from_request_metadata Scenario.framework Scenario.form
              (Scenario.env_at 100) (Scenario.post Scenario.john_smith)
              Scenario.empty_world)
    as (_ & _ & _ & _ & Hsaved & _).
  destruct Hsaved as [(row & Hrow & Hip) _].
  - reflexivity.
  - vm_compute. reflexivity.
  - reflexivity.
  - exists row. split; [exact Hrow|]. rewrite Hip. vm_compute. reflexivity.
Defined.

(** C10, as stated, fails. A proxy header whose first entry is empty is
    present and non-empty, and the address recorded for John Smith's
    submission is unset, not that entry; and for a header that spells an
    IPv6 address the long way, with the framework's cleaning standing as
    in [Scenario.framework], the address recorded is the normal form,
    not the entry. *)
Lemma recorded_ip_counterexample :
  let env := Scenario.env_at 100 in
  let empty_first :=
    Scenario.post_forwarded (lit ",10.0.0.1") Scenario.john_smith in
  let long :=
    Scenario.post_forwarded Scenario.ipv6_long Scenario.john_smith in
  let recorded request :=
    ContactMessage.ip_address
    <$> contact_messages
          (@contact Scenario.framework Scenario.form env request
             Scenario.empty_world).2 !! 1%nat in
  @is_valid Scenario.form Scenario.john_smith = true
  /\ truthy (META empty_first !! "HTTP_X_FORWARDED_FOR") = true
  /\ get_client_ip empty_first = Ok (Some (first_entry (lit ",10.0.0.1")))
  /\ first_entry (lit ",10.0.0.1") = []
  /\ recorded empty_first = Some None
  /\ get_client_ip long = Ok (Some Scenario.ipv6_long)
  /\ recorded long = Some (Some Scenario.ipv6_normal)
  /\ Scenario.ipv6_normal <> Scenario.ipv6_long.
Proof.
  cbv zeta. split; [vm_compute; reflexivity|].
  split; [vm_compute; reflexivity|].
  split; [vm_compute; reflexivity|].
  split; [vm_compute; reflexivity|].
  split; [vm_compute; reflexivity|].
  split; [vm_compute; reflexivity|].
  split; [vm_compute; reflexivity|].
  intros Heq. discriminate Heq.
Qed.

(** ** A minimal submission *)

Lemma name_validators_nonempty (v : str) :
  ContactMessage.name_validators v = [] -> v <> [].
Proof.
  intros Hv ->. vm_compute in Hv. discriminate Hv.
Qed.

(** C7. A POST that supplies a valid name, a valid email and a message
    of valid length, and omits phone, subject and interest-area, passes
    validation; with the store accepting the write it is saved, by
    either entry point, under a key that was free, with interest-area
    "general", subject "General Inquiry" and the submitted fields. *)
Theorem minimal_submission_persisted_with_defaults `{Framework}
  (validate_email : str -> bool) (decimal : char -> bool)
  (env : Env) (request : HttpRequest) (w : World) (n e m : str) :
  let form := Forms.ContactForm validate_email decimal in
  method request = "POST" ->
  POST request !! "name" = Some n ->
  ContactMessage.name_validators n = [] ->
  POST request !! "email" = Some e ->
  e <> [] -> validate_email e = true ->
  (length e <= ContactMessage.email_max_length)%nat ->
  POST request !! "message" = Some m ->
  (10 <= length m <= 2000)%nat ->
  POST request !! "phone" = None ->
  POST request !! "subject" = None ->
  POST request !! "interest_area" = None ->
  storage_error env = None ->
  @form_errors form (POST request) = ∅
  /\ @is_valid form (POST request) = true
  /\ contact_messages w !! @new_key w = None
  /\ exists row,
       contact_messages (@contact _ form env request w).2 !! new_key w
       = Some row
       /\ (headers request !! "X-Requested-With"
           = Some (lit "XMLHttpRequest") ->
           contact_messages (@contact_form_ajax _ form env request w).2
           !! new_key w = Some row)
       /\ ContactMessage.interest_area row = lit "general"
       /\ ContactMessage.subject row = lit "General Inquiry"
       /\ ContactMessage.name row = n
       /\ ContactMessage.email row = e
       /\ ContactMessage.message row = m.
Proof.
  intros form Hm Hn Hnv He Hene Hev Hel Hmsg Hml Hp Hs Hi Hst.
  assert (Herr : Forms.errors validate_email decimal (POST request) = ∅).
  { apply errors_empty.
    - rewrite Hn. pose proof (name_validators_nonempty n Hnv).
      destruct n; [done|exact Hnv].
    - rewrite He. destruct e as [|c e']; [done|].
      unfold Forms.clean_email, Forms.submitted. rewrite Hev.
      by apply max_length_nil.
    - by rewrite Hp.
    - apply clean_message_nil. by rewrite Hmsg.
    - by rewrite Hs.
    - by rewrite Hi. }
  assert (Hv : @is_valid form (POST request) = true).
  { unfold is_valid. apply bool_decide_eq_true. exact Herr. }
  split; [exact Herr|]. split; [exact Hv|].
  split; [apply new_key_fresh|].
  exists (@persisted _ form env request w).
  split.
  { rewrite contact_rows, Hm, Hv, save_and_notify_rows, Hst.
    rewrite bool_decide_eq_true_2 by reflexivity. apply lookup_insert_eq. }
  split.
  { intros Hh.
    rewrite contact_form_ajax_rows, Hm, Hh, Hv, save_and_notify_rows, Hst.
    rewrite !bool_decide_eq_true_2 by reflexivity. apply lookup_insert_eq. }
  unfold persisted, stored_form, saved_instance, stamped, form.
  cbn [ContactMessage.set_pk ContactMessage.set_updated_at
       ContactMessage.set_user_agent ContactMessage.set_ip_address
       form_save_commit_false Forms.ContactForm Forms.save_commit_false
       ContactMessage.interest_area ContactMessage.subject
       ContactMessage.name ContactMessage.email ContactMessage.message].
  unfold str, char in *. rewrite Hn, He, Hmsg, Hs, Hi. repeat split.
Qed.

Lemma minimal_submission_persisted_with_defaults_witness :
  @is_valid Scenario.form Scenario.john_smith = true
  /\ exists row,
       contact_messages
         (@contact Scenario.framework Scenario.form (Scenario.env_at 100)
            (Scenario.post Scenario.john_smith) Scenario.empty_world).2
       !! 1%nat = Some row
       /\ ContactMessage.interest_area row = lit "general"
       /\ ContactMessage.subject row = lit "General Inquiry".
Proof.
  destruct (@minimal_submission_persisted_with_defaults Scenario.framework
              Scenario.validate_email ascii_digit (Scenario.env_at 100)
              (Scenario.post Scenario.john_smith) Scenario.empty_world
              (lit "John Smith") (lit "john@x.com")
              (lit "Hello, I need a quote."))
    as (_ & Hv & _ & row & Hrow & _ & Hi & Hs & _).
  - reflexivity.
  - reflexivity.
  - vm_compute. reflexivity.
  - reflexivity.
  - intros Hx. discriminate Hx.
  - vm_compute. reflexivity.
  - vm_compute. lia.
  - reflexivity.
  - vm_compute. lia.
  - reflexivity.
  - reflexivity.
  - reflexivity.
  - reflexivity.
  - split; [exact Hv|]. exists row. split; [exact Hrow|]. by split.
Defined.

(** ** The content store *)

Lemma filter_unique_key (P : SiteContent.t -> Prop)
  `{!forall r, Decision (P r)} (rows : list SiteContent.t) (key : str) :
  (forall r, P r -> SiteContent.content_type r = key) ->
  SiteContent.unique_content_type rows ->
  filter P rows = [] \/ exists r, filter P rows = [r].
Proof.
  intros Hkey. unfold SiteContent.unique_content_type.
  induction rows as [|r rows IH]; intros Hnd; [by left|].
  rewrite fmap_cons in Hnd. apply NoDup_cons in Hnd as [Hnotin Hnd].
  rewrite filter_cons. destruct (decide (P r)) as [Hr|Hr]; [|by apply IH].
  right. exists r. f_equal.
  destruct (filter P rows) as [|r' rest] eqn:Hf; [reflexivity|].
  assert (Hin : r' ∈ filter P rows) by (rewrite Hf; apply list_elem_of_here).
  apply list_elem_of_filter in Hin as [Hr' Hin].
  destruct Hnotin. rewrite (Hkey r Hr), <- (Hkey r' Hr').
  by apply list_elem_of_fmap_2.
Qed.

(** C4. With at most one entry per content type, [get_content] returns
    the stored content of the entry for the key when that entry is
    active, and the default when there is no entry for the key or the
    entry for the key is inactive. *)
Theorem get_content_contract
  (rows : list SiteContent.t) (key : str) (default : option str) :
  SiteContent.unique_content_type rows ->
  (forall entry,
     entry ∈ rows -> SiteContent.content_type entry = key ->
     SiteContent.is_active entry = true ->
     SiteContent.get_content rows key default
     = Ok (Some (SiteContent.content entry)))
  /\ ((forall entry, entry ∈ rows -> SiteContent.content_type entry <> key) ->
      SiteContent.get_content rows key default = Ok default)
  /\ (forall entry,
        entry ∈ rows -> SiteContent.content_type entry = key ->
        SiteContent.is_active entry = false ->
        SiteContent.get_content rows key default = Ok default).
Proof.
  intros Huniq.
  set (P := fun r => SiteContent.content_type r = key
                     /\ SiteContent.is_active r = true).
  set (Q := fun r => SiteContent.content_type r = key).
  assert (HP : filter P rows = [] \/ exists r, filter P rows = [r]).
  { apply (filter_unique_key P rows key); [by intros r [Hk _]|done]. }
  assert (HQ : filter Q rows = [] \/ exists r, filter Q rows = [r]).
  { by apply (filter_unique_key Q rows key). }
  unfold SiteContent.get_content, SiteContent.objects_get. fold P.
  split; [|split].
  - intros entry Hin Hk Ha.
    assert (Hf : entry ∈ filter P rows).
    { apply list_elem_of_filter. by split. }
    destruct HP as [Hnil|[r Hone]].
    + rewrite Hnil in Hf. by apply elem_of_nil in Hf.
    + rewrite Hone in Hf |- *. apply list_elem_of_singleton in Hf.
      by subst r.
  - intros Hnone. destruct HP as [Hnil|[r Hone]]; [by rewrite Hnil|].
    assert (Hf : r ∈ filter P rows) by (rewrite Hone; apply list_elem_of_here).
    apply list_elem_of_filter in Hf as [[Hk _] Hin].
    by destruct (Hnone r Hin).
  - intros entry Hin Hk Ha.
    destruct HP as [Hnil|[r Hone]]; [by rewrite Hnil|].
    assert (Hf : r ∈ filter P rows) by (rewrite Hone; apply list_elem_of_here).
    apply list_elem_of_filter in Hf as [[Hk' Ha'] Hin'].
    assert (He : entry ∈ filter Q rows).
    { apply list_elem_of_filter. by split. }
    assert (Hr : r ∈ filter Q rows).
    { apply list_elem_of_filter. by split. }
    destruct HQ as [Hnil|[q Hq]].
    + rewrite Hnil in He. by apply elem_of_nil in He.
    + rewrite Hq in He, Hr. apply list_elem_of_singleton in He, Hr.
      subst. congruence.
Qed.

Lemma get_content_contract_witness :
  SiteContent.get_content [Scenario.hero true] (lit "hero_title")
    (Some (lit "Welcome to GK Group"))
  = Ok (Some (lit "Welcome"))
  /\ SiteContent.get_content [Scenario.hero false] (lit "hero_title")
       (Some (lit "Welcome to GK Group"))
     = Ok (Some (lit "Welcome to GK Group"))
  /\ SiteContent.get_content [Scenario.hero true] (lit "about_text") None
     = Ok None.
Proof.
  assert (Huniq : forall active,
            SiteContent.unique_content_type [Scenario.hero active]).
  { intros active. apply NoDup_singleton. }
  split; [|split].
  - apply (proj1 (get_content_contract [Scenario.hero true]
                    (lit "hero_title") (Some (lit "Welcome to GK Group"))
                    (Huniq true)) (Scenario.hero true)).
    + apply list_elem_of_here.
    + reflexivity.
    + reflexivity.
  - apply (proj2 (proj2 (get_content_contract [Scenario.hero false]
                           (lit "hero_title")
                           (Some (lit "Welcome to GK Group"))
                           (Huniq false))) (Scenario.hero false)).
    + apply list_elem_of_here.
    + reflexivity.
    + reflexivity.
  - apply (proj1 (proj2 (get_content_contract [Scenario.hero true]
                           (lit "about_text") None (Huniq true)))).
    intros entry Hin. apply list_elem_of_singleton in Hin. subst entry.
    intros Hx. vm_compute in Hx. discriminate Hx.
Defined.

(** ** Admin actions *)

Lemma frozen_refl (m : ContactMessage.t) : frozen m m.
Proof. by repeat split. Qed.

Lemma frozen_trans (m1 m2 m3 : ContactMessage.t) :
  frozen m1 m2 -> frozen m2 m3 -> frozen m1 m3.
Proof.
  unfold frozen. intros (?&?&?&?&?&?&?&?&?) (?&?&?&?&?&?&?&?&?).
  repeat split; congruence.
Qed.

Lemma queryset_update_lookup (env : Env)
  (assign : ContactMessage.t -> ContactMessage.t) (queryset : gset nat)
  (w : World) (k : nat) :
  contact_messages (Admin.queryset_update env assign queryset w).2 !! k
  = match storage_error env with
    | Some _ => contact_messages w !! k
    | None =>
        (fun row => if bool_decide (k ∈ queryset) then assign row else row)
        <$> contact_messages w !! k
    end.
Proof.
  unfold Admin.queryset_update.
  destruct (storage_error env); [reflexivity|].
  cbn [snd contact_messages set_contact_messages].
  rewrite map_lookup_imap. by destruct (contact_messages w !! k).
Qed.

Lemma bulk_action_rows (env : Env)
  (assign : ContactMessage.t -> ContactMessage.t) (queryset : gset nat)
  (report : nat -> str) (w : World) :
  contact_messages
    ((updated ← Admin.queryset_update env assign queryset;
      Admin.message_user (report updated)) w).2
  = contact_messages (Admin.queryset_update env assign queryset w).2.
Proof.
  unfold mbind, M_bind, Admin.message_user.
  by destruct (Admin.queryset_update env assign queryset w) as [[n|e] w1].
Qed.

Lemma mark_read_view_rows `{Framework} (env : Env) (request : HttpRequest)
  (object_id : nat) (w : World) :
  contact_messages (Admin.mark_read_view env request object_id w).2
  = match contact_messages w !! object_id, storage_error env with
    | Some row, None =>
        <[object_id :=
            stored_form
              (ContactMessage.set_pk (Some object_id)
                 (ContactMessage.set_updated_at (Some (clock_save env))
                    (ContactMessage.set_is_read true
                       (Admin.load object_id row))))]>
          (contact_messages w)
    | _, _ => contact_messages w
    end.
Proof.
  unfold Admin.mark_read_view, Admin.get_object, Admin.message_user,
    try_except, save, mbind, M_bind, mret, M_ret, lift.
  destruct (contact_messages w !! object_id) as [row|]; cbn [fmap option_fmap option_map].
  - cbn [ContactMessage.pk ContactMessage.set_is_read Admin.load
         ContactMessage.set_pk].
    destruct (storage_error env);
      by destruct (reverse env _ _).
  - by destruct (reverse env _ _).
Qed.

Lemma mark_as_read_action_rows `{Framework} (env : Env) (k : nat)
  (row : ContactMessage.t) (w : World) :
  contact_messages (Admin.mark_as_read_action env (Admin.load k row) w).2
  = match ContactMessage.is_read row, storage_error env with
    | false, None =>
        <[k :=
            stored_form
              (ContactMessage.set_pk (Some k)
                 (ContactMessage.set_updated_at (Some (clock_save env))
                    (ContactMessage.set_is_read true (Admin.load k row))))]>
          (contact_messages w)
    | _, _ => contact_messages w
    end.
Proof.
  unfold Admin.mark_as_read_action, save, mbind, M_bind, mret, M_ret, lift.
  cbn [ContactMessage.is_read ContactMessage.pk ContactMessage.set_is_read
       Admin.load ContactMessage.set_pk].
  destruct (ContactMessage.is_read row); [reflexivity|]. cbn [negb].
  destruct (storage_error env); [reflexivity|].
  by destruct (reverse env _ _).
Qed.

(** ** Histories *)

Section HistoryFacts.
Context `{Framework} `{ModelForm}.

Lemma as_stored_eq (m : ContactMessage.t) : as_stored m -> stored_form m = m.
Proof.
  unfold as_stored, stored_form. intros ->. by destruct m.
Qed.

(** Rows in the form [save()] writes are compared as they are. *)
Lemma frozen_as_stored (m m' : ContactMessage.t) :
  frozen (stored_form m) (stored_form m') ->
  as_stored m -> as_stored m' -> frozen m m'.
Proof.
  intros Hfrozen Hm Hm'.
  by rewrite (as_stored_eq m Hm), (as_stored_eq m' Hm') in Hfrozen.
Qed.

Lemma run_app (h1 h2 : list Event) (w : World) :
  run (h1 ++ h2) w = run h2 (run h1 w).
Proof. unfold run. apply foldl_app. Qed.

Lemma submission_keeps_rows (env : Env) (request : HttpRequest) (w : World)
  (k : nat) (row : ContactMessage.t) :
  contact_messages w !! k = Some row ->
  contact_messages (save_and_notify env request w).2 !! k = Some row.
Proof.
  intros Hk. rewrite save_and_notify_rows.
  destruct (storage_error env); [exact Hk|].
  rewrite lookup_insert_ne; [exact Hk|].
  intros Heq. pose proof (new_key_fresh w) as Hfresh.
  rewrite Heq, Hk in Hfresh. discriminate Hfresh.
Qed.

Lemma evolves_same (e : Event) (m : ContactMessage.t) : evolves e m m.
Proof. split; [apply frozen_refl|by left]. Qed.

Lemma evolves_flag (e : Event) (m : ContactMessage.t)
  (assign : ContactMessage.t -> ContactMessage.t) (selected : bool) :
  (exists b, assign = ContactMessage.set_is_read b
             \/ assign = ContactMessage.set_is_archived b) ->
  evolves e (stored_form m)
    (stored_form (if selected then assign m else m))
  /\ (as_stored m -> as_stored (if selected then assign m else m)).
Proof.
  intros (b & [->| ->]); destruct selected;
    (split; [|intros Hm; exact Hm]);
    try apply evolves_same; by (split; [repeat split|left]).
Qed.

Lemma evolves_saved (e : Event) (env : Env) (k : nat) (m : ContactMessage.t) :
  event_clock e = Some (clock_save env) ->
  let m' :=
    stored_form
      (ContactMessage.set_pk (Some k)
         (ContactMessage.set_updated_at (Some (clock_save env))
            (ContactMessage.set_is_read true (Admin.load k m)))) in
  evolves e (stored_form m) (stored_form m') /\ as_stored m'.
Proof.
  intros He m'. split; [|apply stored_form_as_stored].
  split; [|right; by eexists].
  repeat split.
  apply (get_db_prep_value_idemp (ContactMessage.ip_address m)).
Qed.

(** One event leaves every stored row stored, with its submitted fields
    and [created_at] as they were, the address compared in the form
    [save()] gives it; a row that is in that form stays in it. *)
Lemma step_row (e : Event) (w : World) (k : nat) (row : ContactMessage.t) :
  contact_messages w !! k = Some row ->
  exists row',
    contact_messages (step e w) !! k = Some row'
    /\ evolves e (stored_form row) (stored_form row')
    /\ (as_stored row -> as_stored row').
Proof.
  intros Hk.
  assert (Hsame : forall w', contact_messages w' !! k = Some row ->
            exists row',
              contact_messages w' !! k = Some row'
              /\ evolves e (stored_form row) (stored_form row')
              /\ (as_stored row -> as_stored row')).
  { intros w' Hk'. exists row. split; [exact Hk'|].
    split; [apply evolves_same|done]. }
  destruct e as [env request|env request|env k'|env qs|env qs|env qs|env qs
                |env request k']; cbn [step].
  - apply Hsame. rewrite contact_rows.
    destruct (_ && _); [by apply submission_keeps_rows|exact Hk].
  - apply Hsame. rewrite contact_form_ajax_rows.
    destruct (_ && _); [by apply submission_keeps_rows|exact Hk].
  - destruct (contact_messages w !! k') as [row0|] eqn:Hk';
      [|by apply Hsame].
    assert (Hrows := mark_as_read_action_rows env k' row0 w).
    destruct (ContactMessage.is_read row0), (storage_error env);
      try (apply Hsame; by rewrite Hrows).
    rewrite Hrows. destruct (decide (k' = k)) as [->|Hne].
    + rewrite lookup_insert_eq. eexists. split; [reflexivity|].
      rewrite Hk in Hk'. injection Hk' as <-.
      destruct (evolves_saved (StatusColumn env k) env k row eq_refl).
      by split.
    + rewrite lookup_insert_ne by done.
      exists row. split; [exact Hk|]. split; [apply evolves_same|done].
  - unfold Admin.mark_as_read.
    rewrite bulk_action_rows, queryset_update_lookup, Hk.
    destruct (storage_error env);
      [exists row; split; [done|split; [apply evolves_same|done]]|].
    eexists. split; [reflexivity|]. apply evolves_flag; by eauto.
  - unfold Admin.mark_as_unread.
    rewrite bulk_action_rows, queryset_update_lookup, Hk.
    destruct (storage_error env);
      [exists row; split; [done|split; [apply evolves_same|done]]|].
    eexists. split; [reflexivity|]. apply evolves_flag; by eauto.
  - unfold Admin.archive_messages.
    rewrite bulk_action_rows, queryset_update_lookup, Hk.
    destruct (storage_error env);
      [exists row; split; [done|split; [apply evolves_same|done]]|].
    eexists. split; [reflexivity|]. apply evolves_flag; by eauto.
  - unfold Admin.unarchive_messages.
    rewrite bulk_action_rows, queryset_update_lookup, Hk.
    destruct (storage_error env);
      [exists row; split; [done|split; [apply evolves_same|done]]|].
    eexists. split; [reflexivity|]. apply evolves_flag; by eauto.
  - assert (Hrows := mark_read_view_rows env request k' w).
    destruct (contact_messages w !! k') as [row0|] eqn:Hk';
      [|apply Hsame; by rewrite Hrows].
    destruct (storage_error env);
      try (apply Hsame; by rewrite Hrows).
    rewrite Hrows. destruct (decide (k' = k)) as [->|Hne].
    + rewrite lookup_insert_eq. eexists. split; [reflexivity|].
      rewrite Hk in Hk'. injection Hk' as <-.
      destruct (evolves_saved (MarkReadView env request k) env k row eq_refl).
      by split.
    + rewrite lookup_insert_ne by done.
      exists row. split; [exact Hk|]. split; [apply evolves_same|done].
Qed.

(** Along any history a stored row stays stored and keeps its submitted
    fields and [created_at]. *)
Lemma run_frozen (history : list Event) :
  forall (w : World) (k : nat) (row : ContactMessage.t),
    contact_messages w !! k = Some row ->
    exists row',
      contact_messages (run history w) !! k = Some row'
      /\ frozen (stored_form row) (stored_form row')
      /\ (as_stored row -> frozen row row').
Proof.
  induction history as [|e history IH]; intros w k row Hk.
  - exists row. split; [exact Hk|]. split; intros; apply frozen_refl.
  - destruct (step_row e w k row Hk) as (row1 & Hk1 & [Hfrozen _] & Hstored).
    change (run (e :: history) w) with (run history (step e w)).
    destruct (IH (step e w) k row1 Hk1) as (row' & Hk' & Hfrozen' & Hstored').
    exists row'. split; [exact Hk'|].
    split; [by eapply frozen_trans|].
    intros Hrow. pose proof (Hstored Hrow) as Hrow1.
    eapply frozen_trans; [|by apply Hstored'].
    by apply frozen_as_stored.
Qed.

(** Along a history whose clock does not run backwards, the [updated_at]
    of a stored row moves from [u] to some [u'] with [u <= u'], never
    past the last clock reading. *)
Lemma run_row (history : list Event) :
  forall (w : World) (k : nat) (row : ContactMessage.t) (u c : Z),
    contact_messages w !! k = Some row ->
    ContactMessage.updated_at row = Some u ->
    u <= c ->
    clock_monotone c history ->
    exists row' u',
      contact_messages (run history w) !! k = Some row'
      /\ ContactMessage.updated_at row' = Some u'
      /\ u <= u' <= last_clock c history.
Proof.
  induction history as [|e history IH]; intros w k row u c Hk Hu Huc Hmono.
  - exists row, u. cbn. split; [exact Hk|]. split; [exact Hu|lia].
  - destruct (step_row e w k row Hk) as (row1 & Hk1 & [_ Hup] & _).
    change (ContactMessage.updated_at (stored_form row1))
      with (ContactMessage.updated_at row1) in Hup.
    change (ContactMessage.updated_at (stored_form row))
      with (ContactMessage.updated_at row) in Hup.
    change (run (e :: history) w) with (run history (step e w)).
    change (last_clock c (e :: history))
      with (last_clock (default c (event_clock e)) history).
    cbn [clock_monotone] in Hmono.
    destruct (event_clock e) as [t|] eqn:Hclock.
    + destruct Hmono as [Hct Hmono]. cbn [default from_option id].
      destruct Hup as [Hsame|(t' & [= <-] & Hnew)].
      * destruct (IH (step e w) k row1 u t Hk1) as (row' & u' & ? & ? & ?);
          [congruence|lia|exact Hmono|].
        exists row', u'. split; [done|]. by split.
      * destruct (IH (step e w) k row1 t t Hk1) as (row' & u' & ? & ? & ?);
          [exact Hnew|lia|exact Hmono|].
        exists row', u'. split; [done|]. split; [done|lia].
    + destruct Hup as [Hsame|(t' & Hx & _)]; [|discriminate Hx].
      destruct (IH (step e w) k row1 u c Hk1) as (row' & u' & ? & ? & ?);
        [congruence|lia|exact Hmono|].
      exists row', u'. split; [done|]. by split.
Qed.

(** An event that is not aimed at a row leaves it exactly as it is. *)
Lemma step_untouched (e : Event) (w : World) (k : nat)
  (row : ContactMessage.t) :
  contact_messages w !! k = Some row ->
  ~ touches k e ->
  contact_messages (step e w) !! k = Some row.
Proof.
  intros Hk Hnot.
  destruct e as [env request|env request|env k'|env qs|env qs|env qs|env qs
                |env request k']; cbn [step touches] in *.
  - rewrite contact_rows.
    destruct (_ && _); [by apply submission_keeps_rows|exact Hk].
  - rewrite contact_form_ajax_rows.
    destruct (_ && _); [by apply submission_keeps_rows|exact Hk].
  - destruct (contact_messages w !! k') as [row0|] eqn:Hk'; [|exact Hk].
    rewrite mark_as_read_action_rows.
    destruct (ContactMessage.is_read row0), (storage_error env);
      try exact Hk.
    by rewrite lookup_insert_ne.
  - unfold Admin.mark_as_read.
    rewrite bulk_action_rows, queryset_update_lookup, Hk.
    destruct (storage_error env); [reflexivity|].
    by rewrite bool_decide_eq_false_2.
  - unfold Admin.mark_as_unread.
    rewrite bulk_action_rows, queryset_update_lookup, Hk.
    destruct (storage_error env); [reflexivity|].
    by rewrite bool_decide_eq_false_2.
  - unfold Admin.archive_messages.
    rewrite bulk_action_rows, queryset_update_lookup, Hk.
    destruct (storage_error env); [reflexivity|].
    by rewrite bool_decide_eq_false_2.
  - unfold Admin.unarchive_messages.
    rewrite bulk_action_rows, queryset_update_lookup, Hk.
    destruct (storage_error env); [reflexivity|].
    by rewrite bool_decide_eq_false_2.
  - rewrite mark_read_view_rows.
    destruct (contact_messages w !! k') as [row0|] eqn:Hk'; [|exact Hk].
    destruct (storage_error env); [exact Hk|].
    by rewrite lookup_insert_ne.
Qed.

Lemma run_untouched (history : list Event) :
  forall (w : World) (k : nat) (row : ContactMessage.t),
    Forall (fun e => ~ touches k e) history ->
    contact_messages w !! k = Some row ->
    contact_messages (run history w) !! k = Some row.
Proof.
  induction history as [|e history IH]; intros w k row Hall Hk; [exact Hk|].
  apply Forall_cons in Hall as [He Hall].
  change (run (e :: history) w) with (run history (step e w)).
  apply IH; [exact Hall|]. by apply step_untouched.
Qed.

(** Submissions leave the rows already stored exactly as they are. *)
Lemma run_submissions_row (history : list Event) :
  forall (w : World) (k : nat) (row : ContactMessage.t),
    Forall (fun e => is_submission e = true) history ->
    contact_messages w !! k = Some row ->
    contact_messages (run history w) !! k = Some row.
Proof.
  induction history as [|e history IH]; intros w k row Hall Hk; [exact Hk|].
  apply Forall_cons in Hall as [He Hall].
  change (run (e :: history) w) with (run history (step e w)).
  apply IH; [exact Hall|].
  destruct e as [env request|env request| | | | | |]; try discriminate He;
    cbn [step].
  - rewrite contact_rows.
    destruct (_ && _); [by apply submission_keeps_rows|exact Hk].
  - rewrite contact_form_ajax_rows.
    destruct (_ && _); [by apply submission_keeps_rows|exact Hk].
Qed.

Lemma clock_monotone_app (c : Z) (h1 h2 : list Event) :
  clock_monotone c (h1 ++ h2) ->
  clock_monotone c h1 /\ clock_monotone (last_clock c h1) h2.
Proof.
  revert c. induction h1 as [|e h1 IH]; intros c Hmono; [by split|].
  change (last_clock c (e :: h1))
    with (last_clock (default c (event_clock e)) h1).
  cbn [app clock_monotone] in *.
  destruct (event_clock e) as [t|]; cbn [default from_option id].
  - destruct Hmono as [Hct Hmono]. destruct (IH t Hmono). by repeat split.
  - by apply IH.
Qed.

End HistoryFacts.

(** C2, as amended. Take a stored contact message and any history of the
    events that write contact messages: submissions through either entry
    point, the four bulk actions, the mark-read view, and the rendering
    of the change list's status column, which saves an unread row as
    read. At every point of the history the row is still stored under
    its key (nothing deletes it) and its [created_at] and every submitted
    field are what they were, the address compared in the form [save()]
    gives it and, for a row that [save()] wrote, as it is: only the read
    and archived flags and [updated_at] change. A history of submissions
    alone, or of events none of which is an admin event aimed at the
    row, leaves the row exactly as it was.
    [updated_at] at a later point is no earlier than at an earlier point
    provided the clock does not run backwards from the row's
    [updated_at] on; nothing in the code enforces that. *)
Theorem created_at_fixed_updated_at_monotone `{Framework} `{ModelForm}
  (w : World) (k : nat) (row : ContactMessage.t) (h1 h2 : list Event) :
  contact_messages w !! k = Some row ->
  exists row1 row2,
    contact_messages (run h1 w) !! k = Some row1
    /\ contact_messages (run (h1 ++ h2) w) !! k = Some row2
    /\ ContactMessage.created_at row1 = ContactMessage.created_at row
    /\ ContactMessage.created_at row2 = ContactMessage.created_at row
    /\ frozen (stored_form row) (stored_form row1)
    /\ frozen (stored_form row) (stored_form row2)
    /\ (as_stored row -> frozen row row1 /\ frozen row row2)
    /\ (Forall (fun e => is_submission e = true) h1 -> row1 = row)
    /\ (Forall (fun e => ~ touches k e) h1 -> row1 = row)
    /\ (forall t0,
          ContactMessage.updated_at row = Some t0 ->
          clock_monotone t0 (h1 ++ h2) ->
          exists t1 t2,
            ContactMessage.updated_at row1 = Some t1
            /\ ContactMessage.updated_at row2 = Some t2
            /\ t0 <= t1 <= t2).
Proof.
  intros Hk.
  destruct (run_frozen h1 w k row Hk) as (row1 & Hk1 & Hf1 & Hs1).
  destruct (run_frozen (h1 ++ h2) w k row Hk) as (row2 & Hk2 & Hf2 & Hs2).
  exists row1, row2.
  split; [exact Hk1|]. split; [exact Hk2|].
  split; [apply Hf1|]. split; [apply Hf2|].
  split; [exact Hf1|]. split; [exact Hf2|].
  split; [intros Hrow; split; [by apply Hs1|by apply Hs2]|].
  split.
  { intros Hsub. pose proof (run_submissions_row h1 w k row Hsub Hk) as Hk1'.
    rewrite Hk1 in Hk1'. by injection Hk1'. }
  split.
  { intros Hnot. pose proof (run_untouched h1 w k row Hnot Hk) as Hk1'.
    rewrite Hk1 in Hk1'. by injection Hk1'. }
  intros t0 Hu Hmono.
  apply clock_monotone_app in Hmono as [Hm1 Hm2].
  destruct (run_row h1 w k row t0 t0 Hk Hu) as (row1' & t1 & Hk1' & Hu1 & Ht1);
    [lia|exact Hm1|].
  rewrite Hk1 in Hk1'. injection Hk1' as <-.
  destruct (run_row h2 (run h1 w) k row1 t1 (last_clock t0 h1) Hk1 Hu1)
    as (row2' & t2 & Hk2' & Hu2 & Ht2); [lia|exact Hm2|].
  rewrite <- run_app, Hk2 in Hk2'. injection Hk2' as <-.
  exists t1, t2. split; [exact Hu1|]. split; [exact Hu2|]. lia.
Qed.

Lemma created_at_fixed_updated_at_monotone_witness :
  exists row1 row2 t1 t2,
    contact_messages
      (@run Scenario.framework Scenario.form
         [MarkReadView (Scenario.env_at 200)
            (Scenario.post Scenario.john_smith) 1%nat]
         (Scenario.world_with_row 100)) !! 1%nat = Some row1
    /\ contact_messages
         (@run Scenario.framework Scenario.form
            ([MarkReadView (Scenario.env_at 200)
                (Scenario.post Scenario.john_smith) 1%nat]
             ++ [MarkAsUnread (Scenario.env_at 300) {[1%nat]};
                 Contact (Scenario.env_at 400)
                   (Scenario.post Scenario.john_smith)])
            (Scenario.world_with_row 100)) !! 1%nat = Some row2
    /\ ContactMessage.created_at row1 = 100
    /\ ContactMessage.created_at row2 = 100
    /\ ContactMessage.updated_at row1 = Some t1
    /\ ContactMessage.updated_at row2 = Some t2
    /\ 100 <= t1 <= t2.
Proof.
  destruct (@created_at_fixed_updated_at_monotone Scenario.framework Scenario.form
              (Scenario.world_with_row 100) 1%nat (Scenario.row 100 false)
              [MarkReadView (Scenario.env_at 200)
                 (Scenario.post Scenario.john_smith) 1%nat]
              [MarkAsUnread (Scenario.env_at 300) {[1%nat]};
               Contact (Scenario.env_at 400)
                 (Scenario.post Scenario.john_smith)])
    as (row1 & row2 & H1 & H2 & Hc1 & Hc2 & _ & _ & _ & _ & _ & Hclock).
  - reflexivity.
  - destruct (Hclock 100) as (t1 & t2 & Hu1 & Hu2 & Ht).
    + reflexivity.
    + cbn. lia.
    + exists row1, row2, t1, t2. repeat split; try assumption; lia.
Defined.

(** C2, as stated, fails twice over. The row of [Scenario.world_with_row]
    is unread and was last written at 100. Rendering the status column
    of the change list, at a clock reading of 301, saves it as read:
    a write that no read or archive toggle asked for. The mark-read view
    then runs on a clock that was set back to 201, and [updated_at]
    goes from 301 to 201. *)
Lemma updated_at_regresses_counterexample :
  let w := Scenario.world_with_row 100 in
  let h1 := [StatusColumn (Scenario.env_at 300) 1%nat] in
  let h2 := [MarkReadView (Scenario.env_at 200)
               (Scenario.post Scenario.john_smith) 1%nat] in
  let at_ (w' : World) := contact_messages w' !! 1%nat in
  at_ w = Some (Scenario.row 100 false)
  /\ ContactMessage.is_read <$> at_ w = Some false
  /\ ContactMessage.is_read
     <$> at_ (@run Scenario.framework Scenario.form h1 w) = Some true
  /\ ContactMessage.updated_at
     <$> at_ (@run Scenario.framework Scenario.form h1 w) = Some (Some 301)
  /\ ContactMessage.updated_at
     <$> at_ (@run Scenario.framework Scenario.form (h1 ++ h2) w)
     = Some (Some 201)
  /\ 201 < 301.
Proof.
  cbv zeta. split; [reflexivity|].
  split; [reflexivity|].
  split; [vm_compute; reflexivity|].
  split; [vm_compute; reflexivity|].
  split; [vm_compute; reflexivity|]. lia.
Qed.

Section MarkRead.
Context `{Framework} `{ModelForm}.


End MarkRead.




(** * Further properties *)

(** ** Requests that must not change anything *)

Lemma get_content_returns (rows : list SiteContent.t) (key : str)
  (default : option str) :
  SiteContent.unique_content_type rows ->
  exists v, SiteContent.get_content rows key default = Ok v.
Proof.
  intros Huniq. unfold SiteContent.get_content, SiteContent.objects_get.
  destruct (filter_unique_key
              (fun r => SiteContent.content_type r = key
                        /\ SiteContent.is_active r = true) rows key)
    as [Hnil|[r Hone]]; [by intros r [Hk _]|exact Huniq| |].
  - rewrite Hnil. by eexists.
  - rewrite Hone. by eexists.
Qed.

(** X1. A POST whose form is not valid stores nothing, mails nothing and
    logs nothing: the page flow only adds the flash message "Please
    correct the errors below." and does not redirect, and the
    programmatic flow returns the field errors and leaves the world
    untouched. *)
Theorem invalid_submission_changes_nothing `{Framework} `{ModelForm}
  (env : Env) (request : HttpRequest) (w : World) :
  method request = "POST" ->
  is_valid (POST request) = false ->
  (exists r,
     contact env request w
     = (r, add_flash (ERROR, lit "Please correct the errors below.") w)
     /\ forall url, r <> Ok (HttpResponseRedirect url))
  /\ (headers request !! "X-Requested-With" = Some (lit "XMLHttpRequest") ->
      contact_form_ajax env request w
      = (Ok (JsonResponse
               {[ "success" := VBool false;
                  "errors" := VErrors (form_errors (POST request));
                  "message" := VStr (lit "Please correct the errors below.") ]}),
         w)).
Proof.
  intros Hm Hv. split.
  - unfold contact. rewrite Hm, Hv.
    rewrite bool_decide_eq_true_2 by reflexivity.
    unfold mbind, M_bind, messages_error, mret, M_ret, get_content.
    cbn [site_contents add_flash].
    destruct (SiteContent.get_content _ _ _) as [ci|e];
      (eexists; split; [reflexivity|]); intros url Hx; discriminate Hx.
  - intros Hh. unfold contact_form_ajax, require_http_methods.
    rewrite Hm, Hh, Hv.
    rewrite (bool_decide_eq_true_2 ("POST" ∈ ["POST"]))
      by apply list_elem_of_here.
    by rewrite bool_decide_eq_true_2 by reflexivity.
Qed.

Lemma invalid_submission_changes_nothing_witness :
  contact_messages
    (@contact Scenario.framework Scenario.form (Scenario.env_at 100)
       (Scenario.post Scenario.john123) Scenario.empty_world).2 = ∅
  /\ (@contact_form_ajax Scenario.framework Scenario.form (Scenario.env_at 100)
        (Scenario.post Scenario.john123) Scenario.empty_world).2
     = Scenario.empty_world.
Proof.
  destruct (@invalid_submission_changes_nothing Scenario.framework Scenario.form
              (Scenario.env_at 100) (Scenario.post Scenario.john123)
              Scenario.empty_world)
    as [(r & Hrun & _) Hajax].
  - reflexivity.
  - vm_compute. reflexivity.
  - rewrite Hrun, (Hajax eq_refl). split; reflexivity.
Defined.

(** X2. A request to the contact page that is not a POST writes nothing
    at all; with at most one entry per content type it is answered with
    contact.html, an unbound form without errors, and the stored contact
    information or the built-in text. *)
Theorem contact_page_is_read_only `{Framework} `{ModelForm}
  (env : Env) (request : HttpRequest) (w : World) :
  method request <> "POST" ->
  exists r,
    contact env request w = (r, w)
    /\ (forall url, r <> Ok (HttpResponseRedirect url))
    /\ (SiteContent.unique_content_type (site_contents w) ->
        exists context info,
          r = Ok (TemplateResponse "contact.html" context)
          /\ context !! "form" = Some (VForm None ∅)
          /\ context !! "contact_info" = Some (VStr info)
          /\ SiteContent.get_content (site_contents w) (lit "contact_info")
               (Some (lit "Visit us during business hours or call us for any inquiries."))
             = Ok (Some info)).
Proof.
  intros Hm. unfold contact.
  rewrite bool_decide_eq_false_2 by exact Hm.
  unfold mbind, M_bind, mret, M_ret, get_content.
  destruct (SiteContent.get_content (site_contents w) _ _) as [ci|e] eqn:Hci.
  - eexists. split; [reflexivity|]. split; [intros url Hx; discriminate Hx|].
    intros _.
    assert (exists info, ci = Some info) as [info ->].
    { unfold SiteContent.get_content in Hci.
      destruct (SiteContent.objects_get _ _) as [obj|[]];
        try discriminate Hci; injection Hci as <-; by eexists. }
    eexists _, info. split; [reflexivity|].
    unfold update. split.
    + apply lookup_union_Some_l.
      do 2 (rewrite lookup_insert_ne by done). apply lookup_insert_eq.
    + split; [|reflexivity]. apply lookup_union_Some_l.
      do 3 (rewrite lookup_insert_ne by done). apply lookup_insert_eq.
  - eexists. split; [reflexivity|]. split; [intros url Hx; discriminate Hx|].
    intros Huniq.
    destruct (get_content_returns (site_contents w) (lit "contact_info")
                (Some (lit "Visit us during business hours or call us for any inquiries."))
                Huniq) as [v Hv].
    rewrite Hv in Hci. discriminate Hci.
Qed.

Lemma contact_page_is_read_only_witness :
  (@contact Scenario.framework Scenario.form (Scenario.env_at 100)
     {| method := "GET"; POST := ∅; META := ∅; headers := ∅ |}
     (Scenario.world_with_row 100)).2
  = Scenario.world_with_row 100.
Proof.
  destruct (@contact_page_is_read_only Scenario.framework Scenario.form
      (Scenario.env_at 100)
              {| method := "GET"; POST := ∅; META := ∅; headers := ∅ |}
              (Scenario.world_with_row 100))
    as (r & Hrun & _).
  - intros Hx. discriminate Hx.
  - by rewrite Hrun.
Defined.

(** X3. The programmatic entry point changes the world only for a POST
    that carries the marker header and a valid form. Any other request
    leaves the world exactly as it was; a request with another method is
    answered 405 whatever its headers. *)
Theorem contact_form_ajax_gate `{Framework} `{ModelForm}
  (env : Env) (request : HttpRequest) (w : World) :
  (method request <> "POST" ->
   contact_form_ajax env request w
   = (Ok (HttpResponseNotAllowed ["POST"]), w))
  /\ (~ (method request = "POST"
         /\ headers request !! "X-Requested-With"
            = Some (lit "XMLHttpRequest")
         /\ is_valid (POST request) = true) ->
      exists r, contact_form_ajax env request w = (Ok r, w)
                /\ r <> JsonResponse
                          {[ "success" := VBool true;
                             "message" :=
                               VStr (lit "Thank you for contacting us! We will get back to you within 24 hours.") ]}).
Proof.
  unfold contact_form_ajax, require_http_methods. split.
  - intros Hm. rewrite bool_decide_eq_false_2; [reflexivity|].
    intros Hin. apply list_elem_of_singleton in Hin. contradiction.
  - intros Hnot.
    destruct (decide (method request = "POST")) as [Hm|Hm].
    + rewrite Hm.
      rewrite (bool_decide_eq_true_2 ("POST" ∈ ["POST"]))
        by apply list_elem_of_here.
      destruct (decide (headers request !! "X-Requested-With"
                        = Some (lit "XMLHttpRequest"))) as [Hh|Hh].
      * rewrite bool_decide_eq_true_2 by exact Hh. cbn [negb].
        destruct (is_valid (POST request)) eqn:Hv;
          [by destruct Hnot|].
        eexists. split; [reflexivity|]. intros Hx. discriminate Hx.
      * rewrite bool_decide_eq_false_2 by exact Hh. cbn [negb].
        eexists. split; [reflexivity|]. intros Hx. discriminate Hx.
    + rewrite bool_decide_eq_false_2.
      * eexists. split; [reflexivity|]. intros Hx. discriminate Hx.
      * intros Hin. apply list_elem_of_singleton in Hin. contradiction.
Qed.

Lemma contact_form_ajax_gate_witness :
  @contact_form_ajax Scenario.framework Scenario.form (Scenario.env_at 100)
    {| method := "GET"; POST := Scenario.john_smith; META := ∅;
       headers := {[ "X-Requested-With" := lit "XMLHttpRequest" ]} |}
    Scenario.empty_world
  = (Ok (HttpResponseNotAllowed ["POST"]), Scenario.empty_world).
Proof.
  apply (@contact_form_ajax_gate Scenario.framework Scenario.form).
  intros Hx. discriminate Hx.
Defined.

(** ** The three ways a valid submission can end *)

Section Endings.
Context `{Framework} `{ModelForm}.

Lemma save_and_notify_success (env : Env) (request : HttpRequest)
  (html : str) (w : World) :
  storage_error env = None ->
  notification_template env (saved_instance env request w) = Ok html ->
  transport env (notification_mail env (saved_instance env request w) html)
  = None ->
  save_and_notify env request w
  = (Ok tt,
     add_log (INFO, lit "Contact email sent successfully for "
                    ++ ContactMessage.email (saved_instance env request w))
       (add_outbox (notification_mail env (saved_instance env request w) html)
          (set_contact_messages
             (insert (new_key w) (persisted env request w)) w))).
Proof.
  intros Hs Ht Hsend. rewrite save_and_notify_run, Hs.
  by apply notification_success_run.
Qed.

Lemma save_and_notify_outbox (env : Env) (request : HttpRequest) (w : World) :
  outbox (save_and_notify env request w).2 = outbox w
  \/ exists html,
       outbox (save_and_notify env request w).2
       = outbox w ++ [notification_mail env (saved_instance env request w) html].
Proof.
  rewrite save_and_notify_run. destruct (storage_error env); [by left|].
  destruct (notification_error env (saved_instance env request w)) as [e|] eqn:He.
  - left. by rewrite (notification_failure_run env _ e _ He).
  - unfold notification_error in He.
    destruct (notification_template env (saved_instance env request w))
      as [html|e] eqn:Ht; [|discriminate He].
    right. exists html.
    by rewrite (notification_success_run env _ html _ Ht He).
Qed.

Lemma contact_outbox (env : Env) (request : HttpRequest) (w : World) :
  outbox (contact env request w).2 = outbox w
  \/ outbox (contact env request w).2
     = outbox (save_and_notify env request w).2.
Proof.
  unfold contact.
  destruct (bool_decide (method request = "POST"));
    [destruct (is_valid (POST request))|].
  - right.
    unfold try_except, redirect, get_content, messages_success,
      messages_error, logger_error, mbind, M_bind, mret, M_ret, lift.
    destruct (save_and_notify env request w) as [[[]|e] w1]; cbn [snd].
    + destruct (reverse env "contact" []) as [url|e]; cbn [snd];
        [reflexivity|].
      by destruct (SiteContent.get_content _ _ _).
    + by destruct (SiteContent.get_content _ _ _).
  - left. unfold get_content, messages_error, mbind, M_bind, mret, M_ret.
    by destruct (SiteContent.get_content _ _ _).
  - left. unfold get_content, mbind, M_bind, mret, M_ret.
    by destruct (SiteContent.get_content _ _ _).
Qed.

Lemma contact_form_ajax_outbox (env : Env) (request : HttpRequest)
  (w : World) :
  outbox (contact_form_ajax env request w).2 = outbox w
  \/ outbox (contact_form_ajax env request w).2
     = outbox (save_and_notify env request w).2.
Proof.
  unfold contact_form_ajax, require_http_methods.
  destruct (bool_decide (method request ∈ ["POST"])); [|by left].
  destruct (bool_decide (headers request !! "X-Requested-With" = _));
    cbn [negb]; [|by left].
  destruct (is_valid (POST request)); [|by left].
  right. unfold try_except, logger_error, mbind, M_bind, mret, M_ret.
  by destruct (save_and_notify env request w) as [[[]|e] w1].
Qed.

End Endings.

(** X4. A valid POST whose save, notification and redirect all work:
    the row is stored, exactly one mail is appended to the outbox, to
    the configured recipient (or gkgroup@mail.com) with the subject
    "New Contact Form Submission: " followed by the row's subject, the
    page flow redirects after a success flash message, and the
    programmatic flow answers [success] true. *)
Theorem successful_submission `{Framework} `{ModelForm}
  (env : Env) (request : HttpRequest) (html url : str) (w : World) :
  method request = "POST" ->
  is_valid (POST request) = true ->
  storage_error env = None ->
  notification_template env (saved_instance env request w) = Ok html ->
  transport env (notification_mail env (saved_instance env request w) html)
  = None ->
  reverse env "contact" [] = Ok url ->
  let instance := saved_instance env request w in
  let row := persisted env request w in
  let mail := notification_mail env instance html in
  let sent :=
    add_log (INFO, lit "Contact email sent successfully for "
                   ++ ContactMessage.email instance)
      (add_outbox mail
         (set_contact_messages (insert (new_key w) row) w)) in
  contact env request w
  = (Ok (HttpResponseRedirect url),
     add_flash
       (SUCCESS, lit "Thank you for contacting us! We will get back to you within 24 hours.")
       sent)
  /\ (headers request !! "X-Requested-With" = Some (lit "XMLHttpRequest") ->
      contact_form_ajax env request w
      = (Ok (JsonResponse
               {[ "success" := VBool true;
                  "message" :=
                    VStr (lit "Thank you for contacting us! We will get back to you within 24 hours.") ]}),
         sent))
  /\ outbox sent = outbox w ++ [mail]
  /\ mail_recipient_list mail
     = [default (lit "gkgroup@mail.com") (CONTACT_EMAIL (settings env))]
  /\ mail_subject mail
     = lit "New Contact Form Submission: " ++ ContactMessage.subject row.
Proof.
  intros Hm Hv Hs Ht Hsend Hurl instance row mail sent.
  pose proof (save_and_notify_success env request html w Hs Ht Hsend) as Hrun.
  split; [|split; [|by repeat split]].
  - unfold contact. rewrite Hm, Hv.
    rewrite bool_decide_eq_true_2 by reflexivity.
    unfold try_except, redirect, mbind, M_bind, lift.
    rewrite Hrun. unfold messages_success. by rewrite Hurl.
  - intros Hh. unfold contact_form_ajax, require_http_methods.
    rewrite Hm, Hh, Hv.
    rewrite (bool_decide_eq_true_2 ("POST" ∈ ["POST"]))
      by apply list_elem_of_here.
    rewrite bool_decide_eq_true_2 by reflexivity. cbn [negb].
    unfold try_except, mbind, M_bind. by rewrite Hrun.
Qed.

Lemma successful_submission_witness :
  (@contact Scenario.framework Scenario.form (Scenario.env_at 100)
     (Scenario.post Scenario.john_smith) Scenario.empty_world).1
  = Ok (HttpResponseRedirect (lit "/contact/")).
Proof.
  destruct (@successful_submission Scenario.framework Scenario.form
      (Scenario.env_at 100)
              (Scenario.post Scenario.john_smith) (lit "<p>New message</p>")
              (lit "/contact/") Scenario.empty_world)
    as (Hrun & _).
  - reflexivity.
  - vm_compute. reflexivity.
  - reflexivity.
  - reflexivity.
  - reflexivity.
  - reflexivity.
  - by rewrite Hrun.
Defined.

(** X5. When the store refuses the write of a valid POST, nothing is
    stored and no notification is attempted: the only changes are one
    ERROR log record carrying the store's message and, in the page flow,
    the "Sorry" flash message; the page flow does not redirect and the
    programmatic flow answers [success] false without an [errors]
    entry. *)
Theorem storage_failure_sends_nothing `{Framework} `{ModelForm}
  (env : Env) (request : HttpRequest) (e : exn) (w : World) :
  method request = "POST" ->
  is_valid (POST request) = true ->
  storage_error env = Some e ->
  (exists r,
     contact env request w
     = (r,
        add_flash
          (ERROR, lit "Sorry, there was an error sending your message. Please try again or call us directly.")
          (add_log (ERROR, lit "Error processing contact form: " ++ exn_str e)
             w))
     /\ forall url, r <> Ok (HttpResponseRedirect url))
  /\ (headers request !! "X-Requested-With" = Some (lit "XMLHttpRequest") ->
      contact_form_ajax env request w
      = (Ok (JsonResponse
               {[ "success" := VBool false;
                  "message" :=
                    VStr (lit "Sorry, there was an error sending your message. Please try again.") ]}),
         add_log (ERROR, lit "Error in AJAX contact form: " ++ exn_str e) w)).
Proof.
  intros Hm Hv Hs.
  assert (Hrun : save_and_notify env request w = (Raise e, w)).
  { by rewrite save_and_notify_run, Hs. }
  split.
  - unfold contact. rewrite Hm, Hv.
    rewrite bool_decide_eq_true_2 by reflexivity.
    unfold mbind at 1. unfold M_bind at 1. unfold try_except.
    unfold mbind at 1. unfold M_bind at 1. rewrite Hrun.
    unfold mbind, M_bind, logger_error, messages_error, mret, M_ret,
      get_content.
    cbn [site_contents add_flash add_log].
    destruct (SiteContent.get_content _ _ _) as [ci|e'];
      (eexists; split; [reflexivity|]); intros url Hx; discriminate Hx.
  - intros Hh. unfold contact_form_ajax, require_http_methods.
    rewrite Hm, Hh, Hv.
    rewrite (bool_decide_eq_true_2 ("POST" ∈ ["POST"]))
      by apply list_elem_of_here.
    rewrite bool_decide_eq_true_2 by reflexivity. cbn [negb].
    unfold try_except. unfold mbind at 1. unfold M_bind at 1.
    by rewrite Hrun.
Qed.

Lemma storage_failure_sends_nothing_witness :
  let env :=
    {| settings := settings (Scenario.env_at 100);
       clock_new := 100; clock_save := 101;
       storage_error := Some (DatabaseError (lit "database is locked"));
       reverse := reverse (Scenario.env_at 100);
       render_to_string := render_to_string (Scenario.env_at 100);
       strip_tags := strip_tags (Scenario.env_at 100);
       transport := transport (Scenario.env_at 100) |} in
  (@contact_form_ajax Scenario.framework Scenario.form env
     (Scenario.post Scenario.john_smith) Scenario.empty_world).2
  = add_log (ERROR, lit "Error in AJAX contact form: database is locked")
      Scenario.empty_world.
Proof.
  intros env.
  destruct (@storage_failure_sends_nothing Scenario.framework Scenario.form env
              (Scenario.post Scenario.john_smith)
              (DatabaseError (lit "database is locked"))
              Scenario.empty_world)
    as [_ Hajax].
  - reflexivity.
  - vm_compute. reflexivity.
  - reflexivity.
  - rewrite (Hajax eq_refl). reflexivity.
Defined.

(** X6. The redirect is resolved inside the same [try] as the save and
    the notification. When it cannot be resolved, the submission is
    stored and the mail is sent, and the page flow still ends in its
    error handler: the flash messages are the success message followed
    by the "Sorry" message, and the answer is not a redirect. *)
Theorem unresolved_redirect_reports_error_after_success `{Framework} `{ModelForm}
  (env : Env) (request : HttpRequest) (html : str) (e : exn) (w : World) :
  method request = "POST" ->
  is_valid (POST request) = true ->
  storage_error env = None ->
  notification_template env (saved_instance env request w) = Ok html ->
  transport env (notification_mail env (saved_instance env request w) html)
  = None ->
  reverse env "contact" [] = Raise e ->
  exists r w',
    contact env request w = (r, w')
    /\ (forall url, r <> Ok (HttpResponseRedirect url))
    /\ contact_messages w' !! new_key w = Some (persisted env request w)
    /\ outbox w'
       = outbox w ++ [notification_mail env (saved_instance env request w) html]
    /\ flash w'
       = flash w
         ++ [(SUCCESS, lit "Thank you for contacting us! We will get back to you within 24 hours.");
             (ERROR, lit "Sorry, there was an error sending your message. Please try again or call us directly.")].
Proof.
  intros Hm Hv Hs Ht Hsend Hurl.
  pose proof (save_and_notify_success env request html w Hs Ht Hsend) as Hrun.
  unfold contact. rewrite Hm, Hv.
  rewrite bool_decide_eq_true_2 by reflexivity.
  unfold try_except, redirect, mbind, M_bind, lift.
  rewrite Hrun. unfold messages_success. rewrite Hurl.
  unfold logger_error, messages_error, mret, M_ret, get_content.
  cbn [site_contents add_flash add_log add_outbox set_contact_messages].
  destruct (SiteContent.get_content _ _ _) as [ci|e'];
    (eexists _, _; split; [reflexivity|]);
    (split; [intros url Hx; discriminate Hx|]);
    cbn [contact_messages outbox flash];
    (split; [apply lookup_insert_eq|]);
    (split; [reflexivity|]); symmetry; apply (app_assoc _ [_] [_]).
Qed.

Lemma unresolved_redirect_reports_error_after_success_witness :
  let env :=
    {| settings := settings (Scenario.env_at 100);
       clock_new := 100; clock_save := 101;
       storage_error := None;
       reverse := fun _ _ => Raise (TemplateError (lit "NoReverseMatch"));
       render_to_string := render_to_string (Scenario.env_at 100);
       strip_tags := strip_tags (Scenario.env_at 100);
       transport := transport (Scenario.env_at 100) |} in
  fst <$> flash (@contact Scenario.framework Scenario.form env
                   (Scenario.post Scenario.john_smith)
                   Scenario.empty_world).2
  = [SUCCESS; ERROR].
Proof.
  intros env.
  destruct (@unresolved_redirect_reports_error_after_success Scenario.framework Scenario.form
              env (Scenario.post Scenario.john_smith)
              (lit "<p>New message</p>")
              (TemplateError (lit "NoReverseMatch")) Scenario.empty_world)
    as (r & w' & Hrun & _ & _ & _ & Hflash).
  - reflexivity.
  - vm_compute. reflexivity.
  - reflexivity.
  - reflexivity.
  - reflexivity.
  - reflexivity.
  - rewrite Hrun. cbn [snd]. rewrite Hflash. reflexivity.
Defined.

(** X7. No request makes the application mail anyone but the configured
    recipient: every mail that either entry point adds to the outbox has
    the one recipient [CONTACT_EMAIL] (or gkgroup@mail.com) and the
    sender [DEFAULT_FROM_EMAIL] (or noreply@gkgroup.com), whatever the
    request submits, and a request adds at most one mail. *)
Theorem mail_goes_to_configured_recipient_only `{Framework} `{ModelForm}
  (env : Env) (request : HttpRequest) (w : World) (w' : World) :
  w' = (contact env request w).2 \/ w' = (contact_form_ajax env request w).2 ->
  outbox w' = outbox w
  \/ exists mail,
       outbox w' = outbox w ++ [mail]
       /\ mail_recipient_list mail
          = [default (lit "gkgroup@mail.com") (CONTACT_EMAIL (settings env))]
       /\ mail_from_email mail
          = default (lit "noreply@gkgroup.com")
                    (DEFAULT_FROM_EMAIL (settings env)).
Proof.
  intros Hw'.
  assert (Hout : outbox w' = outbox w
                 \/ outbox w' = outbox (save_and_notify env request w).2).
  { destruct Hw' as [-> | ->];
      [apply contact_outbox|apply contact_form_ajax_outbox]. }
  destruct Hout as [Hsame|Hsaved]; [by left|].
  destruct (save_and_notify_outbox env request w) as [Hnone|[html Hone]].
  - left. by rewrite Hsaved.
  - right. eexists. split; [by rewrite Hsaved, Hone|]. by split.
Qed.

Lemma mail_goes_to_configured_recipient_only_witness :
  mail_recipient_list
  <$> outbox (@contact Scenario.framework Scenario.form (Scenario.env_at 100)
                (Scenario.post Scenario.john_smith) Scenario.empty_world).2
  = [[lit "gkgroup@mail.com"]].
Proof.
  destruct (@mail_goes_to_configured_recipient_only Scenario.framework Scenario.form
              (Scenario.env_at 100) (Scenario.post Scenario.john_smith)
              Scenario.empty_world _ (or_introl eq_refl))
    as [Hsame|(mail & Hout & Hto & _)].
  - vm_compute in Hsame. discriminate Hsame.
  - rewrite Hout. cbn [outbox Scenario.empty_world app fmap list_fmap].
    by rewrite Hto.
Defined.

(** X8. Submitting the same valid form twice stores two records: the
    second is saved under a key different from the first, the first
    stays as stored, and with the same clock readings the two rows
    differ in their key only. *)
Theorem resubmission_stores_second_record `{Framework} `{ModelForm}
  (env : Env) (request : HttpRequest) (w : World) :
  method request = "POST" ->
  is_valid (POST request) = true ->
  storage_error env = None ->
  let w1 := (contact env request w).2 in
  let w2 := (contact env request w1).2 in
  new_key w1 <> new_key w
  /\ contact_messages w2 !! new_key w = Some (persisted env request w)
  /\ contact_messages w2 !! new_key w1 = Some (persisted env request w1)
  /\ persisted env request w1
     = ContactMessage.set_pk (Some (new_key w1)) (persisted env request w)
  /\ contact_messages w2
     = <[new_key w1 := persisted env request w1]>
         (<[new_key w := persisted env request w]> (contact_messages w)).
Proof.
  intros Hm Hv Hs w1 w2.
  assert (Hrows : forall w0,
            contact_messages (contact env request w0).2
            = <[new_key w0 := persisted env request w0]>
                (contact_messages w0)).
  { intros w0. rewrite contact_rows, Hm, Hv, save_and_notify_rows, Hs.
    by rewrite bool_decide_eq_true_2 by reflexivity. }
  assert (Hw1 : contact_messages w1
                = <[new_key w := persisted env request w]>
                    (contact_messages w)) by apply Hrows.
  assert (Hw2 : contact_messages w2
                = <[new_key w1 := persisted env request w1]>
                    (contact_messages w1)) by apply Hrows.
  clearbody w1 w2.
  assert (Hne : new_key w1 <> new_key w).
  { intros Heq. pose proof (new_key_fresh w1) as Hfresh.
    rewrite Hw1, Heq, lookup_insert_eq in Hfresh. discriminate Hfresh. }
  split; [exact Hne|]. rewrite Hw2, Hw1.
  split; [rewrite lookup_insert_ne by exact Hne; apply lookup_insert_eq|].
  split; [apply lookup_insert_eq|]. by split.
Qed.

Lemma resubmission_stores_second_record_witness :
  size (contact_messages
          (@contact Scenario.framework Scenario.form (Scenario.env_at 100)
             (Scenario.post Scenario.john_smith)
             (@contact Scenario.framework Scenario.form (Scenario.env_at 100)
                (Scenario.post Scenario.john_smith)
                Scenario.empty_world).2).2) = 2%nat.
Proof.
  destruct (@resubmission_stores_second_record Scenario.framework Scenario.form
              (Scenario.env_at 100) (Scenario.post Scenario.john_smith)
              Scenario.empty_world)
    as (_ & _ & _ & _ & Hrows).
  - reflexivity.
  - vm_compute. reflexivity.
  - reflexivity.
  - rewrite Hrows. vm_compute. reflexivity.
Defined.

(** ** Admin actions, case by case *)

(** X9. Rendering the status column for an unread row writes: with the
    store accepting the write the row is saved as read, with
    [updated_at] at the clock reading, and the cell shown is still the
    "Mark as Read" button. Rendering the column again for the row as now
    stored shows the "Read" badge and writes nothing. *)
Theorem status_column_marks_unread_row_read `{Framework}
  (env : Env) (k : nat) (row : ContactMessage.t) (url : str) (w : World) :
  contact_messages w !! k = Some row ->
  ContactMessage.is_read row = false ->
  storage_error env = None ->
  reverse env "admin:gk_group_app_contactmessage_change" [k] = Ok url ->
  let saved :=
    stored_form
      (ContactMessage.set_pk (Some k)
         (ContactMessage.set_updated_at (Some (clock_save env))
            (ContactMessage.set_is_read true (Admin.load k row)))) in
  let w' := set_contact_messages (insert k saved) w in
  Admin.mark_as_read_action env (Admin.load k row) w
  = (Ok (Admin.MarkAsReadButton url), w')
  /\ contact_messages w' !! k = Some saved
  /\ ContactMessage.is_read saved = true
  /\ ContactMessage.updated_at saved = Some (clock_save env)
  /\ forall env', Admin.mark_as_read_action env' (Admin.load k saved) w'
                  = (Ok Admin.ReadBadge, w').
Proof.
  intros Hk Hread Hs Hurl saved w'.
  split; [|split; [apply lookup_insert_eq|do 2 (split; [reflexivity|])]].
  - unfold Admin.mark_as_read_action, save, mbind, M_bind, mret, M_ret, lift.
    cbn [ContactMessage.is_read ContactMessage.pk ContactMessage.set_is_read
         Admin.load ContactMessage.set_pk].
    rewrite Hread, Hs.
    cbn [negb ContactMessage.pk ContactMessage.set_pk].
    change (option_list (Some k)) with [k]. by rewrite Hurl.
  - intros env'. reflexivity.
Qed.

Lemma status_column_marks_unread_row_read_witness :
  ContactMessage.is_read
  <$> contact_messages
        (@Admin.mark_as_read_action Scenario.framework (Scenario.env_at 200)
           (Admin.load 1 (Scenario.row 100 false))
           (Scenario.world_with_row 100)).2 !! 1%nat
  = Some true.
Proof.
  destruct (@status_column_marks_unread_row_read Scenario.framework
              (Scenario.env_at 200) 1%nat
              (Scenario.row 100 false)
              (lit "/admin:gk_group_app_contactmessage_change/")
              (Scenario.world_with_row 100))
    as (Hrun & Hk & _).
  - reflexivity.
  - reflexivity.
  - reflexivity.
  - reflexivity.
  - rewrite Hrun. cbn [snd]. by rewrite Hk.
Defined.

Lemma bulk_row (env : Env)
  (assign : ContactMessage.t -> ContactMessage.t) (b : bool)
  (queryset : gset nat) (w : World) (k : nat) (row' : ContactMessage.t) :
  assign = ContactMessage.set_is_read b
  \/ assign = ContactMessage.set_is_archived b ->
  contact_messages (Admin.queryset_update env assign queryset w).2 !! k
  = Some row' ->
  exists row,
    contact_messages w !! k = Some row
    /\ frozen row row'
    /\ ContactMessage.updated_at row' = ContactMessage.updated_at row
    /\ ContactMessage.pk row' = ContactMessage.pk row
    /\ (k ∉ queryset -> row' = row).
Proof.
  intros Hassign. rewrite queryset_update_lookup.
  destruct (storage_error env).
  - intros Hk. exists row'. split; [exact Hk|].
    split; [apply frozen_refl|]. by repeat split.
  - destruct (contact_messages w !! k) as [row|]; [|intros Hx; discriminate Hx].
    cbn [fmap option_fmap option_map]. intros [= <-]. exists row.
    split; [reflexivity|]. case_bool_decide as Hin.
    + destruct Hassign as [-> | ->]; by repeat split.
    + split; [apply frozen_refl|]. by repeat split.
Qed.

(** X10. The four bulk actions ([mark_as_read], [mark_as_unread],
    [archive_messages], [unarchive_messages]) change nothing but the one
    flag of the selected rows: every row stored afterwards was stored
    before under the same key with the same submitted fields, the same
    [created_at] and, since no [save()] runs, the same [updated_at]; a
    row outside the selection is identical; no row is added or removed. *)
Theorem bulk_actions_change_one_flag
  (env : Env) (queryset : gset nat) (w : World) (w' : World) :
  w' = (Admin.mark_as_read env queryset w).2
  \/ w' = (Admin.mark_as_unread env queryset w).2
  \/ w' = (Admin.archive_messages env queryset w).2
  \/ w' = (Admin.unarchive_messages env queryset w).2 ->
  dom (contact_messages w') = dom (contact_messages w)
  /\ forall k row',
       contact_messages w' !! k = Some row' ->
       exists row,
         contact_messages w !! k = Some row
         /\ frozen row row'
         /\ ContactMessage.updated_at row' = ContactMessage.updated_at row
         /\ (k ∉ queryset -> row' = row).
Proof.
  intros Hw'.
  assert (Hrows : exists assign b,
            (assign = ContactMessage.set_is_read b
             \/ assign = ContactMessage.set_is_archived b)
            /\ contact_messages w'
               = contact_messages
                   (Admin.queryset_update env assign queryset w).2).
  { destruct Hw' as [->|[->|[->| ->]]];
      unfold Admin.mark_as_read, Admin.mark_as_unread,
        Admin.archive_messages, Admin.unarchive_messages;
      rewrite bulk_action_rows; eexists _, _; (split; [|reflexivity]);
      by eauto. }
  destruct Hrows as (assign & b & Hassign & Hrows). rewrite Hrows. split.
  - apply set_eq. intros k. rewrite !elem_of_dom, queryset_update_lookup.
    destruct (storage_error env); [done|]. by rewrite fmap_is_Some.
  - intros k row' Hk.
    destruct (bulk_row env assign b queryset w k row' Hassign Hk)
      as (row & ? & ? & ? & ? & ?).
    by exists row.
Qed.

Lemma bulk_actions_change_one_flag_witness :
  dom (contact_messages
         (Admin.archive_messages (Scenario.env_at 200) {[1%nat]}
            (Scenario.world_with_row 100)).2)
  = {[1%nat]}.
Proof.
  destruct (bulk_actions_change_one_flag (Scenario.env_at 200) {[1%nat]}
              (Scenario.world_with_row 100) _
              (or_intror (or_intror (or_introl eq_refl))))
    as [Hdom _].
  rewrite Hdom. apply dom_singleton_L.
Defined.

(** X11. The mark-read view for an id that is not stored changes nothing
    and says nothing; when the store refuses the write, the row stays as
    it was and the only change is the flash message "Error: " followed
    by the store's message. In both cases the view redirects to the
    referer, or to the change list when there is none. *)
Theorem mark_read_view_without_effect `{Framework}
  (env : Env) (request : HttpRequest) (object_id : nat) (changelist : str)
  (w : World) :
  reverse env "admin:gk_group_app_contactmessage_changelist" []
  = Ok changelist ->
  let response :=
    HttpResponseRedirect
      (default changelist (META request !! "HTTP_REFERER")) in
  (contact_messages w !! object_id = None ->
   Admin.mark_read_view env request object_id w = (Ok response, w))
  /\ (forall row e,
        contact_messages w !! object_id = Some row ->
        storage_error env = Some e ->
        Admin.mark_read_view env request object_id w
        = (Ok response,
           add_flash (INFO, lit "Error: " ++ exn_str e) w)).
Proof.
  intros Hurl response.
  unfold Admin.mark_read_view, Admin.get_object, Admin.message_user,
    try_except, save, mbind, M_bind, mret, M_ret, lift.
  split.
  - intros Hk. rewrite Hk. cbn [fmap option_fmap option_map].
    by rewrite Hurl.
  - intros row e Hk Hs. rewrite Hk, Hs. cbn [fmap option_fmap option_map].
    by rewrite Hurl.
Qed.

Lemma mark_read_view_without_effect_witness :
  @Admin.mark_read_view Scenario.framework (Scenario.env_at 200)
    (Scenario.post Scenario.john_smith) 7 (Scenario.world_with_row 100)
  = (Ok (HttpResponseRedirect
           (lit "/admin:gk_group_app_contactmessage_changelist/")),
     Scenario.world_with_row 100).
Proof.
  apply (@mark_read_view_without_effect Scenario.framework
           (Scenario.env_at 200) (Scenario.post Scenario.john_smith) 7%nat
           (lit "/admin:gk_group_app_contactmessage_changelist/")
           (Scenario.world_with_row 100)).
  - reflexivity.
  - reflexivity.
Defined.

(** ** The validators that models.py declares *)

Lemma regex_nil (cls : char -> bool) (msg v : str) :
  Validators.regex cls msg v = [] <-> search_class_plus cls v = true.
Proof.
  unfold Validators.regex. destruct (search_class_plus cls v); split;
    intros Hx; try reflexivity; discriminate Hx.
Qed.

(** X12. The validators declared on [name] accept exactly the non-empty
    values of at most 100 characters made of ASCII letters, whitespace
    and periods. A name of spaces or periods alone passes, and so does a
    name that ends in a newline; any other character fails. *)
Theorem name_validators_accept_iff (v : str) :
  ContactMessage.name_validators v = []
  <-> v <> []
      /\ Forall (fun c => ascii_letter c = true \/ isspace c = true
                          \/ c = PERIOD) v
      /\ (length v <= 100)%nat.
Proof.
  unfold ContactMessage.name_validators.
  rewrite app_nil, regex_nil, max_length_nil,
    (search_class_plus_spec _ _ name_class_newline).
  unfold ContactMessage.name_max_length.
  assert (Hcls : forall c,
            ContactMessage.name_class c = true
            <-> ascii_letter c = true \/ isspace c = true \/ c = PERIOD).
  { intros c. unfold ContactMessage.name_class.
    rewrite !orb_true_iff, N.eqb_eq. tauto. }
  rewrite !Forall_forall. setoid_rewrite Hcls. tauto.
Qed.

(** X13. The validators declared on [phone] accept exactly the non-empty
    values of at most 20 characters made of decimal digits, [+], [-],
    whitespace and parentheses; no digit is required. *)
Theorem phone_validators_accept_iff (decimal : char -> bool) (v : str) :
  ContactMessage.phone_validators decimal v = []
  <-> v <> []
      /\ Forall (fun c => decimal c = true \/ c = 43%N \/ c = 45%N
                          \/ isspace c = true \/ c = 40%N \/ c = 41%N) v
      /\ (length v <= 20)%nat.
Proof.
  assert (HLF : ContactMessage.phone_class decimal LF = true).
  { unfold ContactMessage.phone_class. by destruct (decimal LF). }
  unfold ContactMessage.phone_validators.
  rewrite app_nil, regex_nil, max_length_nil,
    (search_class_plus_spec _ _ HLF).
  unfold ContactMessage.phone_max_length.
  assert (Hcls : forall c,
            ContactMessage.phone_class decimal c = true
            <-> decimal c = true \/ c = 43%N \/ c = 45%N
                \/ isspace c = true \/ c = 40%N \/ c = 41%N).
  { intros c. unfold ContactMessage.phone_class.
    rewrite !orb_true_iff, !N.eqb_eq. tauto. }
  rewrite !Forall_forall. setoid_rewrite Hcls. tauto.
Qed.

(** ** List columns *)

(** X14. The subject preview is never longer than 53 characters and
    always starts with the first 50 characters of the subject. It is the
    subject itself exactly when the subject has at most 50 characters or
    is 50 characters followed by three periods, so a cut subject cannot
    be told from one that really ends that way; for a subject of 51 or
    52 characters the preview is longer than the subject. *)
Theorem subject_preview_bounds (obj : ContactMessage.t) :
  let subject := ContactMessage.subject obj in
  let preview := AdminColumns.subject_preview obj in
  (length preview <= 53)%nat
  /\ take 50 preview = take 50 subject
  /\ (preview = subject
      <-> (length subject <= 50)%nat \/ drop 50 subject = lit "...")
  /\ ((length subject < length preview)%nat
      <-> (50 < length subject < 53)%nat).
Proof.
  intros subject preview. subst preview.
  unfold AdminColumns.subject_preview. fold subject.
  assert (Hdots : length (lit "...") = 3%nat) by reflexivity.
  case_bool_decide as Hlong.
  - assert (Hlen : length (take 50 subject ++ lit "...") = 53%nat).
    { rewrite length_app, length_take, Hdots. lia. }
    split; [lia|]. split.
    { rewrite take_app_le by (rewrite length_take; lia).
      by rewrite take_take. }
    split; [|rewrite Hlen; lia].
    split.
    + intros Heq. right. rewrite <- (take_drop 50 subject) in Heq at 2.
      by apply app_inv_head in Heq.
    + intros [Hle|Hdrop]; [lia|].
      rewrite <- Hdrop. apply take_drop.
  - split; [lia|]. split; [reflexivity|].
    split; [split; [left; lia|done]|lia].
Qed.

(** X15. The content preview is never longer than 103 characters and
    always starts with the first 100 characters of the content; it is
    the content itself exactly when the content has at most 100
    characters or is 100 characters followed by three periods. *)
Theorem content_preview_bounds (obj : SiteContent.t) :
  let content := SiteContent.content obj in
  let preview := AdminColumns.content_preview obj in
  (length preview <= 103)%nat
  /\ take 100 preview = take 100 content
  /\ (preview = content
      <-> (length content <= 100)%nat \/ drop 100 content = lit "...").
Proof.
  intros content preview. subst preview.
  unfold AdminColumns.content_preview. fold content.
  assert (Hdots : length (lit "...") = 3%nat) by reflexivity.
  case_bool_decide as Hlong.
  - assert (Hlen : length (take 100 content ++ lit "...") = 103%nat).
    { rewrite length_app, length_take, Hdots. lia. }
    split; [lia|]. split.
    { rewrite take_app_le by (rewrite length_take; lia).
      by rewrite take_take. }
    split.
    + intros Heq. right. rewrite <- (take_drop 100 content) in Heq at 2.
      by apply app_inv_head in Heq.
    + intros [Hle|Hdrop]; [lia|].
      rewrite <- Hdrop. apply take_drop.
  - split; [lia|]. split; [reflexivity|]. split; [left; lia|done].
Qed.

(** ** Methods of the model *)

(** [is_recent] holds from any time at or before [created_at] (a
    record dated in the future counts as recent) up to and including
    exactly one day after it, and fails from the next microsecond on. *)
Theorem is_recent_window (now : Z) (self : ContactMessage.t) :
  ContactMessageMethods.is_recent now self = true
  <-> now <= ContactMessage.created_at self + 86400000000.
Proof.
  unfold ContactMessageMethods.is_recent, ContactMessageMethods.timedelta_days.
  rewrite bool_decide_eq_true. lia.
Qed.

(** X16. Whatever happens after a message is stored (further
    submissions, the status column, bulk actions, the mark-read view, in
    any order, with any clock and any store failures), the message stays
    stored and its "Recent" badge at a given time, its subject preview
    and its submitted fields are what they were: the address compared
    in the form [save()] gives it, and, for a row that [save()] wrote,
    as it is. *)
Theorem history_keeps_columns `{Framework} `{ModelForm}
  (history : list Event) (w : World) (k : nat) (row : ContactMessage.t)
  (now : Z) :
  contact_messages w !! k = Some row ->
  exists row',
    contact_messages (run history w) !! k = Some row'
    /\ AdminColumns.is_recent now row' = AdminColumns.is_recent now row
    /\ AdminColumns.subject_preview row' = AdminColumns.subject_preview row
    /\ frozen (stored_form row) (stored_form row')
    /\ (as_stored row -> frozen row row').
Proof.
  intros Hk.
  destruct (run_frozen history w k row Hk) as (row' & Hk' & Hf & Hstored).
  exists row'. split; [exact Hk'|].
  pose proof Hf as (Hn & He & Hp & Hm & Hs & Hi & Hip & Hua & Hc).
  cbn [stored_form ContactMessage.set_ip_address ContactMessage.subject
       ContactMessage.created_at] in Hs, Hc.
  unfold AdminColumns.is_recent, ContactMessageMethods.is_recent,
    AdminColumns.subject_preview.
  rewrite Hc, Hs. split; [reflexivity|]. split; [reflexivity|].
  split; [exact Hf|exact Hstored].
Qed.

Lemma history_keeps_columns_witness :
  exists row',
    contact_messages
      (@run Scenario.framework Scenario.form
         [MarkAsRead (Scenario.env_at 50) {[1%nat]};
          ArchiveMessages (Scenario.env_at 20) {[1%nat]}]
         (Scenario.world_with_row 100)) !! 1%nat = Some row'
    /\ AdminColumns.is_recent 200 row' = AdminColumns.RecentBadge.
Proof.
  destruct (@history_keeps_columns Scenario.framework Scenario.form
              [MarkAsRead (Scenario.env_at 50) {[1%nat]};
               ArchiveMessages (Scenario.env_at 20) {[1%nat]}]
              (Scenario.world_with_row 100) 1%nat (Scenario.row 100 false)
              200 eq_refl)
    as (row' & Hk & Hrecent & _).
  exists row'. split; [exact Hk|]. rewrite Hrecent. reflexivity.
Defined.

Lemma lit_inj (s1 s2 : string) : lit s1 = lit s2 -> s1 = s2.
Proof.
  unfold lit. intros Heq.
  assert (Hl : list_ascii_of_string s1 = list_ascii_of_string s2).
  { revert Heq. generalize (list_ascii_of_string s1) as l1.
    generalize (list_ascii_of_string s2) as l2.
    intros l2 l1. revert l2.
    induction l1 as [|a l1 IH]; intros [|b l2] Heq;
      try discriminate Heq; [reflexivity|].
    rewrite !fmap_cons in Heq. injection Heq as Hab Hrest.
    f_equal; [|by apply IH].
    rewrite <- (ascii_N_embedding a), <- (ascii_N_embedding b).
    by rewrite Hab. }
  rewrite <- (string_of_list_ascii_of_string s1),
    <- (string_of_list_ascii_of_string s2).
  by rewrite Hl.
Qed.

(** X17. The admin URL of a saved message determines its key: two saved
    messages have the same [get_absolute_url] exactly when their keys
    are equal. *)
Theorem get_absolute_url_determines_key
  (m1 m2 : ContactMessage.t) (k1 k2 : nat) :
  ContactMessageMethods.get_absolute_url (ContactMessage.set_pk (Some k1) m1)
  = ContactMessageMethods.get_absolute_url (ContactMessage.set_pk (Some k2) m2)
  <-> k1 = k2.
Proof.
  unfold ContactMessageMethods.get_absolute_url.
  cbn [ContactMessage.pk ContactMessage.set_pk PyStr.str_of_pk].
  split; [|by intros ->].
  intros Heq. apply app_inv_head, app_inv_tail in Heq.
  apply lit_inj in Heq. by apply (inj pretty) in Heq.
Qed.

(** ** The home page *)

Lemma get_content_without_entry (rows : list SiteContent.t) (key : str)
  (default : option str) :
  (forall entry, entry ∈ rows -> SiteContent.content_type entry <> key) ->
  SiteContent.get_content rows key default = Ok default.
Proof.
  intros Hnone. unfold SiteContent.get_content, SiteContent.objects_get.
  destruct (filter _ rows) as [|r rest] eqn:Hf; [reflexivity|].
  assert (Hin : r ∈ filter
                      (fun r => SiteContent.content_type r = key
                                /\ SiteContent.is_active r = true) rows)
    by (rewrite Hf; apply list_elem_of_here).
  apply list_elem_of_filter in Hin as [[Hk _] Hin].
  by destruct (Hnone r Hin).
Qed.

(** X18. The home page writes nothing. With at most one entry per
    content type it is answered with index.html, and the number it
    passes as [recent_messages_count] is the number of stored messages
    that are unread, whatever their age; without an entry for
    [hero_subtitle] the subtitle is the tagline of the base context. *)
Theorem index_is_read_only (request : HttpRequest) (w : World) :
  exists r,
    index request w = (r, w)
    /\ (SiteContent.unique_content_type (site_contents w) ->
        exists context,
          r = Ok (Page "index.html" context)
          /\ context !! "recent_messages_count"
             = Some (PInt (size (filter
                                   (fun entry =>
                                      ContactMessage.is_read entry.2 = false)
                                   (contact_messages w))))
          /\ ((forall entry,
                 entry ∈ site_contents w ->
                 SiteContent.content_type entry <> lit "hero_subtitle") ->
              context !! "hero_subtitle"
              = Some (Plain (VStr (lit "Quality You Trust. Service with Commitment."))))).
Proof.
  unfold index, mbind, M_bind, mret, M_ret, get_content, unread_count.
  assert (Htag : get_base_context !! "tagline"
                 = Some (VStr (lit "Quality You Trust. Service with Commitment."))).
  { unfold get_base_context.
    do 3 (rewrite lookup_insert_ne by done). apply lookup_insert_eq. }
  rewrite Htag.
  destruct (SiteContent.get_content (site_contents w) (lit "hero_title") _)
    as [title|e] eqn:Htitle.
  - destruct (SiteContent.get_content (site_contents w) (lit "hero_subtitle") _)
      as [subtitle|e] eqn:Hsub.
    + eexists. split; [reflexivity|]. intros _.
      eexists. split; [reflexivity|]. split.
      * apply lookup_union_Some_l.
        do 4 (rewrite lookup_insert_ne by done). apply lookup_singleton_eq.
      * intros Hnone.
        rewrite (get_content_without_entry _ _ _ Hnone) in Hsub.
        injection Hsub as <-.
        apply lookup_union_Some_l.
        do 3 (rewrite lookup_insert_ne by done). apply lookup_insert_eq.
    + eexists. split; [reflexivity|]. intros Huniq.
      destruct (get_content_returns (site_contents w) (lit "hero_subtitle")
                  (Some (lit "Quality You Trust. Service with Commitment."))
                  Huniq) as [v Hv].
      rewrite Hv in Hsub. discriminate Hsub.
  - eexists. split; [reflexivity|]. intros Huniq.
    destruct (get_content_returns (site_contents w) (lit "hero_title")
                (Some (lit "Welcome to GK Group")) Huniq) as [v Hv].
    rewrite Hv in Htitle. discriminate Htitle.
Qed.

(** X19. After the bulk action [mark_as_read] on a selection that covers
    every stored message, with the store accepting the write, the home
    page counts no unread message. *)
Theorem no_unread_after_marking_all_read
  (env : Env) (queryset : gset nat) (w : World) :
  storage_error env = None ->
  dom (contact_messages w) ⊆ queryset ->
  let w' := (Admin.mark_as_read env queryset w).2 in
  unread_count w' = (Ok 0%nat, w').
Proof.
  intros Hs Hall w'. unfold unread_count. f_equal. f_equal.
  assert (Hempty :
    filter (fun entry : nat * ContactMessage.t =>
              ContactMessage.is_read entry.2 = false)
      (contact_messages w') = ∅).
  { apply map_empty. intros k. apply map_lookup_filter_None. right.
    intros row' Hk. cbn [snd]. unfold w', Admin.mark_as_read in Hk.
    rewrite bulk_action_rows, queryset_update_lookup, Hs in Hk.
    destruct (contact_messages w !! k) as [row|] eqn:Hrow;
      [|discriminate Hk].
    cbn [fmap option_fmap option_map] in Hk.
    assert (Hin : k ∈ queryset).
    { apply Hall, elem_of_dom. by eexists. }
    rewrite bool_decide_eq_true_2 in Hk by exact Hin.
    injection Hk as <-. cbn [ContactMessage.is_read ContactMessage.set_is_read].
    discriminate. }
  rewrite Hempty. apply map_size_empty.
Qed.

Lemma no_unread_after_marking_all_read_witness :
  (unread_count
     (Admin.mark_as_read (Scenario.env_at 200) {[1%nat]}
        (Scenario.world_with_row 100)).2).1 = Ok 0%nat
  /\ (unread_count (Scenario.world_with_row 100)).1 = Ok 1%nat.
Proof.
  split.
  - rewrite (no_unread_after_marking_all_read (Scenario.env_at 200)
               {[1%nat]} (Scenario.world_with_row 100)).
    + reflexivity.
    + reflexivity.
    + cbn [Scenario.world_with_row contact_messages].
      rewrite dom_singleton_L. reflexivity.
  - vm_compute. reflexivity.
Defined.

(** ** The newsletter endpoint *)

Lemma at_not_space : isspace PyStr.AT = false.
Proof. reflexivity. Qed.

Lemma lstrip_at (s : str) : PyStr.AT ∈ PyStr.lstrip s <-> PyStr.AT ∈ s.
Proof.
  induction s as [|c s IH]; [done|]. cbn [PyStr.lstrip].
  destruct (isspace c) eqn:Hc; [|done].
  rewrite IH, elem_of_cons. split; [by right|].
  intros [Heq|Hin]; [|done]. rewrite <- Heq, at_not_space in Hc.
  discriminate Hc.
Qed.

Lemma strip_at (s : str) : PyStr.AT ∈ PyStr.strip s <-> PyStr.AT ∈ s.
Proof.
  unfold PyStr.strip, PyStr.rstrip.
  rewrite list_elem_of_In, <- in_rev, <- list_elem_of_In, lstrip_at.
  rewrite list_elem_of_In, <- in_rev, <- list_elem_of_In. apply lstrip_at.
Qed.

Section NewsletterFacts.
Variable json_loads : list N -> Newsletter.Loaded.
Variable lower : str -> str.

(** Lower-casing neither adds nor removes an at sign. *)
Hypothesis lower_at : forall s, PyStr.AT ∈ lower s <-> PyStr.AT ∈ s.

(** X20. A marked POST whose body is a JSON object is accepted exactly
    when the value under [email] is a string that contains an at sign:
    then the answer is the thank-you payload and the one effect is an
    INFO log record; otherwise (no at sign, only whitespace, or no
    [email] member at all) the answer is "Please enter a valid email
    address." and nothing changes. Nothing else about the address is
    checked. *)
Theorem newsletter_accepts_iff_at_sign
  (request : HttpRequest) (body : list N)
  (members : list (str * Newsletter.Json)) (s : str) (w : World) :
  method request = "POST" ->
  headers request !! "X-Requested-With" = Some (lit "XMLHttpRequest") ->
  json_loads body = Newsletter.Document (Newsletter.JObject members) ->
  Newsletter.dict_get members (lit "email") (Newsletter.JString [])
  = Newsletter.JString s ->
  (PyStr.AT ∈ s ->
   Newsletter.newsletter_subscribe json_loads lower request body w
   = (Newsletter.Responded
        (JsonResponse
           {[ "success" := VBool true;
              "message" :=
                VStr (lit "Thank you for subscribing to our newsletter!") ]}),
      add_log (INFO, lit "Newsletter subscription request: "
                     ++ lower (PyStr.strip s)) w))
  /\ (PyStr.AT ∉ s ->
      Newsletter.newsletter_subscribe json_loads lower request body w
      = (Newsletter.Responded
           (JsonResponse
              {[ "success" := VBool false;
                 "message" :=
                   VStr (lit "Please enter a valid email address.") ]}),
         w)).
Proof.
  intros Hm Hh Hload Hget.
  unfold Newsletter.newsletter_subscribe, Newsletter.email_of.
  rewrite Hm, Hh, Hload, Hget.
  rewrite (bool_decide_eq_true_2 ("POST" ∈ ["POST"]))
    by apply list_elem_of_here.
  rewrite (bool_decide_eq_true_2 (Some _ = Some _)) by reflexivity.
  cbn [negb]. split.
  - intros Hat.
    assert (Hin : PyStr.AT ∈ lower (PyStr.strip s))
      by (by apply lower_at, strip_at).
    rewrite (bool_decide_eq_true_2 _ Hin).
    rewrite bool_decide_eq_false_2; [reflexivity|].
    intros Hnil. rewrite Hnil in Hin. by apply elem_of_nil in Hin.
  - intros Hnot.
    assert (Hout : PyStr.AT ∉ lower (PyStr.strip s)).
    { intros Hin. by apply Hnot, strip_at, lower_at. }
    rewrite (bool_decide_eq_false_2 _ Hout). cbn [negb].
    by rewrite orb_true_r.
Qed.

(** X21. The newsletter endpoint stores nothing and mails nothing: for
    every request and body, and whether it answers or an exception
    escapes, the world afterwards is the world before, or the world
    before with one INFO log record. A body that is valid JSON but not
    an object is not answered at all: the [AttributeError] escapes. *)
Theorem newsletter_writes_log_only
  (request : HttpRequest) (body : list N) (w : World) :
  let out := Newsletter.newsletter_subscribe json_loads lower request body w in
  (out.2 = w \/ exists msg, out.2 = add_log (INFO, msg) w)
  /\ (method request = "POST" ->
      headers request !! "X-Requested-With" = Some (lit "XMLHttpRequest") ->
      forall data,
        json_loads body = Newsletter.Document data ->
        (forall members, data <> Newsletter.JObject members) ->
        out = (Newsletter.Escaped
                 (Newsletter.AttributeError (Newsletter.type_name data) "get"),
               w)).
Proof.
  cbv zeta. unfold Newsletter.newsletter_subscribe. split.
  - destruct (negb (bool_decide (method request ∈ ["POST"]))); [by left|].
    destruct (negb (bool_decide (headers request !! "X-Requested-With" = _)));
      [by left|].
    destruct (json_loads body) as [data| |]; try by left.
    destruct (Newsletter.email_of lower data) as [e|email]; [by left|].
    destruct (_ || _); [by left|]. right. by eexists.
  - intros Hm Hh data Hload Hnot. rewrite Hm, Hh, Hload.
    rewrite (bool_decide_eq_true_2 ("POST" ∈ ["POST"]))
      by apply list_elem_of_here.
    rewrite (bool_decide_eq_true_2 (Some _ = Some _)) by reflexivity.
    cbn [negb]. destruct data; try reflexivity.
    by destruct (Hnot members).
Qed.

End NewsletterFacts.

Lemma newsletter_accepts_iff_at_sign_witness :
  let json_loads :=
    fun _ : list N =>
      Newsletter.Document
        (Newsletter.JObject [(lit "email", Newsletter.JString (lit " a@b "))]) in
  (Newsletter.newsletter_subscribe json_loads (fun s => s)
     (Scenario.post ∅) [] Scenario.empty_world).2
  = add_log (INFO, lit "Newsletter subscription request: a@b")
      Scenario.empty_world.
Proof.
  intros json_loads.
  destruct (newsletter_accepts_iff_at_sign json_loads (fun s => s)
              (fun s => conj (fun H => H) (fun H => H))
              (Scenario.post ∅) []
              [(lit "email", Newsletter.JString (lit " a@b "))]
              (lit " a@b ") Scenario.empty_world)
    as [Hyes _].
  - reflexivity.
  - reflexivity.
  - reflexivity.
  - reflexivity.
  - rewrite Hyes.
    + reflexivity.
    + vm_compute. do 2 apply list_elem_of_further. apply list_elem_of_here.
Defined.

Lemma newsletter_writes_log_only_witness :
  Newsletter.newsletter_subscribe
    (fun _ => Newsletter.Document (Newsletter.JArray []))
    (fun s => s) (Scenario.post ∅) [] Scenario.empty_world
  = (Newsletter.Escaped (Newsletter.AttributeError "list" "get"),
     Scenario.empty_world).
Proof.
  apply (proj2 (newsletter_writes_log_only
                  (fun _ => Newsletter.Document (Newsletter.JArray []))
                  (fun s => s) (Scenario.post ∅) [] Scenario.empty_world)
           eq_refl eq_refl (Newsletter.JArray []) eq_refl).
  intros members Hx. discriminate Hx.
Defined.

(** ** Routing *)

Lemma resolve_Some (p : str) (pattern : Urls.URLPattern) :
  Urls.resolve p = Some pattern ->
  pattern ∈ Urls.urlpatterns /\ Urls.route pattern = p.
Proof.
  unfold Urls.resolve.
  destruct (list_find _ Urls.urlpatterns) as [[i x]|] eqn:Hfind;
    [|intros Hx; discriminate Hx].
  cbn [mbind option_bind snd]. intros [= <-].
  apply list_find_Some in Hfind as (Hi & Hroute & _).
  split; [|exact Hroute]. apply list_elem_of_lookup. by exists i.
Qed.

(** X22. No pattern of urls.py shadows another: a path resolves to a
    pattern exactly when it is that pattern's route. The views
    [contact_form_ajax], [newsletter_subscribe], [robots_txt] and
    [sitemap_xml] are reached by no path through these patterns, and
    each legacy route reaches the view of the route it replaces. *)
Theorem urlpatterns_resolve (p : str) (pattern : Urls.URLPattern) :
  (Urls.resolve p = Some pattern
   <-> pattern ∈ Urls.urlpatterns /\ Urls.route pattern = p)
  /\ (Urls.resolve p = Some pattern ->
      Urls.view pattern ∈ [Urls.index_view; Urls.about_view;
                           Urls.gk_textiles_view; Urls.gk_steels_view;
                           Urls.contact_view])
  /\ Urls.view <$> Urls.resolve (lit "textile/")
     = Urls.view <$> Urls.resolve (lit "gk-textiles/")
  /\ Urls.view <$> Urls.resolve (lit "construction/")
     = Urls.view <$> Urls.resolve (lit "gk-steels/").
Proof.
  assert (Hback : pattern ∈ Urls.urlpatterns ->
                  Urls.resolve (Urls.route pattern) = Some pattern).
  { unfold Urls.urlpatterns. intros Hin.
    repeat (apply elem_of_cons in Hin as [->|Hin];
            [vm_compute; reflexivity|]).
    by apply elem_of_nil in Hin. }
  split; [split|split; [|split]].
  - apply resolve_Some.
  - intros [Hin <-]. by apply Hback.
  - intros Hres. apply resolve_Some in Hres as [Hin _].
    unfold Urls.urlpatterns in Hin.
    repeat (apply elem_of_cons in Hin as [->|Hin];
            [cbn [Urls.view];
             repeat (first [apply list_elem_of_here
                           |apply list_elem_of_further])|]).
    by apply elem_of_nil in Hin.
  - vm_compute. reflexivity.
  - vm_compute. reflexivity.
Qed.

(** X23. The sitemap lists five locations, and only three of them are
    routes of urls.py: the locations of [index], [about] and [contact]
    resolve, to the views of those names, while the locations of
    [gk_textiles] and [gk_steels] are spelled with an underscore where
    the routes have a hyphen and resolve to nothing. *)
Theorem sitemap_locations_against_routes (item : str) :
  item ∈ StaticViewSitemap.items ->
  let target := Urls.resolve (drop 1 (StaticViewSitemap.location item)) in
  (is_Some target
   <-> item ∈ [lit "index"; lit "about"; lit "contact"])
  /\ (item = lit "index" -> Urls.view <$> target = Some Urls.index_view)
  /\ (item = lit "about" -> Urls.view <$> target = Some Urls.about_view)
  /\ (item = lit "contact" -> Urls.view <$> target = Some Urls.contact_view)
  /\ (item = lit "gk_textiles" \/ item = lit "gk_steels" -> target = None).
Proof.
  intros Hin. unfold StaticViewSitemap.items in Hin. cbv zeta.
  assert (Hcases : item = lit "index" \/ item = lit "about"
                   \/ item = lit "gk_textiles" \/ item = lit "gk_steels"
                   \/ item = lit "contact").
  { repeat (apply elem_of_cons in Hin as [Hin|Hin]; [by eauto 6|]).
    by apply elem_of_nil in Hin. }
  clear Hin.
  destruct Hcases as [->|[->|[->|[->| ->]]]].
  - split; [split; [intros _; apply list_elem_of_here
                   |intros _; vm_compute; by eexists]|].
    repeat split; intros Hx; try (vm_compute; reflexivity);
      try (vm_compute in Hx; discriminate Hx).
    destruct Hx as [Hx|Hx]; vm_compute in Hx; discriminate Hx.
  - split; [split; [intros _; apply list_elem_of_further, list_elem_of_here
                   |intros _; vm_compute; by eexists]|].
    repeat split; intros Hx; try (vm_compute; reflexivity);
      try (vm_compute in Hx; discriminate Hx).
    destruct Hx as [Hx|Hx]; vm_compute in Hx; discriminate Hx.
  - split; [split|].
    + intros [x Hx]. vm_compute in Hx. discriminate Hx.
    + intros Hx.
      repeat (apply elem_of_cons in Hx as [Hx|Hx];
              [vm_compute in Hx; discriminate Hx|]).
      by apply elem_of_nil in Hx.
    + repeat split; intros Hx; try (vm_compute; reflexivity);
        vm_compute in Hx; discriminate Hx.
  - split; [split|].
    + intros [x Hx]. vm_compute in Hx. discriminate Hx.
    + intros Hx.
      repeat (apply elem_of_cons in Hx as [Hx|Hx];
              [vm_compute in Hx; discriminate Hx|]).
      by apply elem_of_nil in Hx.
    + repeat split; intros Hx; try (vm_compute; reflexivity);
        vm_compute in Hx; discriminate Hx.
  - split; [split; [intros _;
                    do 2 apply list_elem_of_further; apply list_elem_of_here
                   |intros _; vm_compute; by eexists]|].
    repeat split; intros Hx; try (vm_compute; reflexivity);
      try (vm_compute in Hx; discriminate Hx).
    destruct Hx as [Hx|Hx]; vm_compute in Hx; discriminate Hx.
Qed.

Lemma sitemap_locations_against_routes_witness :
  Urls.resolve (drop 1 (StaticViewSitemap.location (lit "gk_textiles")))
  = None
  /\ is_Some (Urls.resolve (drop 1 (StaticViewSitemap.location (lit "about")))).
Proof.
  split.
  - apply (sitemap_locations_against_routes (lit "gk_textiles")).
    + do 2 apply list_elem_of_further. apply list_elem_of_here.
    + by left.
  - apply (sitemap_locations_against_routes (lit "about")).
    + apply list_elem_of_further. apply list_elem_of_here.
    + apply list_elem_of_further. apply list_elem_of_here.
Defined.

(** ** What admin.py registers *)

(** X24. Loading admin.py on a site where none of the three models is
    registered succeeds, and leaves each of them registered with the
    class its closing loop generates from [GKGroupModelAdmin], not with
    the class the decorator registered; the models of other applications
    keep their registration. On a site where one of the three is already
    registered the first conflicting decorator raises
    [AlreadyRegistered] and nothing is registered. *)
Theorem admin_module_registers_generated_classes
  (registry : AdminSite.Registry) :
  (registry AdminSite.ContactMessageModel = None ->
   registry AdminSite.SiteContentModel = None ->
   registry AdminSite.TeamMemberModel = None ->
   exists registry',
     AdminSite.load registry = inr registry'
     /\ (forall model,
           model = AdminSite.ContactMessageModel
           \/ model = AdminSite.SiteContentModel
           \/ model = AdminSite.TeamMemberModel ->
           registry' model = Some (AdminSite.Generated model))
     /\ (forall label,
           registry' (AdminSite.OtherModel label)
           = registry (AdminSite.OtherModel label)))
  /\ (forall model,
        model ∈ [AdminSite.ContactMessageModel; AdminSite.SiteContentModel;
                 AdminSite.TeamMemberModel] ->
        is_Some (registry model) ->
        exists model', AdminSite.load registry
                       = inl (AdminSite.AlreadyRegistered model')).
Proof.
  unfold AdminSite.load. cbn [foldl app fmap list_fmap AdminSite.and_then].
  unfold AdminSite.reregister, AdminSite.register, AdminSite.unregister,
    AdminSite.and_then.
  split.
  - intros Hc Hs Ht. rewrite Hc.
    repeat (first [rewrite Hs | rewrite Ht
                  | rewrite decide_True by reflexivity
                  | rewrite decide_False by discriminate]).
    eexists. split; [reflexivity|]. split.
    + intros model [->|[->| ->]];
        repeat (first [rewrite decide_True by reflexivity
                      | rewrite decide_False by discriminate]);
        reflexivity.
    + intros label.
      repeat (rewrite decide_False by discriminate). reflexivity.
  - intros model Hin [c Hreg].
    destruct (registry AdminSite.ContactMessageModel) eqn:Hc;
      [by eexists|].
    repeat (first [rewrite decide_True by reflexivity
                  | rewrite decide_False by discriminate]).
    destruct (registry AdminSite.SiteContentModel) eqn:Hs;
      [by eexists|].
    repeat (first [rewrite decide_True by reflexivity
                  | rewrite decide_False by discriminate]).
    destruct (registry AdminSite.TeamMemberModel) eqn:Ht;
      [by eexists|].
    repeat (apply elem_of_cons in Hin as [->|Hin]; [congruence|]).
    by apply elem_of_nil in Hin.
Qed.

Lemma admin_module_registers_generated_classes_witness :
  exists registry',
    AdminSite.load
      (fun model =>
         match model with
         | AdminSite.OtherModel _ => Some (AdminSite.OtherAdmin "UserAdmin")
         | _ => None
         end) = inr registry'
    /\ registry' AdminSite.ContactMessageModel
       = Some (AdminSite.Generated AdminSite.ContactMessageModel)
    /\ registry' (AdminSite.OtherModel "User")
       = Some (AdminSite.OtherAdmin "UserAdmin").
Proof.
  destruct (proj1 (admin_module_registers_generated_classes
                     (fun model =>
                        match model with
                        | AdminSite.OtherModel _ =>
                            Some (AdminSite.OtherAdmin "UserAdmin")
                        | _ => None
                        end)) eq_refl eq_refl eq_refl)
    as (registry' & Hload & Hown & Hother).
  exists registry'. split; [exact Hload|]. split.
  - apply Hown. by left.
  - apply Hother.
Defined.
